(** * Swimrankings scraper: a shallow embedding and its checked properties

    The development follows the Python package [swimrankingsscraper]:
    - [utils.py]            : [convert_time];
    - [session_manager.py]  : [SessionManager] (sliding-window rate limit);
    - [mixins.py]           : [ScraperMixin] (single-slot page cache);
    - [athlete.py], [meet.py]: the listing operations over a parsed page.

    Python exceptions are values of [result]; object state is threaded
    through a small state-and-exception monad in which the state survives
    a raise, as it does in Python.  The HTTP transport and the HTML parser
    are primitives: the world holds the replies the server will give, each
    already parsed.  What [time.time()] returns is idealised as an exact
    integer number of seconds, and only sleeping, a request, and the
    caller's own pauses let time go by; the seconds value computed by
    [convert_time] is a binary64 float, as in Python. *)

From Stdlib Require Import ZArith String Ascii List Lia Bool Sorted.
From Stdlib Require Import Floats.PrimFloat Floats.FloatAxioms.
From Stdlib Require Import Numbers.Cyclic.Int63.Uint63.
From stdpp Require Import base option list gmap strings.

Set Warnings "-inexact-float,-register-all".
Local Open Scope Z_scope.

(** ** Exceptions and results *)

Inductive exn : Type :=
  | AttributeError
  | TypeError
  | KeyError
  | ValueError
  | IndexError
  | ConnectionError     (* requests.ConnectionError, a RequestException *)
  | HTTPError           (* raised by raise_for_status, a RequestException *)
  | EmptyResponse.      (* requests.RequestException("Empty response") *)

Inductive result (A : Type) : Type :=
  | Ok (a : A)
  | Raise (e : exn).
Arguments Ok {A} a.
Arguments Raise {A} e.

Definition rbind {A B} (r : result A) (k : A -> result B) : result B :=
  match r with
  | Ok a => k a
  | Raise e => Raise e
  end.

Declare Scope res_scope.
Delimit Scope res_scope with res.
Notation "x <~ r ; k" := (rbind r (fun x => k))
  (at level 100, r at next level, right associativity) : res_scope.

(** [isinstance(e, requests.RequestException)] *)
Definition is_RequestException (e : exn) : bool :=
  match e with
  | ConnectionError | HTTPError | EmptyResponse => true
  | _ => false
  end.

(** ** Python string primitives (byte strings; ASCII text) *)

Module Str.

Fixpoint last (s : string) : option ascii :=
  match s with
  | EmptyString => None
  | String c EmptyString => Some c
  | String _ s' => last s'
  end.

(** [s[:-1]] *)
Fixpoint drop_last (s : string) : string :=
  match s with
  | EmptyString => EmptyString
  | String _ EmptyString => EmptyString
  | String c s' => String c (drop_last s')
  end.

(** [s.count(c)] for a one-character needle *)
Fixpoint count (c : ascii) (s : string) : Z :=
  match s with
  | EmptyString => 0
  | String d s' => (if Ascii.eqb d c then 1 else 0) + count c s'
  end.

Definition digit_val (c : ascii) : option Z :=
  let n := Z.of_N (N_of_ascii c) in
  if (48 <=? n) && (n <=? 57) then Some (n - 48) else None.

End Str.

(** ** utils.py: convert_time *)

Module Utils.

(** The directives of the three [strptime] formats the function uses. *)
Inductive directive : Type :=
  | dH | dM | dS | df
  | dLit (c : ascii).

(** What [datetime.strptime(...).time()] holds. *)
Record time : Type := mkTime {
  hour : Z;
  minute : Z;
  second : Z;
  microsecond : Z
}.

Definition set_field (d : directive) (v : Z) (t : time) : time :=
  match d with
  | dH => mkTime v (minute t) (second t) (microsecond t)
  | dM => mkTime (hour t) v (second t) (microsecond t)
  | dS => mkTime (hour t) (minute t) v (microsecond t)
  | df => mkTime (hour t) (minute t) (second t) v
  | dLit _ => t
  end.

(** One or two digits whose value satisfies [ok2] when two are taken:
    the alternatives [XY|\d] of a numeric directive, two-digit
    alternative first, as the regular-expression engine tries them. *)
Definition two_then_one (ok2 : Z -> Z -> bool) (s : string)
  : list (Z * string) :=
  match s with
  | String c1 rest1 =>
      match Str.digit_val c1 with
      | Some d1 =>
          (match rest1 with
           | String c2 rest2 =>
               match Str.digit_val c2 with
               | Some d2 =>
                   if ok2 d1 d2 then [(10 * d1 + d2, rest2)] else []
               | None => []
               end
           | EmptyString => []
           end) ++ [(d1, rest1)]
      | None => []
      end
  | EmptyString => []
  end.

(** [%f] is [[0-9]{1,6}], greedy: the candidates are the digit prefixes
    of length 6 down to 1; the value is the digits right-padded with
    zeros to six places. *)
Fixpoint frac_candidates (n : nat) (acc : Z) (s : string)
  : list (Z * string) :=
  match n with
  | O => []
  | S n' =>
      match s with
      | String c rest =>
          match Str.digit_val c with
          | Some d =>
              let acc' := acc + d * 10 ^ Z.of_nat n' in
              frac_candidates n' acc' rest ++ [(acc', rest)]
          | None => []
          end
      | EmptyString => []
      end
  end.

(** All ways a directive can match a prefix of [s], in the order the
    backtracking matcher explores them. *)
Definition candidates (d : directive) (s : string) : list (Z * string) :=
  match d with
  | dH => (* 2[0-3]|[0-1]\d|\d *)
      two_then_one (fun d1 d2 => (d1 =? 2) && (d2 <=? 3) || (d1 <=? 1)) s
  | dM => (* [0-5]\d|\d *)
      two_then_one (fun d1 _ => d1 <=? 5) s
  | dS => (* 6[0-1]|[0-5]\d|\d *)
      two_then_one (fun d1 d2 => (d1 =? 6) && (d2 <=? 1) || (d1 <=? 5)) s
  | df => frac_candidates 6 0 s
  | dLit c =>
      match s with
      | String c' rest => if Ascii.eqb c' c then [(0, rest)] else []
      | EmptyString => []
      end
  end.

(** [format_regex.match(data_string)]: first success of the
    backtracking search; returns the fields and the unmatched rest. *)
Fixpoint re_match (fmt : list directive) (s : string) (t : time)
  : option (time * string) :=
  match fmt with
  | [] => Some (t, s)
  | d :: fmt' =>
      (fix try (cs : list (Z * string)) : option (time * string) :=
         match cs with
         | [] => None
         | (v, rest) :: cs' =>
             match re_match fmt' rest (set_field d v t) with
             | Some r => Some r
             | None => try cs'
             end
         end) (candidates d s)
  end.

(** [datetime.strptime(s, fmt).time()]: no match, unconverted data, or a
    seconds field of 60/61 (accepted by the pattern, refused by the
    [datetime] constructor) raise [ValueError]. *)
Definition strptime_time (s : string) (fmt : list directive) : result time :=
  match re_match fmt s (mkTime 0 0 0 0) with
  | None => Raise ValueError
  | Some (t, rest) =>
      match rest with
      | EmptyString =>
          if second t <=? 59 then Ok t else Raise ValueError
      | String _ _ => Raise ValueError
      end
  end.

Definition fmt_HMSf : list directive :=
  [dH; dLit ":"; dM; dLit ":"; dS; dLit "."; df].
Definition fmt_MSf : list directive := [dM; dLit ":"; dS; dLit "."; df].
Definition fmt_Sf : list directive := [dS; dLit "."; df].

(** [float(n)] for the small non-negative integers that occur here. *)
Definition float_of_Z (z : Z) : float := PrimFloat.of_uint63 (Uint63.of_Z z).

(** [time.second + time.minute * 60 + time.hour * 3600
     + time.microsecond / 1000000]: the integer part is summed exactly,
    the division and the final addition are binary64. *)
Definition total_second (t : time) : float :=
  PrimFloat.add
    (float_of_Z (second t + minute t * 60 + hour t * 3600))
    (PrimFloat.div (float_of_Z (microsecond t)) (float_of_Z 1000000)).

Definition convert_time (time_str : string) : result float :=
  match Str.last time_str with
  | None => Raise IndexError            (* time_str[-1] on '' *)
  | Some c =>
      let time_str :=
        if Ascii.eqb c "M" then Str.drop_last time_str else time_str in
      let col_count := Str.count ":" time_str in
      let time_format :=
        if col_count =? 2 then fmt_HMSf
        else if col_count =? 1 then fmt_MSf
        else fmt_Sf in
      (t <~ strptime_time time_str time_format;
       Ok (total_second t))%res
  end.

End Utils.

(** ** A parsed page (what [BeautifulSoup(page.content, "lxml")] builds)

    The HTML parser is a primitive of the program; a page is modelled by
    the tree the parser hands back.  A tag carries its name, the list held
    under its multi-valued [class] attribute, and its other attributes. *)

Module Bs4.

Inductive node : Type :=
  | Tag (name : string) (classes : list string)
        (attrs : gmap string string) (contents : list node)
  | NavigableString (text : string).

(** A [BeautifulSoup] object: the document root and its children. *)
Definition soup : Type := list node.

(** [tag.descendants]: document order (pre-order). *)
Fixpoint descendants (n : node) : list node :=
  match n with
  | Tag _ _ _ cs =>
      (fix walk (l : list node) : list node :=
         match l with
         | [] => []
         | c :: l' => c :: descendants c ++ walk l'
         end) cs
  | NavigableString _ => []
  end.

Definition soup_descendants (doc : soup) : list node :=
  descendants (Tag "[document]" [] ∅ doc).

(** The filter [name, {'class': wanted}]: the tag name is [name] and one
    of the tag's classes is one of [wanted]; an empty [wanted] stands for
    a search by name alone. *)
Definition matches (name : string) (wanted : list string) (n : node) : bool :=
  match n with
  | Tag nm cl _ _ =>
      String.eqb nm name &&
      match wanted with
      | [] => true
      | _ => existsb (fun c => existsb (String.eqb c) wanted) cl
      end
  | NavigableString _ => false
  end.

Definition find_all (name : string) (wanted : list string) (n : node)
  : list node :=
  List.filter (matches name wanted) (descendants n).

(** [tag.find(...)]: the first match, or [None]. *)
Definition find (name : string) (wanted : list string) (n : node)
  : option node :=
  head (find_all name wanted n).

Definition soup_find (name : string) (wanted : list string) (doc : soup)
  : option node :=
  head (List.filter (matches name wanted) (soup_descendants doc)).

(** [tag[key]]: [KeyError] when the attribute is missing. *)
Definition getitem (n : node) (key : string) : result string :=
  match n with
  | Tag _ _ at_ _ =>
      match at_ !! key with
      | Some v => Ok v
      | None => Raise KeyError
      end
  | NavigableString _ => Raise TypeError
  end.

(** [str.isspace] on one ASCII character. *)
Definition is_space (c : ascii) : bool :=
  let n := N_of_ascii c in
  ((9 <=? n) && (n <=? 13) || (28 <=? n) && (n <=? 32))%N.

Fixpoint lstrip (s : string) : string :=
  match s with
  | String c s' => if is_space c then lstrip s' else s
  | EmptyString => EmptyString
  end.

(** Drops trailing white space: a character is kept when it is not a
    space or something is kept after it. *)
Fixpoint rstrip (s : string) : string :=
  match s with
  | String c s' =>
      match rstrip s' with
      | EmptyString => if is_space c then EmptyString else String c EmptyString
      | r => String c r
      end
  | EmptyString => EmptyString
  end.

Definition strip (s : string) : string := rstrip (lstrip s).

(** [tag.get_text(strip=True)]: every descendant string, stripped, the
    empty ones skipped, joined without a separator. *)
Definition get_text_strip (n : node) : string :=
  fold_right
    (fun d acc =>
       match d with
       | NavigableString t => String.append (strip t) acc
       | Tag _ _ _ _ => acc
       end)
    EmptyString (descendants n).

(** [tag.text]: every descendant string, as it is, joined without a
    separator. *)
Definition text (n : node) : string :=
  fold_right
    (fun d acc =>
       match d with
       | NavigableString t => String.append t acc
       | Tag _ _ _ _ => acc
       end)
    EmptyString (descendants n).

(** [soup.find_all(name, {'class': wanted})] *)
Definition soup_find_all (name : string) (wanted : list string) (doc : soup)
  : list node :=
  List.filter (matches name wanted) (soup_descendants doc).

(** The filter [name, {key: value}] on an attribute other than [class]. *)
Definition matches_attr (name key value : string) (n : node) : bool :=
  match n with
  | Tag nm _ at_ _ =>
      String.eqb nm name &&
      match at_ !! key with
      | Some v => String.eqb v value
      | None => false
      end
  | NavigableString _ => false
  end.

(** [soup.find(name, {key: value})] *)
Definition soup_find_attr (name key value : string) (doc : soup) : option node :=
  head (List.filter (matches_attr name key value) (soup_descendants doc)).

End Bs4.

(** ** The outside world: clock, network, console *)

(** A value of a request parameter: the facades pass strings, integers
    and [None]. *)
Inductive scalar : Type :=
  | PStr (s : string)
  | PInt (z : Z)
  | PNone.

Global Instance scalar_eq_dec : EqDecision scalar.
Proof. solve_decision. Defined.

(** A Python [dict] of request parameters; dict equality is extensional. *)
Abbreviation Params := (gmap string scalar).

(** What the server does with one request; the transfer lasts [latency]
    seconds. *)
Inductive response : Type :=
  | NoConnection (latency : N)
  | Reply (latency : N) (status_code : Z) (content : Bs4.soup).

Record World : Type := mkWorld {
  now : Z;                      (* what time.time() returns *)
  network : list response;      (* the answers the server will give *)
  sent : list Params;           (* every GET that was dispatched *)
  stdout : list exn             (* "Error fetching data: {e}" lines *)
}.

(** ** State and exceptions: the state survives a raise *)

Definition M (S A : Type) : Type := S -> result A * S.

Definition ret {S A} (a : A) : M S A := fun s => (Ok a, s).
Definition raise {S A} (e : exn) : M S A := fun s => (Raise e, s).
Definition bind {S A B} (m : M S A) (k : A -> M S B) : M S B :=
  fun s =>
    match m s with
    | (Ok a, s') => k a s'
    | (Raise e, s') => (Raise e, s')
    end.
Definition get {S} : M S S := fun s => (Ok s, s).
Definition modify {S} (f : S -> S) : M S unit := fun s => (Ok tt, f s).

(** [try: body  except <caught> as e: handler(e)] *)
Definition try_except {S A} (body : M S A) (caught : exn -> bool)
    (handler : exn -> M S A) : M S A :=
  fun s =>
    match body s with
    | (Ok a, s') => (Ok a, s')
    | (Raise e, s') => if caught e then handler e s' else (Raise e, s')
    end.

Declare Scope py_scope.
Delimit Scope py_scope with py.
Notation "x <- c1 ;; c2" := (bind c1 (fun x => c2))
  (at level 100, c1 at next level, right associativity) : py_scope.
Notation "c1 ;; c2" := (bind c1 (fun _ => c2))
  (at level 100, right associativity) : py_scope.

(** ** session_manager.py: SessionManager *)

Record SessionManager : Type := mkSessionManager {
  request_history : list Z;
  max_requests_per_second : Z;
  max_per : Z
}.

(** The shared part of the heap: the one [SessionManager] every facade
    holds a reference to, and the world. *)
Record Env : Type := mkEnv {
  manager : SessionManager;
  world : World
}.

Definition set_world (f : World -> World) : M Env unit :=
  modify (fun s => mkEnv (manager s) (f (world s))).

Definition set_request_history (h : list Z) : M Env unit :=
  modify (fun s =>
    mkEnv (mkSessionManager h (max_requests_per_second (manager s))
             (max_per (manager s)))
          (world s)).

(** [time.time()] *)
Definition time_time : M Env Z := fun s => (Ok (now (world s)), s).

(** [time.sleep(secs)]: a negative length is a [ValueError]. *)
Definition time_sleep (secs : Z) : M Env unit :=
  if secs <? 0 then raise ValueError
  else set_world (fun w =>
         mkWorld (now w + secs) (network w) (sent w) (stdout w)).

(** The caller lets [secs] seconds go by between two calls. *)
Definition elapse (secs : N) (s : Env) : Env :=
  let w := world s in
  mkEnv (manager s)
        (mkWorld (now w + Z.of_N secs) (network w) (sent w) (stdout w)).

Module SessionManager.

(** [__init__(max_requests_per_timeframe)]: stores the pair as given. *)
Definition init (max_requests_per_timeframe : Z * Z) : result SessionManager :=
  Ok (mkSessionManager [] (fst max_requests_per_timeframe)
        (snd max_requests_per_timeframe)).

Definition add_request : M Env unit :=
  (request_time <- time_time ;;
   s <- get ;;
   set_request_history (request_history (manager s) ++ [request_time]))%py.

Definition check_request_rate_limit : M Env unit :=
  (current_time <- time_time ;;
   s <- get ;;
   let self := manager s in
   let window_start_time := current_time - max_per self in
   let valid_requests :=
     List.filter (fun t => window_start_time <? t) (request_history self) in
   if max_requests_per_second self <=? Z.of_nat (length valid_requests) then
     match valid_requests with
     | [] => raise IndexError                       (* valid_requests[0] *)
     | oldest :: _ =>
         let time_to_wait := oldest + max_per self - current_time in
         time_sleep time_to_wait ;;
         set_request_history
           (List.filter (fun t => window_start_time + time_to_wait <? t)
              (request_history self))
     end
   else ret tt)%py.

End SessionManager.

(** ** mixins.py: ScraperMixin *)

Record page : Type := mkPage {
  status_code : Z;
  content : Bs4.soup
}.

(** [session.get(BASE_URL, params=params)]: the request is dispatched, the
    world answers with its next scripted response (a connection failure
    once the script is exhausted). *)
Definition session_get (params : Params) : M Env page :=
  fun s =>
    let w := world s in
    match network w with
    | [] =>
        (Raise ConnectionError,
         mkEnv (manager s)
               (mkWorld (now w) [] (sent w ++ [params]) (stdout w)))
    | NoConnection lat :: rest =>
        (Raise ConnectionError,
         mkEnv (manager s)
               (mkWorld (now w + Z.of_N lat) rest (sent w ++ [params])
                        (stdout w)))
    | Reply lat code doc :: rest =>
        (Ok (mkPage code doc),
         mkEnv (manager s)
               (mkWorld (now w + Z.of_N lat) rest (sent w ++ [params])
                        (stdout w)))
    end.

(** [page.raise_for_status()]: 4xx and 5xx raise [HTTPError]. *)
Definition raise_for_status {S} (p : page) : M S unit :=
  if (400 <=? status_code p) && (status_code p <? 600)
  then raise HTTPError else ret tt.

Record ScraperMixin : Type := mkScraperMixin {
  last_request : option Params;
  page_content : option Bs4.soup;
  update_interval : Z;
  last_updated : option Z
}.

(** One facade object together with what it refers to. *)
Record Sys : Type := mkSys {
  self : ScraperMixin;
  env : Env
}.

(** Run a computation on the shared part. *)
Definition on_env {A} (m : M Env A) : M Sys A :=
  fun s =>
    let '(r, e) := m (env s) in (r, mkSys (self s) e).

Definition set_self (f : ScraperMixin -> ScraperMixin) : M Sys unit :=
  modify (fun s => mkSys (f (self s)) (env s)).

(** [print(f"Error fetching data: {e}")] *)
Definition print_error (e : exn) : M Sys unit :=
  on_env (set_world (fun w =>
    mkWorld (now w) (network w) (sent w) (stdout w ++ [e]))).

Module ScraperMixin.

Definition init (update_interval : Z) : ScraperMixin :=
  mkScraperMixin None None update_interval None.

Definition _update_page_content (params : Params) : M Sys unit :=
  try_except
    (on_env SessionManager.check_request_rate_limit ;;
     page <- on_env (session_get params) ;;
     raise_for_status page ;;
     set_self (fun o => mkScraperMixin (last_request o) (Some (content page))
                          (update_interval o) (last_updated o)) ;;
     t <- on_env time_time ;;
     set_self (fun o => mkScraperMixin (last_request o) (page_content o)
                          (update_interval o) (Some t)) ;;
     on_env SessionManager.add_request ;;
     match Bs4.soup_find "body" [] (content page) with
     | None => raise EmptyResponse
     | Some _ => ret tt
     end)%py
    is_RequestException
    print_error.

(** The test of [_get_page_content]; [or] is evaluated left to right and
    the clock is only read when the first two disjuncts are false. *)
Definition needs_update (o : ScraperMixin) (params : Params) (clock : Z) : bool :=
  match last_updated o with
  | None => true
  | Some lu =>
      negb (bool_decide (last_request o = Some params))
      || (update_interval o <? clock - lu)
  end.

Definition _get_page_content (params : Params) : M Sys (option Bs4.soup) :=
  (s <- get ;;
   clock <- on_env time_time ;;
   (if needs_update (self s) params clock
    then _update_page_content params else ret tt) ;;
   set_self (fun o => mkScraperMixin (Some params) (page_content o)
                        (update_interval o) (last_updated o)) ;;
   s' <- get ;;
   ret (page_content (self s')))%py.

End ScraperMixin.

(** ** Library calls of the extraction code

    [str.replace], [in], [int], [urlparse(...).query] and [parse_qs] on
    byte strings holding ASCII text. *)

Module Py.

Fixpoint starts_with (p s : string) : bool :=
  match p, s with
  | EmptyString, _ => true
  | String a p', String b s' => Ascii.eqb a b && starts_with p' s'
  | String _ _, EmptyString => false
  end.

(** [old in s] *)
Fixpoint contains (old s : string) : bool :=
  starts_with old s ||
  match s with
  | String _ s' => contains old s'
  | EmptyString => false
  end.

(** [s.replace(old, new)] for a non-empty [old]: occurrences are replaced
    left to right without overlap; [skip] counts the characters of the
    occurrence just replaced that are still to be passed over. *)
Fixpoint replace_from (skip : nat) (old new s : string) : string :=
  match s with
  | EmptyString => EmptyString
  | String c s' =>
      match skip with
      | S k => replace_from k old new s'
      | O =>
          if starts_with old s
          then String.append new (replace_from (String.length old - 1) old new s')
          else String c (replace_from O old new s')
      end
  end.

Definition replace (old new s : string) : string := replace_from O old new s.

(** Digits with single underscores between them, as [int] accepts. *)
Fixpoint int_digits (acc : Z) (after_digit : bool) (s : string) : option Z :=
  match s with
  | EmptyString => if after_digit then Some acc else None
  | String c s' =>
      match Str.digit_val c with
      | Some d => int_digits (10 * acc + d) true s'
      | None =>
          if Ascii.eqb c "_" && after_digit then int_digits acc false s'
          else None
      end
  end.

(** [int(s)]: surrounding white space and a sign are allowed; anything
    else is a [ValueError]. *)
Definition int (s : string) : result Z :=
  let s := Bs4.strip s in
  let '(sign, body) :=
    match s with
    | String "-" r => (-1, r)
    | String "+" r => (1, r)
    | _ => (1, s)
    end in
  match int_digits 0 false body with
  | Some n => Ok (sign * n)
  | None => Raise ValueError
  end.

(** [s.split(sep, 1)]: the text before the first [sep] and, when [sep]
    occurs, the text after it. *)
Fixpoint split1 (sep : ascii) (s : string) : string * option string :=
  match s with
  | EmptyString => (EmptyString, None)
  | String c s' =>
      if Ascii.eqb c sep then (EmptyString, Some s')
      else let '(a, b) := split1 sep s' in (String c a, b)
  end.

(** [s.split(sep)] *)
Fixpoint split (sep : ascii) (s : string) : list string :=
  match s with
  | EmptyString => [EmptyString]
  | String c s' =>
      if Ascii.eqb c sep then EmptyString :: split sep s'
      else match split sep s' with
           | w :: ws => String c w :: ws
           | [] => [String c EmptyString]
           end
  end.

(** [urlparse(url).query]: the fragment is cut at the first [#], the
    query is what follows the first [?] of the remainder.  (For links
    without tab or newline characters and without a bracketed host, which
    [urlparse] would strip or refuse with [ValueError].) *)
Definition urlparse_query (url : string) : string :=
  match snd (split1 "?" (fst (split1 "#" url))) with
  | Some q => q
  | None => EmptyString
  end.

Definition hex_val (c : ascii) : option N :=
  let n := N_of_ascii c in
  (if (48 <=? n) && (n <=? 57) then Some (n - 48)
   else if (65 <=? n) && (n <=? 70) then Some (n - 55)
   else if (97 <=? n) && (n <=? 102) then Some (n - 87)
   else None)%N.

(** [unquote(s.replace('+', ' '))] *)
Fixpoint unquote_plus (s : string) : string :=
  match s with
  | EmptyString => EmptyString
  | String "%" (String h (String l rest) as tl) =>
      match hex_val h, hex_val l with
      | Some a, Some b => String (ascii_of_N (16 * a + b)) (unquote_plus rest)
      | _, _ => String "%" (unquote_plus tl)
      end
  | String c rest =>
      String (if Ascii.eqb c "+" then " "%char else c) (unquote_plus rest)
  end.

(** [parse_qs(qs)] lists, in order, the decoded [(name, value)] pairs of
    the fields that have an [=] and a non-blank value. *)
Definition parse_qsl (qs : string) : list (string * string) :=
  flat_map
    (fun name_value =>
       match split1 "=" name_value with
       | (name, Some value) =>
           match value with
           | EmptyString => []
           | _ => [(unquote_plus name, unquote_plus value)]
           end
       | (_, None) => []
       end)
    (split "&" qs).

(** [parse_qs(qs)[key][0]]: the first value recorded under [key]. *)
Definition parse_qs_first (qs key : string) : result string :=
  match List.find (fun nv => String.eqb (fst nv) key) (parse_qsl qs) with
  | Some nv => Ok (snd nv)
  | None => Raise KeyError
  end.

(** [unicodedata.normalize("NFKD", s)]: the identity on ASCII text. *)
Definition normalize_NFKD (s : string) : string := s.

End Py.

(** ** Records returned to callers *)

Inductive value : Type :=
  | VInt (z : Z)
  | VStr (s : string)
  | VFloat (f : float).

(** A Python [dict] from field name to value. *)
Abbreviation Record_ := (gmap string value).

(** A method call on something that may be [None]:
    [None.find], [None.get_text] raise [AttributeError]. *)
Definition attr_of {A} (o : option A) : result A :=
  match o with
  | Some a => Ok a
  | None => Raise AttributeError
  end.

(** [o[key]] on something that may be [None]: [None[key]] is a
    [TypeError]. *)
Definition subscript (o : option Bs4.node) (key : string) : result string :=
  match o with
  | Some n => Bs4.getitem n key
  | None => Raise TypeError
  end.

Definition lift {S A} (r : result A) : M S A := fun s => (r, s).

(** Run a method of a facade object created on the spot and dropped
    afterwards. *)
Definition with_instance {A} (o : ScraperMixin) (m : M Sys A) : M Env A :=
  fun e => let '(r, s) := m (mkSys o e) in (r, env s).

Definition is_AttributeError (e : exn) : bool :=
  match e with AttributeError => true | _ => false end.

(** ** What the listing methods share *)

(** The [try] block shared by the listing methods:
    [soup = self._get_page_content(params); table = soup.find(...)],
    with [except AttributeError: return []].  The outcome is [None] when
    the handler returned, else what [soup.find] gave. *)
Definition fetch_table (params : Params) (name : string) (wanted : list string)
  : M Sys (option (option Bs4.node)) :=
  try_except
    (soup <- ScraperMixin._get_page_content params ;;
     doc <- lift (attr_of soup) ;;
     ret (Some (Bs4.soup_find name wanted doc)))%py
    is_AttributeError (fun _ => ret None).

(** A [for] loop without a [try]: the first row that raises ends it. *)
Fixpoint for_rows (body : Bs4.node -> result Record_) (rows : list Bs4.node)
    (data : list Record_) : result (list Record_) :=
  match rows with
  | [] => Ok data
  | row :: rows' =>
      (r <~ body row; for_rows body rows' (data ++ [r]))%res
  end.

(** The part of a listing method after its [try] block:
    [table.find_all(...)] is called on whatever [soup.find] returned. *)
Definition rows_of (table : option Bs4.node) (wanted : list string)
    (body : Bs4.node -> result Record_) : result (list Record_) :=
  (t <~ attr_of table;
   for_rows body (Bs4.find_all "tr" wanted t) [])%res.

(** [l[i]] for a Python list and an integer index: negative indices count
    from the end, anything outside raises [IndexError]. *)
Definition list_index {A} (l : list A) (i : Z) : result A :=
  let n := Z.of_nat (length l) in
  let j := if i <? 0 then i + n else i in
  if (0 <=? j) && (j <? n) then
    match nth_error l (Z.to_nat j) with
    | Some a => Ok a
    | None => Raise IndexError
    end
  else Raise IndexError.

(** The [try] block of the methods that go through every matching table:
    [soup = self._get_page_content(params);
     tables = soup.find_all('table', {'class': wanted})],
    with [except AttributeError: return []].  The outcome is [None] when
    the handler returned. *)
Definition fetch_tables (params : Params) (wanted : list string)
  : M Sys (option (list Bs4.node)) :=
  try_except
    (soup <- ScraperMixin._get_page_content params ;;
     doc <- lift (attr_of soup) ;;
     ret (Some (Bs4.soup_find_all "table" wanted doc)))%py
    is_AttributeError (fun _ => ret None).

(** ** athlete.py *)

Module Athlete.

(** The body of the [try] inside the loop of [search_athletes];
    [None] stands for [continue]. *)
Definition search_row (row : Bs4.node) : result (option Record_) :=
  match Bs4.find "td" ["name"] row with
  | None => Ok None
  | Some name_cell =>
      match Bs4.find "a" [] name_cell with
      | None => Ok None
      | Some name_link =>
          (let athlete_name :=
             Py.replace "</b>" "" (Py.replace "<b>" "" (Bs4.get_text_strip name_link)) in
           athlete_url <~ Bs4.getitem name_link "href";
           id_text <~ Py.parse_qs_first (Py.urlparse_query athlete_url) "athleteId";
           athlete_id <~ Py.int id_text;
           let birth_year :=
             match Bs4.find "td" ["date"] row with
             | Some date_cell => Bs4.get_text_strip date_cell
             | None => EmptyString
             end in
           gender <~ match Bs4.find "img" [] row with
                     | Some gender_img =>
                         src <~ Bs4.getitem gender_img "src";
                         Ok (if Py.contains "gender1.png" src then "m" else "f")
                     | None => Ok "f"
                     end;
           let country_code :=
             match Bs4.find "td" ["code"] row with
             | Some code_cell => Bs4.get_text_strip code_cell
             | None => EmptyString
             end in
           let club_name :=
             match Bs4.find "td" ["club"] row with
             | Some club_cell => Bs4.get_text_strip club_cell
             | None => EmptyString
             end in
           Ok (Some (<["athlete_id" := VInt athlete_id]>
                    (<["name" := VStr athlete_name]>
                    (<["birth_year" := VStr birth_year]>
                    (<["gender" := VStr gender]>
                    (<["country_code" := VStr country_code]>
                    (<["club_name" := VStr club_name]> ∅))))))))%res
      end
  end.

(** [except (AttributeError, ValueError, KeyError, IndexError)] *)
Definition row_error (e : exn) : bool :=
  match e with
  | AttributeError | ValueError | KeyError | IndexError => true
  | _ => false
  end.

(** The [for] loop of [search_athletes]: a row that raises one of the
    caught exceptions is skipped. *)
Fixpoint search_rows (rows : list Bs4.node) (data : list Record_)
  : result (list Record_) :=
  match rows with
  | [] => Ok data
  | row :: rows' =>
      match search_row row with
      | Ok (Some r) => search_rows rows' (data ++ [r])
      | Ok None => search_rows rows' data
      | Raise e => if row_error e then search_rows rows' data else Raise e
      end
  end.

(** What [search_athletes] does with the page it got ([None] when no
    page is held). *)
Definition search_extract (soup : option Bs4.soup) : result (list Record_) :=
  match soup with
  | None => Ok []                               (* AttributeError, caught *)
  | Some doc =>
      match Bs4.soup_find "table" ["athleteSearch"] doc with
      | None => Ok []                           (* if not table *)
      | Some table =>
          search_rows
            (Bs4.find_all "tr" ["athleteSearch0"; "athleteSearch1"] table) []
      end
  end.

Definition search_params (name : string) (club_id gender : Z) : Params :=
  <["internalRequest" := PStr "athleteFind"]>
  (<["athlete_clubId" := PInt club_id]>
  (<["athlete_gender" := PInt gender]>
  (<["athlete_lastname" := PStr name]>
  (<["athlete_firstname" := PStr ""]> ∅)))).

(** [Athlete.search_athletes(name, sessionManager, club_id, gender)] *)
Definition search_athletes (name : string) (club_id gender : Z)
  : M Env (list Record_) :=
  (soup <- with_instance (ScraperMixin.init 60)
             (try_except
                (ScraperMixin._get_page_content
                   (search_params name club_id gender))
                is_AttributeError (fun _ => ret None)) ;;
   lift (search_extract soup))%py.

(** The loop body of [list_personal_bests]. *)
Definition personal_best_row (row : Bs4.node) : result Record_ :=
  (event_cell <~ attr_of (Bs4.find "td" ["event"] row);
   event_link <~ attr_of (Bs4.find "a" [] event_cell);
   let event_name := Bs4.get_text_strip event_link in
   course_cell <~ attr_of (Bs4.find "td" ["course"] row);
   let course_length := Bs4.get_text_strip course_cell in
   time_cell <~ attr_of (Bs4.find "td" ["time"; "swimtimeImportant"] row);
   time <~ Utils.convert_time (Bs4.get_text_strip time_cell);
   result_url <~ subscript (Bs4.find "a" [] time_cell) "href";
   id_text <~ Py.parse_qs_first (Py.urlparse_query result_url) "id";
   result_id <~ Py.int id_text;
   code_cell <~ attr_of (Bs4.find "td" ["code"] row);
   let fina_points := Bs4.get_text_strip code_cell in
   Ok (<["result_id" := VInt result_id]>
      (<["event_name" := VStr event_name]>
      (<["course_length" := VStr course_length]>
      (<["time" := VFloat time]>
      (<["FINA Points" := VStr fina_points]> ∅))))))%res.

Definition list_personal_bests (athlete_id season : scalar)
  : M Sys (list Record_) :=
  let params : Params :=
    <["page" := PStr "athleteDetail"]>
    (<["athleteId" := athlete_id]> (<["pbest" := season]> ∅)) in
  (found <- fetch_table params "table" ["athleteBest"] ;;
   match found with
   | None => ret []
   | Some table =>
       lift (rows_of table ["athleteBest0"; "athleteBest1"] personal_best_row)
   end)%py.

(** The loop body of [list_meets]. *)
Definition meet_row (row : Bs4.node) : result Record_ :=
  (date_cell <~ attr_of (Bs4.find "td" ["date"] row);
   let meet_date := Py.normalize_NFKD (Bs4.get_text_strip date_cell) in
   city_cell <~ attr_of (Bs4.find "td" ["city"] row);
   city_link <~ attr_of (Bs4.find "a" [] city_cell);
   let meet_city := Bs4.get_text_strip city_link in
   meet_name <~ Bs4.getitem city_link "title";
   meet_url <~ Bs4.getitem city_link "href";
   id_text <~ Py.parse_qs_first (Py.urlparse_query meet_url) "meetId";
   meet_id <~ Py.int id_text;
   Ok (<["meet_id" := VInt meet_id]>
      (<["meet_date" := VStr meet_date]>
      (<["meet_city" := VStr meet_city]>
      (<["meet_name" := VStr meet_name]> ∅)))))%res.

Definition list_meets (athlete_id : scalar) : M Sys (list Record_) :=
  let params : Params :=
    <["page" := PStr "athleteDetail"]>
    (<["athleteId" := athlete_id]> (<["athletePage" := PStr "MEET"]> ∅)) in
  (found <- fetch_table params "table" ["athleteMeet"] ;;
   match found with
   | None => ret []
   | Some table =>
       lift (rows_of table ["athleteMeet0"; "athleteMeet1"] meet_row)
   end)%py.

End Athlete.

(** ** meet.py *)

Module Meet.

(** The loop body of [list_clubs]. *)
Definition club_row (row : Bs4.node) : result Record_ :=
  (club_cell <~ attr_of (Bs4.find "td" ["club"] row);
   club_url <~ subscript (Bs4.find "a" [] club_cell) "href";
   club_id <~ Py.parse_qs_first (Py.urlparse_query club_url) "clubId";
   club_link <~ attr_of (Bs4.find "a" [] club_cell);
   let club_name := Bs4.get_text_strip club_link in
   Ok (<["club_id" := VStr club_id]> (<["club_name" := VStr club_name]> ∅)))%res.

Definition list_clubs (meet_id : scalar) : M Sys (list Record_) :=
  let params : Params :=
    <["page" := PStr "meetDetail"]> (<["meetId" := meet_id]> ∅) in
  (found <- fetch_table params "table" ["meetSearch"] ;;
   match found with
   | None => ret []
   | Some table =>
       lift (rows_of table ["meetResult0"; "meetResult1"] club_row)
   end)%py.

(** The loop of [list_races]: [for (id, table) in enumerate(tables)]. *)
Fixpoint races (id : Z) (tables : list Bs4.node) (data : list Record_)
  : result (list Record_) :=
  match tables with
  | [] => Ok data
  | table :: tables' =>
      (head <~ attr_of (Bs4.find "tr" ["meetResultHead"] table);
       name_cell <~ attr_of (Bs4.find "th" ["event"] head);
       let name := Py.normalize_NFKD (Bs4.get_text_strip name_cell) in
       races (id + 1) tables'
         (data ++ [<["race_id" := VInt (id + 1)]>
                   (<["race_name" := VStr name]> ∅)]))%res
  end.

Definition list_races (meet_id event_id gender : scalar) : M Sys (list Record_) :=
  let params : Params :=
    <["page" := PStr "meetDetail"]>
    (<["meetId" := meet_id]>
    (<["gender" := gender]> (<["styleId" := event_id]> ∅))) in
  (found <- fetch_tables params ["meetResult"] ;;
   match found with
   | None => ret []
   | Some tables => lift (races 0 tables [])
   end)%py.

End Meet.

(** ** result.py *)

Module Result.

Definition get_time (result_id : scalar) : M Sys (option string) :=
  let params : Params :=
    <["page" := PStr "resultDetail"]> (<["id" := result_id]> ∅) in
  try_except
    (soup <- ScraperMixin._get_page_content params ;;
     doc <- lift (attr_of soup) ;;
     cell <- lift (attr_of (Bs4.soup_find "td" ["swimtimeLarge"] doc)) ;;
     ret (Some (Bs4.text cell)))%py
    is_AttributeError (fun _ => ret None).

End Result.

(** ** club.py *)

Module Club.

(** The loop body of [list_athletes]. *)
Definition athlete_row (row : Bs4.node) : result Record_ :=
  (name_cell <~ attr_of (Bs4.find "td" ["name"] row);
   name_link <~ attr_of (Bs4.find "a" [] name_cell);
   let name := Bs4.get_text_strip name_link in
   athlete_url <~ subscript (Bs4.find "a" [] name_cell) "href";
   athlete_id <~ Py.parse_qs_first (Py.urlparse_query athlete_url) "athleteId";
   Ok (<["athlete_id" := VStr athlete_id]> (<["athlete_name" := VStr name]> ∅)))%res.

Definition list_athletes (club_id : scalar) (gender : Z) : M Sys (list Record_) :=
  (athlete_gender <- lift (list_index ["CURRENT"; "ALL_MEN"; "All_WOMEN"]%string gender) ;;
   let params : Params :=
     <["page" := PStr "rankingDetail"]>
     (<["clubId" := club_id]>
     (<["stroke" := PStr "9"]>
     (<["athleteGender" := PStr athlete_gender]> ∅))) in
   found <- fetch_tables params ["athleteList"] ;;
   match found with
   | None => ret []
   | Some tables =>
       lift (for_rows athlete_row
               (flat_map (Bs4.find_all "tr" ["athleteSearch0"; "athleteSearch1"])
                  tables) [])
   end)%py.

End Club.

(** ** meets.py *)

Module Meets.

(** The [try] block of [list_time_periods] and [list_nations]:
    [soup.find('select', {'name': key})]. *)
Definition fetch_select (params : Params) (key : string)
  : M Sys (option (option Bs4.node)) :=
  try_except
    (soup <- ScraperMixin._get_page_content params ;;
     doc <- lift (attr_of soup) ;;
     ret (Some (Bs4.soup_find_attr "select" "name" key doc)))%py
    is_AttributeError (fun _ => ret None).

Definition select_params : Params :=
  <["page" := PStr "meetSelect"]>
  (<["nationId" := PStr "0"]> (<["selectPage" := PStr "RECENT"]> ∅)).

(** The loop over the options of a menu: an option is read through
    [item['value']] ([KeyError] when it has none), kept when its value is
    none of [skipped], and recorded under the keys [id_key], [name_key]. *)
Fixpoint options (id_key name_key : string) (skipped : list string)
    (items : list Bs4.node) (data : list Record_) : result (list Record_) :=
  match items with
  | [] => Ok data
  | item :: items' =>
      (v <~ Bs4.getitem item "value";
       if existsb (String.eqb v) skipped
       then options id_key name_key skipped items' data
       else
         options id_key name_key skipped items'
           (data ++ [<[id_key := VStr v]>
                     (<[name_key :=
                          VStr (Py.normalize_NFKD (Bs4.get_text_strip item))]> ∅)]))%res
  end.

Definition menu_options (menu : option Bs4.node) (id_key name_key : string)
    (skipped : list string) : result (list Record_) :=
  (m <~ attr_of menu;
   options id_key name_key skipped (Bs4.find_all "option" [] m) [])%res.

Definition list_time_periods : M Sys (list Record_) :=
  (found <- fetch_select select_params "selectPage" ;;
   match found with
   | None => ret []
   | Some menu =>
       lift (menu_options menu "period_id" "period_name" ["RECENT"; "BYTYPE"]%string)
   end)%py.

Definition list_nations : M Sys (list Record_) :=
  (found <- fetch_select select_params "nationId" ;;
   match found with
   | None => ret []
   | Some menu =>
       lift (menu_options menu "nation_id" "nation_name" ["$$$"]%string)
   end)%py.

(** The loop body of [list_meets]. *)
Definition meet_row (row : Bs4.node) : result Record_ :=
  (date_cell <~ attr_of (Bs4.find "td" ["date"] row);
   let meet_date := Py.normalize_NFKD (Bs4.get_text_strip date_cell) in
   city_cell <~ attr_of (Bs4.find "td" ["city"] row);
   city_link <~ attr_of (Bs4.find "a" [] city_cell);
   let meet_city := Py.normalize_NFKD (Bs4.get_text_strip city_link) in
   meet_url <~ subscript (Bs4.find "a" [] city_cell) "href";
   name_cell <~ list_index (Bs4.find_all "td" ["name"] row) 1;
   name_link <~ attr_of (Bs4.find "a" [] name_cell);
   let meet_name := Bs4.get_text_strip name_link in
   course_cell <~ attr_of (Bs4.find "td" ["course"] row);
   let course_length := Bs4.get_text_strip course_cell in
   meet_id <~ Py.parse_qs_first (Py.urlparse_query meet_url) "meetId";
   Ok (<["meet_id" := VStr meet_id]>
      (<["meet_date" := VStr meet_date]>
      (<["meet_city" := VStr meet_city]>
      (<["meet_name" := VStr meet_name]>
      (<["course_length" := VStr course_length]> ∅))))))%res.

Definition list_meets (nation_id time_period_id : scalar) : M Sys (list Record_) :=
  let params : Params :=
    <["page" := PStr "meetSelect"]>
    (<["nationId" := nation_id]> (<["selectPage" := time_period_id]> ∅)) in
  (found <- fetch_tables params ["meetSearch"] ;;
   match found with
   | None => ret []
   | Some tables =>
       lift (for_rows meet_row
               (flat_map (Bs4.find_all "tr" ["meetSearch0"; "meetSearch1"]) tables)
               [])
   end)%py.

End Meets.

(** * Auxiliary definitions for the properties *)

(** ** The time format, in the words of the specification *)

Module TimeFormat.

(** A field [H], [M] or [S]: one or two decimal digits. *)
Definition field_value (s : string) : option Z :=
  match s with
  | String c EmptyString => Str.digit_val c
  | String c1 (String c2 EmptyString) =>
      match Str.digit_val c1, Str.digit_val c2 with
      | Some d1, Some d2 => Some (10 * d1 + d2)
      | _, _ => None
      end
  | _ => None
  end.

(** The digits after the point, at most [n] of them, read as a decimal
    fraction and expressed in units of [10^-n]. *)
Fixpoint fraction_units (n : nat) (s : string) {struct s} : option Z :=
  match s with
  | EmptyString => Some 0
  | String c s' =>
      match n with
      | O => None
      | S n' =>
          match Str.digit_val c, fraction_units n' s' with
          | Some d, Some r => Some (d * 10 ^ Z.of_nat n' + r)
          | _, _ => None
          end
      end
  end.

(** One to six digits, in millionths of a second. *)
Definition fraction_micros (s : string) : option Z :=
  match s with
  | EmptyString => None
  | _ => fraction_units 6 s
  end.

(** [whole + micros / 1000000] in binary64. *)
Definition seconds (whole micros : Z) : float :=
  PrimFloat.add (Utils.float_of_Z whole)
    (PrimFloat.div (Utils.float_of_Z micros) (Utils.float_of_Z 1000000)).

(** The optional marker of manual timing. *)
Definition marker (manual : bool) : string := if manual then "M" else "".

End TimeFormat.

Import TimeFormat.

(** The range a field must lie in for its directive to take it whole. *)
Definition field_ok (d : Utils.directive) (v : Z) : Prop :=
  match d with
  | Utils.dH => v <= 23
  | Utils.dM | Utils.dS => v <= 59
  | _ => False
  end.

(** Whether [microsecond / 1000000] and [millis / 1000] agree in binary64
    for a three-digit fraction of value [ms]. *)
Definition millis_agree (ms : nat) : bool :=
  PrimFloat.Leibniz.eqb
    (PrimFloat.div (Utils.float_of_Z (1000 * Z.of_nat ms)) (Utils.float_of_Z 1000000))
    (PrimFloat.div (Utils.float_of_Z (Z.of_nat ms)) (Utils.float_of_Z 1000)).

(** ** Observing a facade object *)

Definition clock (s : Sys) : Z := now (world (env s)).
Definition dispatched (s : Sys) : list Params := sent (world (env s)).
Definition limit (s : Sys) : Z := max_requests_per_second (manager (env s)).

(** The caller lets [secs] seconds go by before its next call. *)
Definition later (secs : N) (s : Sys) : Sys := mkSys (self s) (elapse secs (env s)).

(** Connection failure, or a 4xx/5xx status. *)
Definition transport_failure (r : response) : bool :=
  match r with
  | NoConnection _ => true
  | Reply _ code _ => (400 <=? code) && (code <? 600)
  end.

Definition store_page (doc : Bs4.soup) (t : Z) (o : ScraperMixin) : ScraperMixin :=
  mkScraperMixin (last_request o) (Some doc) (update_interval o) (Some t).

Definition record_request (p : Params) (o : ScraperMixin) : ScraperMixin :=
  mkScraperMixin (Some p) (page_content o) (update_interval o) (last_updated o).

(** ** The sliding window *)

Definition wait (secs : N) : M Env unit := modify (elapse secs).

(** One request that the server answers without an error, as the facades
    make it: the caller arrives [before] seconds after its previous call
    returned, the rate limit is checked, the request takes [during]
    seconds, its time stamp is recorded.  The time stamp recorded is
    returned.  A request that fails does not reach [add_request]; see
    [updates] for those. *)
Definition acquire (gap : N * N) : M Env Z :=
  (wait (fst gap) ;;
   SessionManager.check_request_rate_limit ;;
   wait (snd gap) ;;
   SessionManager.add_request ;;
   time_time)%py.

Fixpoint acquires (gaps : list (N * N)) : M Env (list Z) :=
  match gaps with
  | [] => ret []
  | gap :: gaps' =>
      (t <- acquire gap ;; ts <- acquires gaps' ;; ret (t :: ts))%py
  end.

(** Any [n + 1] consecutive time stamps span at least [W]. *)
Definition spaced (n : nat) (W : Z) (log : list Z) : Prop :=
  forall (i : nat) (t t' : Z),
    log !! i = Some t -> log !! (i + n)%nat = Some t' -> W <= t' - t.

(** What holds between calls: [log] lists every time stamp recorded so
    far; the history is the tail of [log] that was not pruned, and what
    was pruned has left the window. *)
Record window_inv (N W : Z) (log : list Z) (e : Env) : Prop := {
  inv_limit : max_requests_per_second (manager e) = N;
  inv_window : max_per (manager e) = W;
  inv_sorted : StronglySorted Z.le log;
  inv_past : Forall (fun t => t <= now (world e)) log;
  inv_tail : exists pruned,
      log = pruned ++ request_history (manager e) /\
      Forall (fun t => t + W <= now (world e)) pruned;
  inv_spaced : spaced (Z.to_nat N) W log
}.

(** The record a row contributes to the search result, if any. *)
Definition search_row_record (row : Bs4.node) : option Record_ :=
  match Athlete.search_row row with
  | Ok (Some r) => Some r
  | _ => None
  end.

(** ** Concrete pages and states used by the examples *)

Module Fixtures.

Import Bs4.

Definition el (name : string) (cls : list string) (kids : list node) : node :=
  Tag name cls ∅ kids.

Definition link (href text : string) : node :=
  Tag "a" [] {["href" := href]} [NavigableString text].

Definition html (kids : list node) : soup := [el "html" [] [el "body" [] kids]].

(** A page with a body and nothing in it. *)
Definition blank_page : soup := html [].

(** What the parser returns for an empty reply: no [body] at all. *)
Definition empty_reply : soup := [].

Definition best_row : node :=
  el "tr" ["athleteBest0"]
    [ el "td" ["event"] [link "?page=rankingDetail&styleId=1" "50m Freestyle"];
      el "td" ["course"] [NavigableString "25m"];
      el "td" ["time"] [link "?page=resultDetail&id=123" "23.45"];
      el "td" ["code"] [NavigableString " 512 "] ].

(** A row whose event cell is missing. *)
Definition best_row_broken : node :=
  el "tr" ["athleteBest1"]
    [ el "td" ["course"] [NavigableString "50m"];
      el "td" ["time"] [link "?page=resultDetail&id=124" "1:02.10"];
      el "td" ["code"] [NavigableString "430"] ].

Definition bests_page (rows : list node) : soup :=
  html [el "table" ["athleteBest"] rows].

Definition best_record : Record_ :=
  <["result_id" := VInt 123]>
  (<["event_name" := VStr "50m Freestyle"]>
  (<["course_length" := VStr "25m"]>
  (<["time" := VFloat 23.45%float]>
  (<["FINA Points" := VStr "512"]> ∅)))).

Definition gender_img : node := Tag "img" [] {["src" := "images/gender1.png"]} [].

Definition search_row_full : node :=
  el "tr" ["athleteSearch0"]
    [ el "td" ["name"] [link "?page=athleteDetail&athleteId=4292888" "DRUWEL, Mauro"];
      el "td" ["date"] [NavigableString "2005"];
      el "td" [] [gender_img];
      el "td" ["code"] [NavigableString "BEL"];
      el "td" ["club"] [NavigableString "Brugse Zwemkring"] ].

(** The same kind of row without its country-code cell. *)
Definition search_row_no_code : node :=
  el "tr" ["athleteSearch1"]
    [ el "td" ["name"] [link "?page=athleteDetail&athleteId=5000001" "DRUWEL, Anna"];
      el "td" ["date"] [NavigableString "2007"];
      el "td" ["club"] [NavigableString "Gent Swimming"] ].

(** A row whose link carries no athlete id. *)
Definition search_row_no_id : node :=
  el "tr" ["athleteSearch1"]
    [ el "td" ["name"] [link "?page=athleteDetail" "DRUWEL, Tom"] ].

Definition search_page (rows : list node) : soup :=
  html [el "table" ["athleteSearch"] rows].

Definition search_record_full : Record_ :=
  <["athlete_id" := VInt 4292888]>
  (<["name" := VStr "DRUWEL, Mauro"]>
  (<["birth_year" := VStr "2005"]>
  (<["gender" := VStr "m"]>
  (<["country_code" := VStr "BEL"]>
  (<["club_name" := VStr "Brugse Zwemkring"]> ∅))))).

Definition search_record_no_code : Record_ :=
  <["athlete_id" := VInt 5000001]>
  (<["name" := VStr "DRUWEL, Anna"]>
  (<["birth_year" := VStr "2007"]>
  (<["gender" := VStr "f"]>
  (<["country_code" := VStr ""]>
  (<["club_name" := VStr "Gent Swimming"]> ∅))))).

(** [SessionManager()] with its default limit of 15 requests per 30. *)
Definition default_manager : SessionManager := mkSessionManager [] 15 30.

Definition env0 (net : list response) : Env :=
  mkEnv default_manager (mkWorld 1000 net [] []).

(** A facade object just constructed, the clock at 1000, the server
    scripted to answer with [net]. *)
Definition fresh (net : list response) : Sys :=
  mkSys (ScraperMixin.init 60) (env0 net).

Definition params_a : Params :=
  <["page" := PStr "athleteDetail"]> (<["athleteId" := PStr "4292888"]> ∅).

Definition params_b : Params :=
  <["page" := PStr "athleteDetail"]> (<["athleteId" := PStr "5000001"]> ∅).

End Fixtures.

(** ** For the further properties *)

(** What [except requests.RequestException as e] prints for a failed
    reply. *)
Definition failure_of (r : response) : exn :=
  match r with
  | NoConnection _ => ConnectionError
  | Reply _ _ _ => HTTPError
  end.

(** The seconds a series of requests takes when nothing has to wait. *)
Fixpoint total_pause (gaps : list (N * N)) : Z :=
  match gaps with
  | [] => 0
  | gap :: gaps' => Z.of_N (fst gap) + Z.of_N (snd gap) + total_pause gaps'
  end.

(** The values a directive can take. *)
Definition value_ok (d : Utils.directive) (v : Z) : Prop :=
  match d with
  | Utils.dH => 0 <= v <= 23
  | Utils.dM => 0 <= v <= 59
  | Utils.dS => 0 <= v <= 61
  | Utils.df => 0 <= v <= 999999
  | Utils.dLit _ => True
  end.

(** The fields of a time being built, each within what its directive can
    give. *)
Definition fields_ok (t : Utils.time) : Prop :=
  0 <= Utils.hour t <= 23 /\ 0 <= Utils.minute t <= 59 /\
  0 <= Utils.second t <= 61 /\ 0 <= Utils.microsecond t <= 999999.

(** ** More pages for the examples *)

Module Pages.

Import Bs4 Fixtures.

Definition option_ (value text : string) : node :=
  Tag "option" [] {["value" := value]} [NavigableString text].

Definition select (name : string) (items : list node) : node :=
  Tag "select" [] {["name" := name]} items.

(** The selection page: a menu of periods and a menu of nations. *)
Definition select_page : soup :=
  html [ select "selectPage"
           [option_ "RECENT" "Recent meets"; option_ "2024_m05" "May 2024";
            option_ "BYTYPE" "By type"];
         select "nationId"
           [option_ "$$$" "All nations"; option_ "43" "BEL - Belgium"] ].

Definition race_table (name : string) : node :=
  el "table" ["meetResult"]
    [el "tr" ["meetResultHead"] [el "th" ["event"] [NavigableString name]]].

(** A meet page with two races of one event. *)
Definition races_page : soup :=
  html [race_table "Prelims"; race_table "Final"].

End Pages.

(** [k] forced updates in a row, as a caller that retries makes them. *)
Fixpoint updates (p : Params) (k : nat) : M Sys unit :=
  match k with
  | O => ret tt
  | S k' => (ScraperMixin._update_page_content p ;; updates p k')%py
  end.

(** The seconds the server takes to answer. *)
Definition latency_of (r : response) : N :=
  match r with
  | NoConnection lat => lat
  | Reply lat _ _ => lat
  end.

(** A search row that has its name cell and nothing else. *)
Definition search_row_bare : Bs4.node :=
  Fixtures.el "tr" ["athleteSearch0"]
    [ Fixtures.el "td" ["name"]
        [Fixtures.link "?page=athleteDetail&athleteId=5000002" "DRUWEL, Eva"] ].

Definition search_record_bare : Record_ :=
  <["athlete_id" := VInt 5000002]>
  (<["name" := VStr "DRUWEL, Eva"]>
  (<["birth_year" := VStr ""]>
  (<["gender" := VStr "f"]>
  (<["country_code" := VStr ""]>
  (<["club_name" := VStr ""]> ∅))))).

(** What a loop without a [try] makes of its rows: a record for every
    row, or the exception of the first row that raises. *)
Definition all_rows_or_first_exception (body : Bs4.node -> result Record_)
    (rows : list Bs4.node) (outcome : result (list Record_)) : Prop :=
  (forall out,
      outcome = Ok out -> Forall2 (fun row r => body row = Ok r) rows out) /\
  (forall pre bad post e,
      rows = pre ++ bad :: post ->
      Forall (fun row => exists r, body row = Ok r) pre ->
      body bad = Raise e ->
      outcome = Raise e).

(** * Properties *)

(** ** Library calls, on examples *)

Example parse_qs_example :
  Py.parse_qs_first (Py.urlparse_query "?page=athleteDetail&athleteId=4292888")
    "athleteId" = Ok "4292888"%string.
Proof. reflexivity. Qed.

Example int_examples :
  Py.int " 42 " = Ok 42 /\ Py.int "-7" = Ok (-7) /\ Py.int "1_000" = Ok 1000 /\
  Py.int "" = Raise ValueError /\ Py.int "4a" = Raise ValueError.
Proof. repeat split. Qed.

Example replace_example :
  Py.replace "<b>" "" "<b>DRUWEL</b>, Mauro" = "DRUWEL</b>, Mauro"%string.
Proof. reflexivity. Qed.

(** ** The page model, on examples *)

Example find_first_match :
  Bs4.find "td" ["code"] Fixtures.search_row_full
  = Some (Fixtures.el "td" ["code"] [Bs4.NavigableString "BEL"]) /\
  Bs4.find "td" ["code"] Fixtures.search_row_no_code = None.
Proof. vm_compute. split; reflexivity. Qed.

Example get_text_strips_each_string :
  Bs4.get_text_strip
    (Fixtures.el "td" [] [Bs4.NavigableString "  12 ";
                          Fixtures.el "b" [] [Bs4.NavigableString " "];
                          Bs4.NavigableString "3 "])
  = "123"%string.
Proof. reflexivity. Qed.

(** ** convert_time *)

(** A seconds field above 59 does not match [%S]: times of a minute or
    more need their minutes field. *)
Example convert_time_over_a_minute :
  Utils.convert_time "75.30" = Raise ValueError.
Proof. vm_compute. reflexivity. Qed.

Lemma digit_not_colon c d : Str.digit_val c = Some d -> Ascii.eqb c ":" = false.
Proof.
  intros H. destruct (Ascii.eqb_spec c ":") as [->|]; [discriminate H | reflexivity].
Qed.

Lemma digit_not_M c d : Str.digit_val c = Some d -> Ascii.eqb c "M" = false.
Proof.
  intros H. destruct (Ascii.eqb_spec c "M") as [->|]; [discriminate H | reflexivity].
Qed.

Lemma digit_range c d : Str.digit_val c = Some d -> 0 <= d <= 9.
Proof.
  unfold Str.digit_val. intros H.
  destruct ((48 <=? _) && (_ <=? 57)) eqn:E; [|discriminate].
  injection H as <-. apply andb_true_iff in E as [E1 E2].
  apply Z.leb_le in E1, E2. lia.
Qed.

Lemma append_cons c (a b : string) :
  (String c a ++ b)%string = String c (a ++ b).
Proof. reflexivity. Qed.

Lemma append_empty_l (b : string) : ("" ++ b)%string = b.
Proof. reflexivity. Qed.

Ltac push_append := rewrite ?append_cons, ?append_empty_l.

Lemma count_app c (a b : string) :
  Str.count c (a ++ b) = Str.count c a + Str.count c b.
Proof.
  induction a as [|x a IH]; push_append; simpl; [reflexivity | rewrite IH; lia].
Qed.

Lemma count_field s v : field_value s = Some v -> Str.count ":" s = 0.
Proof.
  destruct s as [|c1 [|c2 [|c3 s]]]; cbn; try discriminate.
  - intros H. rewrite (digit_not_colon _ _ H). reflexivity.
  - destruct (Str.digit_val c1) eqn:E1; [|discriminate].
    destruct (Str.digit_val c2) eqn:E2; [|discriminate]. intros _.
    rewrite (digit_not_colon _ _ E1), (digit_not_colon _ _ E2). reflexivity.
Qed.

Lemma count_fraction n s r : fraction_units n s = Some r -> Str.count ":" s = 0.
Proof.
  revert n r. induction s as [|c s IH]; intros n r; simpl; [reflexivity|].
  destruct n as [|n]; simpl; [discriminate|].
  destruct (Str.digit_val c) eqn:E; simpl; [|discriminate].
  destruct (fraction_units n s) eqn:F; simpl; [|discriminate]. intros _.
  rewrite (digit_not_colon _ _ E), (IH _ _ F). reflexivity.
Qed.

(** The strings under consideration end with a digit or with the marker. *)
Lemma last_app (a b : string) :
  b <> EmptyString -> Str.last (a ++ b) = Str.last b.
Proof.
  intros Hb. induction a as [|x a IH]; push_append; simpl; [reflexivity|].
  rewrite IH. destruct (a ++ b)%string eqn:E; [|reflexivity].
  destruct a; [exfalso; apply Hb; exact E | discriminate].
Qed.

Lemma drop_last_app_one (a : string) (c : ascii) :
  Str.drop_last (a ++ String c EmptyString) = a.
Proof.
  induction a as [|x a IH]; push_append; simpl; [reflexivity|].
  rewrite IH. destruct (a ++ String c "")%string eqn:E; [|reflexivity].
  destruct a; discriminate.
Qed.

Lemma last_fraction n s r :
  s <> EmptyString -> fraction_units n s = Some r ->
  exists c d, Str.last s = Some c /\ Str.digit_val c = Some d.
Proof.
  revert n r. induction s as [|c s IH]; intros n r Hne; [congruence|].
  simpl. destruct n as [|n]; simpl; [discriminate|].
  destruct (Str.digit_val c) eqn:E; simpl; [|discriminate].
  destruct (fraction_units n s) eqn:F; simpl; [|discriminate]. intros _.
  destruct s as [|c' s']; [eauto|].
  eapply IH; [discriminate | exact F].
Qed.

Lemma append_empty_r (s : string) : (s ++ "")%string = s.
Proof.
  induction s as [|c s IH]; push_append; [reflexivity | f_equal; exact IH].
Qed.

(** What stripping the marker leaves of a string that ends with a digit. *)
Lemma convert_time_strip_marker (body : string) (manual : bool) c d :
  Str.last body = Some c -> Str.digit_val c = Some d ->
  Utils.convert_time (body ++ marker manual) =
  rbind
    (Utils.strptime_time body
       (if Str.count ":" body =? 2 then Utils.fmt_HMSf
        else if Str.count ":" body =? 1 then Utils.fmt_MSf
        else Utils.fmt_Sf))
    (fun t => Ok (Utils.total_second t)).
Proof.
  intros Hlast Hdigit. unfold Utils.convert_time. destruct manual; simpl marker.
  - rewrite last_app by discriminate. cbn [Str.last].
    rewrite Ascii.eqb_refl, drop_last_app_one. reflexivity.
  - rewrite append_empty_r, Hlast, (digit_not_M _ _ Hdigit). reflexivity.
Qed.

(** A field followed by a separator: the first alternative the matcher
    tries takes the whole field. *)
Lemma candidates_field d hs v sep rest :
  field_value hs = Some v -> field_ok d v -> Str.digit_val sep = None ->
  exists more,
    Utils.candidates d (hs ++ String sep rest) = (v, String sep rest) :: more.
Proof.
  intros Hv Hok Hsep.
  destruct hs as [|c1 [|c2 [|c3 hs]]]; simpl in Hv; try discriminate.
  - push_append.
    destruct d; simpl in Hok; try contradiction;
      simpl; rewrite Hv, Hsep; simpl; eauto.
  - destruct (Str.digit_val c1) as [d1|] eqn:E1; [|discriminate].
    destruct (Str.digit_val c2) as [d2|] eqn:E2; [|discriminate].
    injection Hv as <-.
    pose proof (digit_range _ _ E1). pose proof (digit_range _ _ E2).
    push_append.
    destruct d; simpl in Hok; try contradiction; simpl; rewrite E1, E2.
    + replace ((d1 =? 2) && (d2 <=? 3) || (d1 <=? 1)) with true; [simpl; eauto|].
      symmetry. destruct (Z.leb_spec d1 1); [apply orb_true_r|].
      rewrite orb_false_r. apply andb_true_iff. split; [apply Z.eqb_eq | apply Z.leb_le]; lia.
    + replace (d1 <=? 5) with true by (symmetry; apply Z.leb_le; lia).
      simpl; eauto.
    + replace ((d1 =? 6) && (d2 <=? 1) || (d1 <=? 5)) with true; [simpl; eauto|].
      symmetry. apply orb_true_iff. right. apply Z.leb_le. lia.
Qed.

Lemma re_match_first d fmt s t v rest more r :
  Utils.candidates d s = (v, rest) :: more ->
  Utils.re_match fmt rest (Utils.set_field d v t) = Some r ->
  Utils.re_match (d :: fmt) s t = Some r.
Proof. intros Hc Hr. simpl. rewrite Hc, Hr. reflexivity. Qed.

Lemma re_match_field d sep fmt hs v rest t r :
  field_value hs = Some v -> field_ok d v -> Str.digit_val sep = None ->
  Utils.re_match fmt rest (Utils.set_field d v t) = Some r ->
  Utils.re_match (d :: Utils.dLit sep :: fmt) (hs ++ String sep rest) t = Some r.
Proof.
  intros Hv Hok Hsep Hr.
  destruct (candidates_field d hs v sep rest Hv Hok Hsep) as (more & Hc).
  apply (re_match_first _ _ _ _ _ _ _ _ Hc).
  apply (re_match_first _ _ _ _ 0 rest []).
  - simpl. rewrite Ascii.eqb_refl. reflexivity.
  - exact Hr.
Qed.

(** The greedy fraction: the first alternative takes every digit. *)
Lemma frac_candidates_all n acc fs r :
  fs <> EmptyString -> fraction_units n fs = Some r ->
  exists more, Utils.frac_candidates n acc fs = (acc + r, EmptyString) :: more.
Proof.
  revert n acc r. induction fs as [|c fs IH]; intros n acc r Hne; [congruence|].
  simpl. destruct n as [|n]; simpl; [discriminate|].
  destruct (Str.digit_val c) as [d|] eqn:E; simpl; [|discriminate].
  destruct (fraction_units n fs) as [r'|] eqn:F; simpl; [|discriminate].
  intros [= <-].
  destruct fs as [|c' fs'].
  - simpl in F. injection F as <-.
    exists []. destruct n; simpl; f_equal; f_equal; lia.
  - destruct (IH n (acc + d * 10 ^ Z.of_nat n) r') as (more & Hm);
      [discriminate | exact F |].
    rewrite Hm. eexists. simpl. f_equal. f_equal. lia.
Qed.

Lemma re_match_fraction fs us t :
  fraction_micros fs = Some us ->
  Utils.re_match [Utils.df] fs t = Some (Utils.set_field Utils.df us t, EmptyString).
Proof.
  intros Hf. unfold fraction_micros in Hf.
  destruct fs as [|c fs]; [discriminate|].
  destruct (frac_candidates_all 6 0 (String c fs) us) as (more & Hm);
    [discriminate | exact Hf |].
  rewrite Z.add_0_l in Hm.
  apply (re_match_first Utils.df [] _ _ us EmptyString more); [exact Hm | reflexivity].
Qed.

Lemma fraction_ends_with_digit fs us :
  fraction_micros fs = Some us ->
  fs <> EmptyString /\
  exists c d, Str.last fs = Some c /\ Str.digit_val c = Some d.
Proof.
  intros Hf. unfold fraction_micros in Hf.
  destruct fs as [|c fs]; [discriminate|].
  split; [discriminate|]. apply (last_fraction 6 _ us); [discriminate | exact Hf].
Qed.

Lemma count_fraction_micros fs us :
  fraction_micros fs = Some us -> Str.count ":" fs = 0.
Proof.
  intros Hf. unfold fraction_micros in Hf.
  destruct fs as [|c fs]; [discriminate|]. exact (count_fraction _ _ _ Hf).
Qed.

Lemma append_nonempty_r (a b : string) :
  b <> EmptyString -> (a ++ b)%string <> EmptyString.
Proof.
  intros Hb. destruct a; push_append; [exact Hb | discriminate].
Qed.

Ltac nonempty Hne :=
  repeat apply append_nonempty_r; first [exact Hne | push_append; discriminate].

Section GeneralForm.

Variables (hs ms ss fs : string) (h m s us : Z) (manual : bool).
Hypothesis hours : field_value hs = Some h.
Hypothesis hours_range : h <= 23.
Hypothesis minutes : field_value ms = Some m.
Hypothesis minutes_range : m <= 59.
Hypothesis secs : field_value ss = Some s.
Hypothesis secs_range : s <= 59.
Hypothesis fraction : fraction_micros fs = Some us.

Lemma parse_fraction t :
  Utils.re_match [Utils.df] fs t = Some (Utils.set_field Utils.df us t, EmptyString).
Proof. exact (re_match_fraction _ _ _ fraction). Qed.

Lemma parse_S t :
  Utils.re_match Utils.fmt_Sf (ss ++ "." ++ fs) t
  = Some (Utils.set_field Utils.df us (Utils.set_field Utils.dS s t), EmptyString).
Proof.
  push_append.
  exact (re_match_field Utils.dS "." _ ss s fs _ _ secs secs_range eq_refl
           (parse_fraction _)).
Qed.

Lemma parse_MS t :
  Utils.re_match Utils.fmt_MSf (ms ++ ":" ++ ss ++ "." ++ fs) t
  = Some (Utils.set_field Utils.df us
            (Utils.set_field Utils.dS s (Utils.set_field Utils.dM m t)),
          EmptyString).
Proof.
  push_append.
  apply (re_match_field Utils.dM ":" _ ms m _ _ _ minutes minutes_range eq_refl).
  pose proof (parse_S (Utils.set_field Utils.dM m t)) as H.
  revert H. push_append. intros H; exact H.
Qed.

Lemma parse_HMS t :
  Utils.re_match Utils.fmt_HMSf (hs ++ ":" ++ ms ++ ":" ++ ss ++ "." ++ fs) t
  = Some (Utils.set_field Utils.df us
            (Utils.set_field Utils.dS s
               (Utils.set_field Utils.dM m (Utils.set_field Utils.dH h t))),
          EmptyString).
Proof.
  push_append.
  apply (re_match_field Utils.dH ":" _ hs h _ _ _ hours hours_range eq_refl).
  pose proof (parse_MS (Utils.set_field Utils.dH h t)) as H.
  revert H. push_append. intros H; exact H.
Qed.

Lemma convert_time_S :
  Utils.convert_time ((ss ++ "." ++ fs) ++ marker manual)
  = Ok (seconds s us).
Proof.
  destruct (fraction_ends_with_digit _ _ fraction) as (Hne & c & d & Hlast & Hd).
  rewrite (convert_time_strip_marker _ _ c d); [| |exact Hd].
  2:{ rewrite !last_app by nonempty Hne. exact Hlast. }
  rewrite !count_app, (count_field _ _ secs), (count_fraction_micros _ _ fraction).
  cbn [Str.count Ascii.eqb Bool.eqb Z.add Z.eqb].
  unfold Utils.strptime_time. rewrite parse_S.
  cbn [rbind Utils.set_field Utils.second Utils.minute Utils.hour Utils.microsecond].
  replace (s <=? 59) with true by (symmetry; apply Z.leb_le; lia).
  unfold rbind, Utils.total_second, seconds.
  cbn [Utils.second Utils.minute Utils.hour Utils.microsecond].
  do 3 f_equal. lia.
Qed.

Lemma convert_time_MS :
  Utils.convert_time ((ms ++ ":" ++ ss ++ "." ++ fs) ++ marker manual)
  = Ok (seconds (m * 60 + s) us).
Proof.
  destruct (fraction_ends_with_digit _ _ fraction) as (Hne & c & d & Hlast & Hd).
  rewrite (convert_time_strip_marker _ _ c d); [| |exact Hd].
  2:{ rewrite !last_app by nonempty Hne. exact Hlast. }
  rewrite !count_app, (count_field _ _ secs), (count_field _ _ minutes),
    (count_fraction_micros _ _ fraction).
  cbn [Str.count Ascii.eqb Bool.eqb Z.add Z.eqb Pos.eqb Pos.add].
  unfold Utils.strptime_time. rewrite parse_MS.
  cbn [rbind Utils.set_field Utils.second Utils.minute Utils.hour Utils.microsecond].
  replace (s <=? 59) with true by (symmetry; apply Z.leb_le; lia).
  unfold rbind, Utils.total_second, seconds.
  cbn [Utils.second Utils.minute Utils.hour Utils.microsecond].
  do 3 f_equal. lia.
Qed.

Lemma convert_time_HMS :
  Utils.convert_time ((hs ++ ":" ++ ms ++ ":" ++ ss ++ "." ++ fs) ++ marker manual)
  = Ok (seconds (h * 3600 + m * 60 + s) us).
Proof.
  destruct (fraction_ends_with_digit _ _ fraction) as (Hne & c & d & Hlast & Hd).
  rewrite (convert_time_strip_marker _ _ c d); [| |exact Hd].
  2:{ rewrite !last_app by nonempty Hne. exact Hlast. }
  rewrite !count_app, (count_field _ _ secs), (count_field _ _ minutes),
    (count_field _ _ hours), (count_fraction_micros _ _ fraction).
  cbn [Str.count Ascii.eqb Bool.eqb Z.add Z.eqb Pos.eqb Pos.add].
  unfold Utils.strptime_time. rewrite parse_HMS.
  cbn [rbind Utils.set_field Utils.second Utils.minute Utils.hour Utils.microsecond].
  replace (s <=? 59) with true by (symmetry; apply Z.leb_le; lia).
  unfold rbind, Utils.total_second, seconds.
  cbn [Utils.second Utils.minute Utils.hour Utils.microsecond].
  do 3 f_equal. lia.
Qed.

End GeneralForm.

(** For a fraction of three digits the code's [microsecond / 1000000] is
    the specification's [millis / 1000]: both are the binary64 nearest to
    the same quotient.  Checked on each of the thousand values. *)
Lemma millis_agree_all : forallb millis_agree (seq 0 1000) = true.
Proof. vm_compute. reflexivity. Qed.

Lemma seconds_of_millis (whole ms : Z) :
  0 <= ms < 1000 ->
  seconds whole (1000 * ms)
  = PrimFloat.add (Utils.float_of_Z whole)
      (PrimFloat.div (Utils.float_of_Z ms) (Utils.float_of_Z 1000)).
Proof.
  intros Hms. unfold seconds. f_equal.
  pose proof millis_agree_all as Hall. rewrite forallb_forall in Hall.
  specialize (Hall (Z.to_nat ms)).
  unfold millis_agree in Hall. rewrite Z2Nat.id in Hall by lia.
  apply FloatAxioms.Leibniz.eqb_spec, Hall, in_seq. lia.
Qed.

(** C8. The three conversions quoted by the specification hold, and every
    string [[H:]M:]S.f with one- or two-digit fields in clock range
    ([H <= 23], [M <= 59], [S <= 59]) and one to six fraction digits,
    optionally followed by the marker [M], converts to
    [H*3600 + M*60 + S] plus the fraction; without a colon the string is
    seconds only. *)
Theorem convert_time_formula :
  Utils.convert_time "1:02:03.450" = Ok 3723.45%float /\
  Utils.convert_time "23.45" = Ok 23.45%float /\
  Utils.convert_time "02:03.45M" = Ok 123.45%float /\
  (forall (hs ms ss fs : string) (h m s us : Z) (manual : bool),
      field_value hs = Some h -> h <= 23 ->
      field_value ms = Some m -> m <= 59 ->
      field_value ss = Some s -> s <= 59 ->
      fraction_micros fs = Some us ->
      Utils.convert_time
        ((hs ++ ":" ++ ms ++ ":" ++ ss ++ "." ++ fs) ++ marker manual)
      = Ok (seconds (h * 3600 + m * 60 + s) us) /\
      Utils.convert_time ((ms ++ ":" ++ ss ++ "." ++ fs) ++ marker manual)
      = Ok (seconds (m * 60 + s) us) /\
      Utils.convert_time ((ss ++ "." ++ fs) ++ marker manual)
      = Ok (seconds s us)) /\
  (forall whole ms : Z,
      0 <= ms < 1000 ->
      seconds whole (1000 * ms)
      = PrimFloat.add (Utils.float_of_Z whole)
          (PrimFloat.div (Utils.float_of_Z ms) (Utils.float_of_Z 1000))).
Proof.
  split; [vm_compute; reflexivity|].
  split; [vm_compute; reflexivity|].
  split; [vm_compute; reflexivity|].
  split.
  - intros hs ms ss fs h m s us manual Hh Hh' Hm Hm' Hs Hs' Hf.
    split; [|split].
    + exact (convert_time_HMS hs ms ss fs h m s us manual Hh Hh' Hm Hm' Hs Hs' Hf).
    + exact (convert_time_MS ms ss fs m s us manual Hm Hm' Hs Hs' Hf).
    + exact (convert_time_S ss fs s us manual Hs Hs' Hf).
  - exact seconds_of_millis.
Qed.

(** The general form at ["1:02:03.450"]. *)
Lemma convert_time_formula_witness :
  field_value "1" = Some 1 /\ 1 <= 23 /\
  field_value "02" = Some 2 /\ 2 <= 59 /\
  field_value "03" = Some 3 /\ 3 <= 59 /\
  fraction_micros "450" = Some 450000 /\
  0 <= 450 < 1000 /\
  Utils.convert_time (("1" ++ ":" ++ "02" ++ ":" ++ "03" ++ "." ++ "450") ++ marker false)
  = Ok (seconds (1 * 3600 + 2 * 60 + 3) 450000) /\
  seconds 3723 (1000 * 450)
  = PrimFloat.add (Utils.float_of_Z 3723)
      (PrimFloat.div (Utils.float_of_Z 450) (Utils.float_of_Z 1000)).
Proof.
  destruct convert_time_formula as (_ & _ & _ & Hgen & Hmillis).
  assert (Hrange : 0 <= 450 < 1000) by lia.
  assert (H23 : 1 <= 23) by lia.
  assert (H59 : 2 <= 59) by lia.
  assert (H59' : 3 <= 59) by lia.
  destruct (Hgen "1" "02" "03" "450" 1 2 3 450000 false
              eq_refl H23 eq_refl H59 eq_refl H59' eq_refl)%string as (Hhms & _ & _).
  exact (conj eq_refl (conj H23 (conj eq_refl (conj H59 (conj eq_refl (conj H59'
          (conj eq_refl (conj Hrange (conj Hhms (Hmillis 3723 450 Hrange)))))))))).
Defined.

(** Turns boolean comparisons in the context into propositions. *)
Ltac zify_bools :=
  repeat match goal with
    | H : (_ <=? _) = true |- _ => apply Z.leb_le in H
    | H : (_ <=? _) = false |- _ => apply Z.leb_gt in H
    | H : (_ <? _) = true |- _ => apply Z.ltb_lt in H
    | H : (_ <? _) = false |- _ => apply Z.ltb_ge in H
    | H : (_ =? _) = true |- _ => apply Z.eqb_eq in H
    | H : (_ =? _) = false |- _ => apply Z.eqb_neq in H
    | H : (_ && _) = true |- _ => apply andb_true_iff in H; destruct H
    end.

(** ** The rate limiter, step by step *)

Section RateLimiterSteps.

Variables (h : list Z) (N W : Z) (w : World).

Let e : Env := mkEnv (mkSessionManager h N W) w.
Let valid : list Z := List.filter (fun t => now w - W <? t) h.

(** What one call of [check_request_rate_limit] does, case by case. *)
Lemma check_unfold :
  SessionManager.check_request_rate_limit e =
  if N <=? Z.of_nat (length valid) then
    match valid with
    | [] => (Raise IndexError, e)
    | oldest :: _ =>
        let time_to_wait := oldest + W - now w in
        if time_to_wait <? 0 then (Raise ValueError, e)
        else (Ok tt,
              mkEnv (mkSessionManager
                       (List.filter (fun t => now w - W + time_to_wait <? t) h)
                       N W)
                    (mkWorld (now w + time_to_wait) (network w) (sent w)
                       (stdout w)))
    end
  else (Ok tt, e).
Proof.
  unfold SessionManager.check_request_rate_limit, bind, time_time, get; cbn.
  fold valid. destruct (N <=? Z.of_nat (length valid)); [|reflexivity].
  destruct valid as [|oldest rest]; [reflexivity|].
  unfold time_sleep. destruct (oldest + W - now w <? 0); reflexivity.
Qed.

(** The oldest request still in the window lies strictly inside it, so
    the computed waiting time is positive. *)
Lemma valid_head_in_window oldest rest :
  valid = oldest :: rest -> now w - W < oldest.
Proof.
  intros Hv.
  assert (Hin : In oldest valid) by (rewrite Hv; left; reflexivity).
  apply filter_In in Hin. destruct Hin as [_ Hlt]. lia.
Qed.

(** With a positive limit the check cannot raise: it returns, having
    slept [dt >= 0], with the clock advanced by [dt] and only the history
    touched. *)
Lemma check_returns :
  1 <= N ->
  exists h' dt,
    0 <= dt /\
    SessionManager.check_request_rate_limit e =
    (Ok tt,
     mkEnv (mkSessionManager h' N W)
           (mkWorld (now w + dt) (network w) (sent w) (stdout w))).
Proof.
  intros HN. rewrite check_unfold.
  destruct (N <=? Z.of_nat (length valid)) eqn:Hfull.
  - destruct valid as [|oldest rest] eqn:Hv.
    + cbn in Hfull. zify_bools. lia.
    + pose proof (valid_head_in_window _ _ Hv) as Hlt.
      cbn zeta. destruct (oldest + W - now w <? 0) eqn:Hneg;
        [zify_bools; lia|].
      eexists _, (oldest + W - now w). split; [lia | reflexivity].
  - exists h, 0. split; [lia|].
    subst e. destruct w; cbn. rewrite Z.add_0_r. reflexivity.
Qed.

End RateLimiterSteps.

(** ** The page cache, step by step *)

Lemma get_page_content_unfold (p : Params) (s : Sys) :
  ScraperMixin._get_page_content p s =
  if ScraperMixin.needs_update (self s) p (clock s) then
    match ScraperMixin._update_page_content p s with
    | (Ok _, s1) =>
        (Ok (page_content (self s1)), mkSys (record_request p (self s1)) (env s1))
    | (Raise ex, s1) => (Raise ex, s1)
    end
  else (Ok (page_content (self s)), mkSys (record_request p (self s)) (env s)).
Proof.
  destruct s as [o [m w]].
  unfold ScraperMixin._get_page_content, bind, get, on_env, time_time, clock; cbn.
  destruct (ScraperMixin.needs_update o p (now w)); [|reflexivity].
  destruct (ScraperMixin._update_page_content p _) as [[[]|ex] s1]; reflexivity.
Qed.

Section UpdateSteps.

Variables (o : ScraperMixin) (h : list Z) (N W : Z) (w : World) (p : Params).
Hypothesis limit_positive : 1 <= N.

Let s : Sys := mkSys o (mkEnv (mkSessionManager h N W) w).

(** A reply without an error status: the page and the time of its
    arrival are stored, the request is recorded in the history. *)
Lemma update_on_reply lat code doc rest :
  network w = Reply lat code doc :: rest ->
  transport_failure (Reply lat code doc) = false ->
  exists h' dt out,
    0 <= dt /\
    ScraperMixin._update_page_content p s =
    (Ok tt,
     mkSys (store_page doc (now w + dt + Z.of_N lat) o)
           (mkEnv (mkSessionManager (h' ++ [now w + dt + Z.of_N lat]) N W)
                  (mkWorld (now w + dt + Z.of_N lat) rest (sent w ++ [p]) out))).
Proof.
  intros Hnet Hok. cbn in Hok.
  destruct (check_returns h N W w limit_positive) as (h' & dt & Hdt & Hchk).
  exists h', dt.
  unfold ScraperMixin._update_page_content, try_except, bind, on_env; cbn.
  cbn in Hchk. rewrite Hchk; cbn. rewrite Hnet; cbn.
  unfold raise_for_status; cbn. rewrite Hok; cbn.
  destruct (Bs4.soup_find "body" [] doc); cbn; eexists; (split; [exact Hdt | reflexivity]).
Qed.

(** A connection failure or an error status: the facade object is left as
    it was; the request was dispatched all the same. *)
Lemma update_on_failure r rest :
  network w = r :: rest ->
  transport_failure r = true ->
  exists h' t out,
    now w <= t /\
    ScraperMixin._update_page_content p s =
    (Ok tt,
     mkSys o (mkEnv (mkSessionManager h' N W)
                    (mkWorld t rest (sent w ++ [p]) out))).
Proof.
  intros Hnet Hbad.
  destruct (check_returns h N W w limit_positive) as (h' & dt & Hdt & Hchk).
  unfold ScraperMixin._update_page_content, try_except, bind, on_env; cbn.
  cbn in Hchk. rewrite Hchk; cbn. rewrite Hnet; cbn.
  destruct r as [lat | lat code doc]; cbn.
  - exists h', (now w + dt + Z.of_N lat). eexists. split; [lia | reflexivity].
  - cbn in Hbad. unfold raise_for_status; cbn. rewrite Hbad; cbn.
    exists h', (now w + dt + Z.of_N lat). eexists. split; [lia | reflexivity].
Qed.

(** Whatever the world answers, one call dispatches exactly one request
    and returns. *)
Lemma update_dispatches :
  exists s1,
    ScraperMixin._update_page_content p s = (Ok tt, s1) /\
    dispatched s1 = sent w ++ [p] /\
    limit s1 = N /\
    last_request (self s1) = last_request o.
Proof.
  destruct (network w) as [|r rest] eqn:Hnet.
  - destruct (check_returns h N W w limit_positive) as (h' & dt & Hdt & Hchk).
    unfold ScraperMixin._update_page_content, try_except, bind, on_env; cbn.
    cbn in Hchk. rewrite Hchk; cbn. rewrite Hnet; cbn.
    eexists. split; [reflexivity|]. repeat split.
  - destruct (transport_failure r) eqn:Hr.
    + destruct (update_on_failure r rest Hnet Hr) as (h' & t & out & _ & Hrun).
      rewrite Hrun. eexists. split; [reflexivity|]. repeat split.
    + destruct r as [lat | lat code doc]; [discriminate|].
      destruct (update_on_reply lat code doc rest Hnet Hr)
        as (h' & dt & out & _ & Hrun).
      rewrite Hrun. eexists. split; [reflexivity|]. repeat split.
Qed.

End UpdateSteps.

(** With a positive limit a fetch always returns, and leaves the
    requested parameters recorded. *)
Lemma get_page_content_returns (p : Params) (s : Sys) :
  1 <= limit s ->
  exists r s1,
    ScraperMixin._get_page_content p s = (Ok r, s1) /\
    last_request (self s1) = Some p /\
    limit s1 = limit s.
Proof.
  intros HN. rewrite get_page_content_unfold.
  destruct (ScraperMixin.needs_update (self s) p (clock s)).
  - destruct s as [o [[h N W] w]]. cbn in HN.
    destruct (update_dispatches o h N W w p HN) as (s1 & Hrun & _ & HN1 & _).
    rewrite Hrun. eexists _, _. split; [reflexivity|]. split; [reflexivity|].
    exact HN1.
  - eexists _, _. split; [reflexivity|]. split; reflexivity.
Qed.

(** A request for parameters other than the recorded ones is never served
    from the cache. *)
Lemma needs_update_other (o : ScraperMixin) (p1 p2 : Params) (t : Z) :
  last_request o = Some p1 -> p1 <> p2 ->
  ScraperMixin.needs_update o p2 t = true.
Proof.
  intros Hreq Hne. unfold ScraperMixin.needs_update.
  destruct (last_updated o); [|reflexivity].
  rewrite Hreq, bool_decide_eq_false_2; [reflexivity | congruence].
Qed.

(** C3. Two fetches of the same parameters issued less than the
    update interval apart dispatch exactly one request (the first one, its
    reply arriving without an error status), and a fetch of other
    parameters always dispatches a request, whatever the interval. *)
Theorem fetch_same_once_other_again :
  forall (s : Sys) (p p' : Params) (gap : N),
    1 <= limit s ->
    (forall lat code doc rest,
        ScraperMixin.needs_update (self s) p (clock s) = true ->
        network (world (env s)) = Reply lat code doc :: rest ->
        transport_failure (Reply lat code doc) = false ->
        let s1 := later gap (snd (ScraperMixin._get_page_content p s)) in
        clock s1 - clock s < update_interval (self s) ->
        fst (ScraperMixin._get_page_content p s1) = Ok (Some doc) /\
        dispatched (snd (ScraperMixin._get_page_content p s1))
        = dispatched s ++ [p])
    /\
    (p <> p' ->
     let s1 := later gap (snd (ScraperMixin._get_page_content p s)) in
     dispatched (snd (ScraperMixin._get_page_content p' s1))
     = dispatched s1 ++ [p']).
Proof.
  intros s p p' gap HN. split.
  - intros lat code doc rest Hmiss Hnet Hok.
    destruct s as [o [[h N W] w]]. unfold limit, clock in *. cbn in HN, Hnet, Hmiss.
    destruct (update_on_reply o h N W w p HN lat code doc rest Hnet Hok)
      as (h' & dt & out & Hdt & Hrun).
    rewrite (get_page_content_unfold p (mkSys _ _)).
    unfold clock. cbn [self env world]. rewrite Hmiss, Hrun.
    cbn [snd]. cbv zeta. intros Hnear.
    rewrite get_page_content_unfold.
    unfold ScraperMixin.needs_update, clock, later, elapse in *; cbn in *.
    rewrite bool_decide_eq_true_2 by reflexivity. cbn.
    destruct (update_interval o <? _) eqn:Hstale; [zify_bools; lia|].
    cbn. split; reflexivity.
  - intros Hne.
    destruct (get_page_content_returns p s HN) as (r & s1 & Hrun & Hreq & HN1).
    rewrite Hrun. cbn [snd].
    rewrite get_page_content_unfold.
    rewrite (needs_update_other _ p p') by (assumption || exact Hreq).
    destruct s1 as [o1 [[h1 N1 W1] w1]]. cbn in HN1.
    assert (HN' : 1 <= N1) by lia.
    destruct (update_dispatches o1 h1 N1 W1
                (mkWorld (now w1 + Z.of_N gap) (network w1) (sent w1) (stdout w1))
                p' HN')
      as (s2 & Hrun2 & Hsent & _).
    unfold later, elapse. cbn. cbn in Hrun2. rewrite Hrun2. cbn.
    exact Hsent.
Qed.

(** A new facade, one reply, a second call ten seconds later. *)
Lemma fetch_same_once_other_again_witness :
  let s := Fixtures.fresh [Reply 2 200 Fixtures.blank_page] in
  let p := Fixtures.params_a in
  let p' := Fixtures.params_b in
  let s1 := later 10 (snd (ScraperMixin._get_page_content p s)) in
  1 <= limit s /\
  ScraperMixin.needs_update (self s) p (clock s) = true /\
  transport_failure (Reply 2 200 Fixtures.blank_page) = false /\
  clock s1 - clock s < update_interval (self s) /\
  p <> p' /\
  fst (ScraperMixin._get_page_content p s1) = Ok (Some Fixtures.blank_page) /\
  dispatched (snd (ScraperMixin._get_page_content p s1)) = dispatched s ++ [p] /\
  dispatched (snd (ScraperMixin._get_page_content p' s1)) = dispatched s1 ++ [p'].
Proof.
  intros s p p' s1.
  assert (H1 : 1 <= limit s) by (vm_compute; discriminate).
  assert (H2 : ScraperMixin.needs_update (self s) p (clock s) = true) by reflexivity.
  assert (H3 : transport_failure (Reply 2 200 Fixtures.blank_page) = false) by reflexivity.
  assert (H4 : clock s1 - clock s < update_interval (self s)) by (vm_compute; reflexivity).
  assert (H5 : p <> p') by (apply (bool_decide_eq_false_1 (p = p')); vm_compute; reflexivity).
  destruct (fetch_same_once_other_again s p p' 10 H1) as [Hsame Hother].
  destruct (Hsame 2%N 200 Fixtures.blank_page [] H2 eq_refl H3 H4) as [Hdoc Hone].
  exact (conj H1 (conj H2 (conj H3 (conj H4 (conj H5
           (conj Hdoc (conj Hone (Hother H5)))))))).
Defined.

(** Replaces [later gap s], for an explicit state [s], by the state it
    denotes. *)
Ltac expose_later gap :=
  match goal with
  | |- context [later gap ?S] =>
      let S' := fresh "S" in
      let E := fresh "E" in
      remember (later gap S) as S' eqn:E;
      unfold later, elapse in E;
      cbn [self env world manager now network sent stdout] in E;
      subst S'
  end.

(** The three ways a fetch can go, as equations on the whole call. *)
Section FetchSteps.

Variables (o : ScraperMixin) (h : list Z) (N W : Z) (w : World) (p : Params).
Hypothesis limit_positive : 1 <= N.

Let s : Sys := mkSys o (mkEnv (mkSessionManager h N W) w).

Lemma fetch_on_reply lat code doc rest :
  ScraperMixin.needs_update o p (now w) = true ->
  network w = Reply lat code doc :: rest ->
  transport_failure (Reply lat code doc) = false ->
  exists h' dt out,
    0 <= dt /\
    ScraperMixin._get_page_content p s =
    (Ok (Some doc),
     mkSys (record_request p (store_page doc (now w + dt + Z.of_N lat) o))
           (mkEnv (mkSessionManager (h' ++ [now w + dt + Z.of_N lat]) N W)
                  (mkWorld (now w + dt + Z.of_N lat) rest (sent w ++ [p]) out))).
Proof.
  intros Hmiss Hnet Hok.
  destruct (update_on_reply o h N W w p limit_positive lat code doc rest Hnet Hok)
    as (h' & dt & out & Hdt & Hrun).
  exists h', dt, out. split; [exact Hdt|].
  rewrite get_page_content_unfold. unfold clock, s. cbn [self env world].
  rewrite Hmiss. fold s. unfold s at 1. rewrite Hrun. reflexivity.
Qed.

Lemma fetch_on_failure r rest :
  ScraperMixin.needs_update o p (now w) = true ->
  network w = r :: rest ->
  transport_failure r = true ->
  exists h' t out,
    now w <= t /\
    ScraperMixin._get_page_content p s =
    (Ok (page_content o),
     mkSys (record_request p o)
           (mkEnv (mkSessionManager h' N W)
                  (mkWorld t rest (sent w ++ [p]) out))).
Proof.
  intros Hmiss Hnet Hbad.
  destruct (update_on_failure o h N W w p limit_positive r rest Hnet Hbad)
    as (h' & t & out & Ht & Hrun).
  exists h', t, out. split; [exact Ht|].
  rewrite get_page_content_unfold. unfold clock, s. cbn [self env world].
  rewrite Hmiss. rewrite Hrun. reflexivity.
Qed.

Lemma fetch_cached :
  ScraperMixin.needs_update o p (now w) = false ->
  ScraperMixin._get_page_content p s =
  (Ok (page_content o), mkSys (record_request p o) (env s)).
Proof.
  intros Hhit. rewrite get_page_content_unfold. unfold clock, s.
  cbn [self env world]. rewrite Hhit. reflexivity.
Qed.

End FetchSteps.

(** C10. After a fetch for [p1] that stored a page, a fetch for other
    parameters [p2] that fails (connection failure or error status) still
    records [p2] and hands back the page of [p1]; a further fetch for [p2]
    within the update interval of the [p1] fetch hands back that page again
    and dispatches nothing. *)
Theorem failed_fetch_serves_other_page :
  forall (s : Sys) (p1 p2 : Params) lat code doc bad rest (gap1 gap2 : N) (t1 : Z),
    1 <= limit s ->
    ScraperMixin.needs_update (self s) p1 (clock s) = true ->
    network (world (env s)) = Reply lat code doc :: bad :: rest ->
    transport_failure (Reply lat code doc) = false ->
    transport_failure bad = true ->
    p1 <> p2 ->
    let run1 := ScraperMixin._get_page_content p1 s in
    let run2 := ScraperMixin._get_page_content p2 (later gap1 (snd run1)) in
    let s2 := later gap2 (snd run2) in
    let run3 := ScraperMixin._get_page_content p2 s2 in
    last_updated (self (snd run1)) = Some t1 ->
    clock s2 - t1 <= update_interval (self s) ->
    fst run1 = Ok (Some doc) /\
    fst run2 = Ok (Some doc) /\
    last_request (self (snd run2)) = Some p2 /\
    dispatched (snd run2) = dispatched s ++ [p1; p2] /\
    fst run3 = Ok (Some doc) /\
    dispatched (snd run3) = dispatched (snd run2).
Proof.
  intros s p1 p2 lat code doc bad rest gap1 gap2 t1 HN Hmiss Hnet Hok Hbad Hne.
  destruct s as [o [[h N W] w]]. unfold limit, clock in HN, Hmiss.
  cbn [self env world manager max_requests_per_second] in HN, Hmiss, Hnet.
  destruct (fetch_on_reply o h N W w p1 HN lat code doc (bad :: rest) Hmiss Hnet Hok)
    as (h1 & dt1 & out1 & Hdt1 & Hrun1).
  cbv zeta. rewrite Hrun1. cbn [fst snd].
  expose_later gap1.
  match goal with
  | |- context [ScraperMixin._get_page_content p2
                  (mkSys ?o1 (mkEnv (mkSessionManager ?h1' _ _) ?w1))] =>
      destruct (fetch_on_failure o1 h1' N W w1 p2 HN bad rest
                  (needs_update_other o1 p1 p2 _ eq_refl Hne) eq_refl Hbad)
        as (h2 & t2 & out2 & Ht2 & Hrun2)
  end.
  cbn [now] in Hrun2. rewrite Hrun2. cbn [fst snd].
  expose_later gap2.
  intros Hstamp Hnear. cbn in Hstamp. injection Hstamp as <-.
  rewrite fetch_cached.
  - unfold dispatched. cbn.
    repeat split; try reflexivity.
    symmetry. apply (List.app_assoc (sent w) [p1] [p2]).
  - unfold ScraperMixin.needs_update, clock in *; cbn in *.
    rewrite bool_decide_eq_true_2 by reflexivity. cbn.
    apply Z.ltb_ge. lia.
Qed.

(** A new facade, a reply for the first athlete, no connection for the
    second. *)
Lemma failed_fetch_serves_other_page_witness :
  let s := Fixtures.fresh [Reply 2 200 Fixtures.blank_page; NoConnection 1] in
  let p1 := Fixtures.params_a in
  let p2 := Fixtures.params_b in
  let run1 := ScraperMixin._get_page_content p1 s in
  let run2 := ScraperMixin._get_page_content p2 (later 5 (snd run1)) in
  let s2 := later 7 (snd run2) in
  let run3 := ScraperMixin._get_page_content p2 s2 in
  1 <= limit s /\
  ScraperMixin.needs_update (self s) p1 (clock s) = true /\
  transport_failure (Reply 2 200 Fixtures.blank_page) = false /\
  transport_failure (NoConnection 1) = true /\
  p1 <> p2 /\
  last_updated (self (snd run1)) = Some 1002 /\
  clock s2 - 1002 <= update_interval (self s) /\
  fst run1 = Ok (Some Fixtures.blank_page) /\
  fst run2 = Ok (Some Fixtures.blank_page) /\
  last_request (self (snd run2)) = Some p2 /\
  dispatched (snd run2) = dispatched s ++ [p1; p2] /\
  fst run3 = Ok (Some Fixtures.blank_page) /\
  dispatched (snd run3) = dispatched (snd run2).
Proof.
  intros s p1 p2 run1 run2 s2 run3.
  assert (H1 : 1 <= limit s) by (vm_compute; discriminate).
  assert (H2 : ScraperMixin.needs_update (self s) p1 (clock s) = true) by reflexivity.
  assert (H3 : transport_failure (Reply 2 200 Fixtures.blank_page) = false) by reflexivity.
  assert (H4 : transport_failure (NoConnection 1) = true) by reflexivity.
  assert (H5 : p1 <> p2) by (apply (bool_decide_eq_false_1 (p1 = p2)); vm_compute; reflexivity).
  assert (H6 : last_updated (self (snd run1)) = Some 1002) by (vm_compute; reflexivity).
  assert (H7 : clock s2 - 1002 <= update_interval (self s)) by (vm_compute; discriminate).
  exact (conj H1 (conj H2 (conj H3 (conj H4 (conj H5 (conj H6 (conj H7
    (failed_fetch_serves_other_page s p1 p2 2%N 200 Fixtures.blank_page
       (NoConnection 1) [] 5%N 7%N 1002 H1 H2 eq_refl H3 H4 H5 H6 H7)))))))).
Defined.

(** C4. A reply with status 200 and no [body] is treated as a failed
    fetch ("Empty response" is printed), yet by then the cache has been
    overwritten: the page held before is gone and the time stamp is that
    of the failed attempt.  (After a connection failure the page and the
    time stamp are kept, but [_get_page_content] records the parameters of
    the failed request.) *)
Theorem empty_reply_overwrites_cache :
  let s := Fixtures.fresh [Reply 2 200 Fixtures.blank_page;
                           Reply 3 200 Fixtures.empty_reply] in
  let s1 := snd (ScraperMixin._get_page_content Fixtures.params_a s) in
  let run2 := ScraperMixin._update_page_content Fixtures.params_a (later 100 s1) in
  let s' := Fixtures.fresh [Reply 2 200 Fixtures.blank_page; NoConnection 1] in
  let s1' := snd (ScraperMixin._get_page_content Fixtures.params_a s') in
  let s2' := snd (ScraperMixin._get_page_content Fixtures.params_b (later 5 s1')) in
  page_content (self s1) = Some Fixtures.blank_page /\
  last_updated (self s1) = Some 1002 /\
  fst run2 = Ok tt /\
  stdout (world (env (snd run2))) = [EmptyResponse] /\
  page_content (self (snd run2)) = Some Fixtures.empty_reply /\
  last_updated (self (snd run2)) = Some 1105 /\
  stdout (world (env s2')) = [ConnectionError] /\
  page_content (self s2') = Some Fixtures.blank_page /\
  last_updated (self s2') = Some 1002 /\
  last_request (self s1') = Some Fixtures.params_a /\
  last_request (self s2') = Some Fixtures.params_b.
Proof.
  cbv zeta.
  repeat match goal with |- _ /\ _ => split end; vm_compute; reflexivity.
Qed.

(** C5. After a page was cached, a fetch that fails with a connection
    error returns the cached page, not [None]; only a facade that holds no
    page returns [None] on failure. *)
Theorem failed_fetch_returns_stale_page :
  let s := Fixtures.fresh [Reply 2 200 Fixtures.blank_page; NoConnection 1] in
  let s1 := snd (ScraperMixin._get_page_content Fixtures.params_a s) in
  let run2 := ScraperMixin._get_page_content Fixtures.params_a (later 100 s1) in
  fst run2 = Ok (Some Fixtures.blank_page) /\
  stdout (world (env (snd run2))) = [ConnectionError] /\
  dispatched (snd run2) = [Fixtures.params_a; Fixtures.params_a] /\
  fst (ScraperMixin._get_page_content Fixtures.params_a
         (Fixtures.fresh [NoConnection 1])) = Ok None.
Proof.
  cbv zeta.
  repeat match goal with |- _ /\ _ => split end; vm_compute; reflexivity.
Qed.

(** ** Listing operations *)

(** [find] and [find_all] only return tags. *)
Lemma find_all_tags name wanted n x :
  In x (Bs4.find_all name wanted n) ->
  exists nm cl at_ kids, x = Bs4.Tag nm cl at_ kids.
Proof.
  unfold Bs4.find_all. intros Hin. apply filter_In in Hin.
  destruct Hin as [_ Hm]. destruct x as [nm cl at_ kids | t]; [eauto | discriminate].
Qed.

Lemma find_tag name wanted n x :
  Bs4.find name wanted n = Some x ->
  exists nm cl at_ kids, x = Bs4.Tag nm cl at_ kids.
Proof.
  unfold Bs4.find. intros Hhd.
  apply (find_all_tags name wanted n).
  destruct (Bs4.find_all name wanted n) as [|y l]; [discriminate|].
  injection Hhd as ->. left; reflexivity.
Qed.

(** Reading an attribute of a tag can only fail with [KeyError]. *)
Lemma getitem_tag_error nm cl at_ kids key e :
  Bs4.getitem (Bs4.Tag nm cl at_ kids) key = Raise e -> e = KeyError.
Proof. cbn. destruct (at_ !! key); congruence. Qed.

Lemma parse_qs_first_error qs key e :
  Py.parse_qs_first qs key = Raise e -> e = KeyError.
Proof. unfold Py.parse_qs_first. destruct (List.find _ _); congruence. Qed.

Lemma int_error s e : Py.int s = Raise e -> e = ValueError.
Proof.
  unfold Py.int.
  destruct (match Bs4.strip s with
            | String "-" r => (-1, r) | String "+" r => (1, r) | _ => (1, Bs4.strip s)
            end) as [sign body] eqn:E.
  intros H.
  assert (G : match Py.int_digits 0 false body with
              | Some n => Ok (sign * n) | None => Raise ValueError end = Raise e).
  { rewrite <- H. destruct (Bs4.strip s) as [|c r]; [inversion E; reflexivity|].
    destruct c as [[] [] [] [] [] [] [] []]; inversion E; reflexivity. }
  destruct (Py.int_digits 0 false body); congruence.
Qed.

(** Every exception the body of the search loop can raise is one the
    loop catches. *)
Lemma search_row_error row e :
  Athlete.search_row row = Raise e -> Athlete.row_error e = true.
Proof.
  unfold Athlete.search_row.
  destruct (Bs4.find "td" ["name"] row) as [name_cell|]; [|discriminate].
  destruct (Bs4.find "a" [] name_cell) as [name_link|] eqn:Hlink; [|discriminate].
  destruct (find_tag _ _ _ _ Hlink) as (nm & cl & at_ & kids & ->).
  unfold rbind.
  destruct (Bs4.getitem _ "href") as [url|e1] eqn:E1.
  2:{ intros [= <-]. apply getitem_tag_error in E1 as ->. reflexivity. }
  destruct (Py.parse_qs_first _ _) as [id|e2] eqn:E2.
  2:{ intros [= <-]. apply parse_qs_first_error in E2 as ->. reflexivity. }
  destruct (Py.int id) as [z|e3] eqn:E3.
  2:{ intros [= <-]. apply int_error in E3 as ->. reflexivity. }
  destruct (Bs4.find "img" [] row) as [img|] eqn:Himg; [|discriminate].
  destruct (find_tag _ _ _ _ Himg) as (nm' & cl' & at' & kids' & ->).
  destruct (Bs4.getitem _ "src") as [src|e4] eqn:E4; [discriminate|].
  intros [= <-]. apply getitem_tag_error in E4 as ->. reflexivity.
Qed.

(** The search loop never raises: it returns, in page order, the records
    of the rows that could be read. *)
Lemma search_rows_spec rows data :
  Athlete.search_rows rows data = Ok (data ++ omap search_row_record rows).
Proof.
  revert data. induction rows as [|row rows IH]; intros data; cbn.
  - rewrite app_nil_r. reflexivity.
  - unfold search_row_record at 1.
    destruct (Athlete.search_row row) as [[r|]|e] eqn:Hrow.
    + rewrite IH, <- app_assoc. reflexivity.
    + apply IH.
    + rewrite (search_row_error _ _ Hrow). apply IH.
Qed.

(** In [search_athletes] a row that fails is dropped alone: the result is
    what the rows before it give followed by what the rows after it
    give. *)
Lemma search_rows_drop_failed before bad after e :
  Athlete.search_row bad = Raise e ->
  Athlete.search_rows (before ++ bad :: after) [] =
  Ok (omap search_row_record before ++ omap search_row_record after).
Proof.
  intros Hbad. rewrite search_rows_spec, omap_app. cbn.
  unfold search_row_record at 2. rewrite Hbad. reflexivity.
Qed.

(** [search_athletes] answers a page without the result table with the
    empty list. *)
Lemma search_extract_no_table doc :
  Bs4.soup_find "table" ["athleteSearch"] doc = None ->
  Athlete.search_extract (Some doc) = Ok [].
Proof. intros H. unfold Athlete.search_extract. rewrite H. reflexivity. Qed.

(** The methods that call [table.find_all] after their [try] block raise
    when the table is missing. *)
Lemma rows_of_no_table wanted body :
  rows_of None wanted body = Raise AttributeError.
Proof. reflexivity. Qed.

(** C1. On a page that has a body but not the expected table,
    [search_athletes] returns the empty list, whereas
    [list_personal_bests], [list_meets] and [Meet.list_clubs] raise
    [AttributeError] to their caller. *)
Theorem listing_without_table_raises :
  let s := Fixtures.fresh [Reply 2 200 Fixtures.blank_page] in
  fst (Athlete.search_athletes "Druwel" (-1) (-1)
         (Fixtures.env0 [Reply 2 200 Fixtures.blank_page])) = Ok [] /\
  fst (Athlete.list_personal_bests (PStr "4292888") (PStr "-1") s)
  = Raise AttributeError /\
  fst (Athlete.list_meets (PStr "4292888") s) = Raise AttributeError /\
  fst (Meet.list_clubs (PStr "640537") s) = Raise AttributeError.
Proof. vm_compute. repeat split; reflexivity. Qed.

(** C2. In [list_personal_bests] a row without its event cell ends the
    whole listing with [AttributeError], although the row after it is
    complete (alone it yields its record); [search_athletes] on a page
    with a broken row first returns the record of the complete row. *)
Theorem broken_row_aborts_personal_bests :
  fst (Athlete.list_personal_bests (PStr "4292888") (PStr "-1")
         (Fixtures.fresh [Reply 2 200 (Fixtures.bests_page [Fixtures.best_row])]))
  = Ok [Fixtures.best_record] /\
  fst (Athlete.list_personal_bests (PStr "4292888") (PStr "-1")
         (Fixtures.fresh
            [Reply 2 200
               (Fixtures.bests_page [Fixtures.best_row_broken; Fixtures.best_row])]))
  = Raise AttributeError /\
  fst (Athlete.search_athletes "Druwel" (-1) (-1)
         (Fixtures.env0
            [Reply 2 200
               (Fixtures.search_page
                  [Fixtures.search_row_no_id; Fixtures.search_row_full])]))
  = Ok [Fixtures.search_record_full].
Proof.
  cbv zeta.
  repeat match goal with |- _ /\ _ => split end; vm_compute; reflexivity.
Qed.

(** C9, counterexample. A search row without a country-code cell yields
    a record in which the key [country_code] is present and holds the
    empty string. *)
Lemma country_code_key_present_when_cell_missing :
  Bs4.find "td" ["code"] Fixtures.search_row_no_code = None /\
  Athlete.search_row Fixtures.search_row_no_code
  = Ok (Some Fixtures.search_record_no_code) /\
  Fixtures.search_record_no_code !! "country_code" = Some (VStr "") /\
  ~ (forall r, Athlete.search_row Fixtures.search_row_no_code = Ok (Some r) ->
               r !! "country_code" = None).
Proof.
  assert (Hrun : Athlete.search_row Fixtures.search_row_no_code
                 = Ok (Some Fixtures.search_record_no_code))
    by (vm_compute; reflexivity).
  assert (Hkey : Fixtures.search_record_no_code !! "country_code" = Some (VStr ""))
    by (vm_compute; reflexivity).
  split; [vm_compute; reflexivity|].
  split; [exact Hrun|]. split; [exact Hkey|].
  intros Habsent. specialize (Habsent _ Hrun). congruence.
Qed.

(** C9, as amended. Every record [search_athletes] builds has exactly
    the six keys [athlete_id], [name], [birth_year], [gender],
    [country_code] and [club_name].  Each of the text fields
    [birth_year], [country_code] and [club_name] holds the empty string
    when its cell is missing from the row, and [gender] holds ["f"] when
    the row has no image. *)
Theorem search_record_defaults :
  forall (row : Bs4.node) (r : Record_),
    Athlete.search_row row = Ok (Some r) ->
    dom r = {[ "athlete_id"; "name"; "birth_year"; "gender";
               "country_code"; "club_name" ]} /\
    (Bs4.find "td" ["date"] row = None ->
     r !! "birth_year" = Some (VStr "")) /\
    (Bs4.find "td" ["code"] row = None ->
     r !! "country_code" = Some (VStr "")) /\
    (Bs4.find "td" ["club"] row = None ->
     r !! "club_name" = Some (VStr "")) /\
    (Bs4.find "img" [] row = None ->
     r !! "gender" = Some (VStr "f")).
Proof.
  intros row r. unfold Athlete.search_row.
  destruct (Bs4.find "td" ["name"] row) as [name_cell|]; [|discriminate].
  destruct (Bs4.find "a" [] name_cell) as [name_link|]; [|discriminate].
  unfold rbind.
  destruct (Bs4.getitem _ "href") as [url|]; [|discriminate].
  destruct (Py.parse_qs_first _ _) as [id|]; [|discriminate].
  destruct (Py.int id) as [z|]; [|discriminate].
  destruct (Bs4.find "img" [] row) as [img|].
  - destruct (Bs4.getitem img "src") as [src|]; [|discriminate].
    intros [= <-]. split; [|split; [|split; [|split]]].
    + rewrite !dom_insert_L, dom_empty_L. set_solver.
    + intros ->. reflexivity.
    + intros ->. reflexivity.
    + intros ->. reflexivity.
    + discriminate.
  - intros [= <-]. split; [|split; [|split; [|split]]].
    + rewrite !dom_insert_L, dom_empty_L. set_solver.
    + intros ->. reflexivity.
    + intros ->. reflexivity.
    + intros ->. reflexivity.
    + reflexivity.
Qed.

(** A row that has its name cell and nothing else. *)
Lemma search_record_defaults_witness :
  Athlete.search_row search_row_bare = Ok (Some search_record_bare) /\
  Bs4.find "td" ["date"] search_row_bare = None /\
  Bs4.find "td" ["code"] search_row_bare = None /\
  Bs4.find "td" ["club"] search_row_bare = None /\
  Bs4.find "img" [] search_row_bare = None /\
  dom search_record_bare
  = {[ "athlete_id"; "name"; "birth_year"; "gender";
       "country_code"; "club_name" ]} /\
  search_record_bare !! "birth_year" = Some (VStr "") /\
  search_record_bare !! "country_code" = Some (VStr "") /\
  search_record_bare !! "club_name" = Some (VStr "") /\
  search_record_bare !! "gender" = Some (VStr "f").
Proof.
  assert (Hrun : Athlete.search_row search_row_bare = Ok (Some search_record_bare))
    by (vm_compute; reflexivity).
  assert (Hdate : Bs4.find "td" ["date"] search_row_bare = None)
    by (vm_compute; reflexivity).
  assert (Hcode : Bs4.find "td" ["code"] search_row_bare = None)
    by (vm_compute; reflexivity).
  assert (Hclub : Bs4.find "td" ["club"] search_row_bare = None)
    by (vm_compute; reflexivity).
  assert (Himg : Bs4.find "img" [] search_row_bare = None)
    by (vm_compute; reflexivity).
  destruct (search_record_defaults _ _ Hrun) as (Hdom & Hb & Hc & Hn & Hg).
  exact (conj Hrun (conj Hdate (conj Hcode (conj Hclub (conj Himg
           (conj Hdom (conj (Hb Hdate) (conj (Hc Hcode)
              (conj (Hn Hclub) (Hg Himg)))))))))).
Defined.

(** ** The sliding window *)

Lemma filter_after_sorted (b : Z) (l : list Z) :
  StronglySorted Z.le l ->
  exists pre,
    l = pre ++ List.filter (fun t => b <? t) l /\
    Forall (fun t => t <= b) pre.
Proof.
  induction 1 as [|x l Hs IH Hx].
  - exists []. split; [reflexivity | constructor].
  - cbn. destruct (b <? x) eqn:Hbx.
    + exists []. split; [|constructor]. cbn. f_equal.
      symmetry. apply forallb_filter_id. apply forallb_forall.
      intros y Hy. rewrite Forall_forall in Hx. apply list_elem_of_In in Hy.
      specialize (Hx y Hy). apply Z.ltb_lt. apply Z.ltb_lt in Hbx. lia.
    + destruct IH as (pre & Hl & Hpre).
      exists (x :: pre). split; [cbn; f_equal; exact Hl|].
      constructor; [apply Z.ltb_ge in Hbx; lia | exact Hpre].
Qed.

Lemma sorted_snoc (l : list Z) (x : Z) :
  StronglySorted Z.le l -> Forall (fun t => t <= x) l ->
  StronglySorted Z.le (l ++ [x]).
Proof.
  induction 1 as [|y l Hs IH Hy]; intros Hle.
  - cbn. constructor; constructor.
  - cbn. apply Forall_cons in Hle as [Hyx Hle].
    constructor; [apply IH; exact Hle|].
    apply Forall_app. split; [exact Hy | constructor; [exact Hyx | constructor]].
Qed.

Lemma sorted_app_r (l1 l2 : list Z) :
  StronglySorted Z.le (l1 ++ l2) -> StronglySorted Z.le l2.
Proof.
  induction l1 as [|x l1 IH]; cbn; [auto|].
  intros H. apply StronglySorted_inv in H as [H _]. auto.
Qed.

Lemma acquire_unfold (gap : N * N) (h : list Z) (N W : Z) (w : World) :
  acquire gap (mkEnv (mkSessionManager h N W) w) =
  match SessionManager.check_request_rate_limit
          (mkEnv (mkSessionManager h N W)
                 (mkWorld (now w + Z.of_N (fst gap)) (network w) (sent w) (stdout w)))
  with
  | (Ok _, e1) =>
      let t := now (world e1) + Z.of_N (snd gap) in
      (Ok t,
       mkEnv (mkSessionManager (request_history (manager e1) ++ [t])
                (max_requests_per_second (manager e1)) (max_per (manager e1)))
             (mkWorld t (network (world e1)) (sent (world e1)) (stdout (world e1))))
  | (Raise x, e1) => (Raise x, e1)
  end.
Proof.
  unfold acquire, wait, modify, elapse.
  unfold bind at 1 2. cbn [manager world now network sent stdout].
  destruct (SessionManager.check_request_rate_limit _) as [[[]|x] [[h1 N1 W1] w1]];
    reflexivity.
Qed.

Lemma elapse_zero (e : Env) : elapse 0 e = e.
Proof.
  destruct e as [m [t net snt out]]. unfold elapse. cbn.
  rewrite Z.add_0_r. reflexivity.
Qed.

(** A fetch that gets a reply without an error status is one [acquire]
    as far as the session manager and the clock are concerned. *)
Lemma update_page_content_acquires (o : ScraperMixin) (e : Env) (p : Params)
    lat code doc rest :
  network (world e) = Reply lat code doc :: rest ->
  transport_failure (Reply lat code doc) = false ->
  let e1 := env (snd (ScraperMixin._update_page_content p (mkSys o e))) in
  let e2 := snd (acquire (0%N, lat) e) in
  manager e1 = manager e2 /\ now (world e1) = now (world e2).
Proof.
  intros Hnet Hok. cbn in Hok.
  assert (Hkeep : forall r e', SessionManager.check_request_rate_limit e = (r, e') ->
                               network (world e') = network (world e)).
  { destruct e as [[h N W] w]. rewrite check_unfold. intros r e'.
    destruct (N <=? _); [|intros [= <- <-]; reflexivity].
    destruct (List.filter _ h); [intros [= <- <-]; reflexivity|].
    cbn zeta. destruct (_ <? 0); intros [= <- <-]; reflexivity. }
  unfold acquire, wait, modify, ScraperMixin._update_page_content, try_except,
    on_env, bind.
  cbv beta. cbn [env self fst snd]. rewrite elapse_zero.
  destruct (SessionManager.check_request_rate_limit e) as [[[]|x] e'] eqn:Hchk.
  - specialize (Hkeep _ _ eq_refl). rewrite Hnet in Hkeep.
    destruct e' as [m' [t' net' snt' out']]. cbn in Hkeep. subst net'.
    unfold session_get, raise_for_status, elapse; cbn.
    rewrite Hok; cbn.
    destruct (Bs4.soup_find "body" [] doc); cbn; split; reflexivity.
  - destruct x; cbn; split; reflexivity.
Qed.

(** At most [n] time stamps of a well-spaced log lie in a window that
    ends now. *)
Lemma window_holds_at_most (n : nat) (W c : Z) (pre valid : list Z) :
  spaced n W (pre ++ valid) ->
  Forall (fun t => c - W < t) valid ->
  Forall (fun t => t <= c) valid ->
  (length valid <= n)%nat.
Proof.
  intros Hsp Hin Hpast.
  destruct (Nat.le_gt_cases (length valid) n) as [|Hgt]; [assumption|exfalso].
  destruct (lookup_lt_is_Some_2 valid 0%nat) as [t0 H0]; [lia|].
  destruct (lookup_lt_is_Some_2 valid n) as [tn Hn]; [lia|].
  assert (W <= tn - t0).
  { apply (Hsp (length pre + 0)%nat).
    - rewrite lookup_app_r by lia. replace (length pre + 0 - length pre)%nat with 0%nat by lia. exact H0.
    - rewrite lookup_app_r by lia. replace (length pre + 0 + n - length pre)%nat with n by lia. exact Hn. }
  rewrite Forall_lookup in Hin, Hpast.
  specialize (Hin _ _ H0). specialize (Hpast _ _ Hn). cbn in *. lia.
Qed.

Lemma filter_Forall_true (f : Z -> bool) (l : list Z) :
  Forall (fun t => f t = true) (List.filter f l).
Proof.
  apply Forall_forall. intros x Hx. apply list_elem_of_In in Hx.
  apply filter_In in Hx. tauto.
Qed.

Lemma acquire_step (N W : Z) (log : list Z) (e : Env) (gap : BinNums.N * BinNums.N) :
  1 <= N ->
  window_inv N W log e ->
  exists t e',
    acquire gap e = (Ok t, e') /\ window_inv N W (log ++ [t]) e'.
Proof.
  intros HN [Hlim Hwin Hsorted Hpast (pruned & Hlog & Hpruned) Hspaced].
  destruct e as [[h N0 W0] w]. cbn in Hlim, Hwin, Hpast, Hlog, Hpruned.
  subst N0 W0. destruct gap as [before during].
  rewrite acquire_unfold, check_unfold. cbn [fst snd now network sent stdout].
  set (c := now w + Z.of_N before).
  set (valid := List.filter (fun t => c - W <? t) h).
  assert (Hh : StronglySorted Z.le h) by (apply (sorted_app_r pruned); congruence).
  destruct (filter_after_sorted (c - W) h Hh) as (pre & Hsplit & Hpre).
  fold valid in Hsplit.
  assert (Hvalid_in : Forall (fun t => c - W < t) valid).
  { eapply Forall_impl; [apply filter_Forall_true|]. cbn. intros t Ht. lia. }
  assert (Hlog' : log = (pruned ++ pre) ++ valid).
  { rewrite <- app_assoc, <- Hsplit. exact Hlog. }
  assert (Hvalid_past : Forall (fun t => t <= c) valid).
  { rewrite Hlog' in Hpast. apply Forall_app in Hpast as [_ Hp].
    eapply Forall_impl; [exact Hp|]. cbn. intros t Ht. lia. }
  assert (Hleft : Forall (fun t => t + W <= c) (pruned ++ pre)).
  { apply Forall_app. split.
    - eapply Forall_impl; [exact Hpruned|]. cbn. intros t Ht. lia.
    - eapply Forall_impl; [exact Hpre|]. cbn. intros t Ht. lia. }
  assert (Hmost : (length valid <= Z.to_nat N)%nat).
  { apply (window_holds_at_most _ W c (pruned ++ pre)); [rewrite <- Hlog'; exact Hspaced | assumption..]. }
  assert (Hlen : length log = (length (pruned ++ pre) + length valid)%nat).
  { rewrite Hlog' at 1. apply length_app. }
  destruct (N <=? Z.of_nat (length valid)) eqn:Hfull.
  - (* the window is full: wait until its oldest request leaves it *)
    apply Z.leb_le in Hfull.
    destruct valid as [|oldest more] eqn:Hv; [cbn in Hfull; lia|].
    apply Forall_cons in Hvalid_in as [Hold _].
    cbn zeta. destruct (oldest + W - c <? 0) eqn:Hneg; [apply Z.ltb_lt in Hneg; lia|].
    cbn [manager world request_history max_requests_per_second max_per now
         network sent stdout].
    replace (c - W + (oldest + W - c)) with oldest by lia.
    replace (c + (oldest + W - c)) with (oldest + W) by lia.
    set (t := oldest + W + Z.of_N during).
    destruct (filter_after_sorted oldest h Hh) as (pre2 & Hsplit2 & Hpre2).
    eexists _, _. split; [reflexivity|].
    constructor; cbn.
    + reflexivity.
    + reflexivity.
    + apply sorted_snoc; [assumption|].
      eapply Forall_impl; [exact Hpast|]. cbn. intros x Hx. lia.
    + apply Forall_app. split.
      * eapply Forall_impl; [exact Hpast|]. cbn. intros x Hx. lia.
      * constructor; [lia | constructor].
    + exists (pruned ++ pre2). split.
      * rewrite Hlog. rewrite Hsplit2 at 1. rewrite <- !app_assoc. reflexivity.
      * apply Forall_app. split.
        -- eapply Forall_impl; [exact Hpruned|]. cbn. intros x Hx. lia.
        -- eapply Forall_impl; [exact Hpre2|]. cbn. intros x Hx. lia.
    + intros i x x' Hi Hi'.
      destruct (Nat.lt_ge_cases (i + Z.to_nat N) (length log)) as [Hlt|Hge].
      * rewrite lookup_app_l in Hi by lia. rewrite lookup_app_l in Hi' by lia.
        exact (Hspaced i x x' Hi Hi').
      * assert (Hidx : (i + Z.to_nat N)%nat = length log).
        { apply lookup_lt_Some in Hi'. rewrite length_app in Hi'. cbn in Hi'. lia. }
        rewrite Hidx, lookup_app_r in Hi' by lia.
        rewrite Nat.sub_diag in Hi'. cbn in Hi'. injection Hi' as <-.
        assert (Hfirst : i = length (pruned ++ pre)).
        { cbn in Hlen, Hmost, Hfull. lia. }
        rewrite lookup_app_l in Hi by lia.
        rewrite Hlog', Hfirst, lookup_app_r in Hi by lia.
        rewrite Nat.sub_diag in Hi. cbn in Hi. injection Hi as <-.
        unfold t. lia.
  - (* room in the window: no wait *)
    apply Z.leb_gt in Hfull.
    cbn [manager world request_history max_requests_per_second max_per now
         network sent stdout].
    set (t := c + Z.of_N during).
    eexists _, _. split; [reflexivity|].
    constructor; cbn.
    + reflexivity.
    + reflexivity.
    + apply sorted_snoc; [assumption|].
      eapply Forall_impl; [exact Hpast|]. cbn. intros x Hx. lia.
    + apply Forall_app. split.
      * eapply Forall_impl; [exact Hpast|]. cbn. intros x Hx. lia.
      * constructor; [lia | constructor].
    + exists pruned. split.
      * rewrite Hlog, <- app_assoc. reflexivity.
      * eapply Forall_impl; [exact Hpruned|]. cbn. intros x Hx. lia.
    + intros i x x' Hi Hi'.
      destruct (Nat.lt_ge_cases (i + Z.to_nat N) (length log)) as [Hlt|Hge].
      * rewrite lookup_app_l in Hi by lia. rewrite lookup_app_l in Hi' by lia.
        exact (Hspaced i x x' Hi Hi').
      * assert (Hidx : (i + Z.to_nat N)%nat = length log).
        { apply lookup_lt_Some in Hi'. rewrite length_app in Hi'. cbn in Hi'. lia. }
        rewrite Hidx, lookup_app_r in Hi' by lia.
        rewrite Nat.sub_diag in Hi'. cbn in Hi'. injection Hi' as <-.
        assert (Hin_left : (i < length (pruned ++ pre))%nat) by lia.
        rewrite lookup_app_l in Hi by lia.
        rewrite Hlog', lookup_app_l in Hi by lia.
        rewrite Forall_lookup in Hleft. specialize (Hleft _ _ Hi). cbn in Hleft.
        unfold t. lia.
Qed.

Lemma acquires_inv (N W : Z) (gaps : list (BinNums.N * BinNums.N)) :
  1 <= N ->
  forall (log : list Z) (e : Env),
    window_inv N W log e ->
    exists ts e',
      acquires gaps e = (Ok ts, e') /\
      length ts = length gaps /\
      window_inv N W (log ++ ts) e'.
Proof.
  intros HN. induction gaps as [|gap gaps IH]; intros log e Hinv.
  - exists [], e. rewrite app_nil_r.
    split; [reflexivity|]. split; [reflexivity | exact Hinv].
  - destruct (acquire_step N W log e gap HN Hinv) as (t & e1 & Hrun & Hinv1).
    destruct (IH _ _ Hinv1) as (ts & e2 & Hruns & Hlen & Hinv2).
    exists (t :: ts), e2. cbn [acquires]. unfold bind at 1. rewrite Hrun.
    unfold bind at 1. rewrite Hruns. split; [reflexivity|].
    split; [cbn; rewrite Hlen; reflexivity|].
    rewrite <- app_assoc in Hinv2. exact Hinv2.
Qed.

Lemma window_inv_init (N W : Z) (w : World) :
  window_inv N W [] (mkEnv (mkSessionManager [] N W) w).
Proof.
  constructor; cbn; try reflexivity.
  - constructor.
  - constructor.
  - exists []. split; [reflexivity | constructor].
  - intros i t t' Hi. rewrite lookup_nil in Hi. discriminate.
Qed.

(** X25. With a limit of [N >= 1] requests per window of [W], any number
    of requests that are answered without an error, made through a newly
    constructed manager, all return, and the time stamp of each request is
    at least [W] after that of the request [N] places before it: [N + 1]
    such requests take at least [W] from the first to the last, and no
    window of [W] holds more than [N] of them. *)
Theorem rate_limit_window :
  forall (N W : Z) (gaps : list (BinNums.N * BinNums.N)) (w : World)
         (sm : SessionManager),
    1 <= N ->
    SessionManager.init (N, W) = Ok sm ->
    exists ts e',
      acquires gaps (mkEnv sm w) = (Ok ts, e') /\
      length ts = length gaps /\
      (forall (i : nat) (t t' : Z),
          ts !! i = Some t -> ts !! (i + Z.to_nat N)%nat = Some t' ->
          W <= t' - t).
Proof.
  intros N W gaps w sm HN Hinit. injection Hinit as <-. cbn [fst snd].
  destruct (acquires_inv N W gaps HN [] _ (window_inv_init N W w))
    as (ts & e' & Hrun & Hlen & Hinv).
  exists ts, e'. split; [exact Hrun|]. split; [exact Hlen|].
  exact (inv_spaced _ _ _ _ Hinv).
Qed.

(** Three requests under a limit of two per thirty seconds. *)
Lemma rate_limit_window_witness :
  1 <= 2 /\
  SessionManager.init (2, 30) = Ok (mkSessionManager [] 2 30) /\
  exists ts e',
    acquires [(0, 1); (0, 1); (0, 1)]%N
      (mkEnv (mkSessionManager [] 2 30) (mkWorld 1000 [] [] [])) = (Ok ts, e') /\
    length ts = 3%nat /\
    (forall (i : nat) (t t' : Z),
        ts !! i = Some t -> ts !! (i + Z.to_nat 2)%nat = Some t' -> 30 <= t' - t).
Proof.
  assert (H : 1 <= 2) by lia.
  exact (conj H (conj eq_refl
    (rate_limit_window 2 30 [(0, 1); (0, 1); (0, 1)]%N (mkWorld 1000 [] [] [])
       _ H eq_refl))).
Defined.

Example three_requests_limit_two :
  fst (acquires [(0, 1); (0, 1); (0, 1)]%N
         (mkEnv (mkSessionManager [] 2 30) (mkWorld 1000 [] [] [])))
  = Ok [1001; 1002; 1032].
Proof. vm_compute. reflexivity. Qed.

(** C7, counterexample. A manager with a limit of zero is constructed
    without complaint, and its first check raises [IndexError]; a manager
    with a window of zero is constructed too. *)
Lemma zero_limit_accepted_then_IndexError :
  SessionManager.init (0, 30) = Ok (mkSessionManager [] 0 30) /\
  fst (SessionManager.check_request_rate_limit
         (mkEnv (mkSessionManager [] 0 30) (mkWorld 1000 [] [] [])))
  = Raise IndexError /\
  SessionManager.init (15, 0) = Ok (mkSessionManager [] 15 0).
Proof. repeat split. Qed.

(** C7, as amended. The constructor accepts every pair, non-positive
    values included.  Under every configuration one check lets the clock
    advance by at most the window length, so it never blocks forever; with
    a non-positive window and a positive limit it returns at once and
    changes nothing. *)
Theorem rate_limit_config_unchecked :
  forall (N W : Z) (h : list Z) (w : World),
    Forall (fun t => t <= now w) h ->
    let e := mkEnv (mkSessionManager h N W) w in
    SessionManager.init (N, W) = Ok (mkSessionManager [] N W) /\
    now w <= now (world (snd (SessionManager.check_request_rate_limit e)))
          <= now w + Z.max 0 W /\
    (W <= 0 -> 1 <= N ->
     SessionManager.check_request_rate_limit e = (Ok tt, e)).
Proof.
  intros N W h w Hpast e. split; [reflexivity|].
  unfold e. rewrite check_unfold.
  set (valid := List.filter (fun t => now w - W <? t) h).
  assert (Hvalid : Forall (fun t => now w - W < t <= now w) valid).
  { apply Forall_forall. intros t Ht. apply list_elem_of_In in Ht.
    apply filter_In in Ht as [Hin Hlt]. apply Z.ltb_lt in Hlt.
    rewrite Forall_forall in Hpast. apply list_elem_of_In in Hin.
    specialize (Hpast _ Hin). cbn in Hpast. lia. }
  split.
  - destruct (N <=? Z.of_nat (length valid)); [|cbn; lia].
    destruct valid as [|oldest more]; [cbn; lia|].
    apply Forall_cons in Hvalid as [Hold _]. cbn zeta.
    destruct (oldest + W - now w <? 0); cbn; lia.
  - intros HW HN. destruct valid as [|oldest more].
    + replace (N <=? Z.of_nat (length [])) with false; [reflexivity|].
      symmetry. apply Z.leb_gt. cbn. lia.
    + apply Forall_cons in Hvalid as [Hold _]. lia.
Qed.

(** Fifteen requests per zero seconds: constructed, and never waits. *)
Lemma rate_limit_config_unchecked_witness :
  let e := mkEnv (mkSessionManager [990; 995] 15 0) (mkWorld 1000 [] [] []) in
  Forall (fun t => t <= 1000) [990; 995] /\
  0 <= 0 /\ 1 <= 15 /\
  SessionManager.init (15, 0) = Ok (mkSessionManager [] 15 0) /\
  1000 <= now (world (snd (SessionManager.check_request_rate_limit e)))
       <= 1000 + Z.max 0 0 /\
  SessionManager.check_request_rate_limit e = (Ok tt, e).
Proof.
  intros e.
  assert (Hpast : Forall (fun t => t <= 1000) [990; 995]).
  { repeat constructor; cbn; lia. }
  assert (HW : 0 <= 0) by lia.
  assert (HN : 1 <= 15) by lia.
  destruct (rate_limit_config_unchecked 15 0 [990; 995] (mkWorld 1000 [] [] []) Hpast)
    as (Hinit & Hbound & Hnow).
  exact (conj Hpast (conj HW (conj HN (conj Hinit (conj Hbound (Hnow HW HN)))))).
Defined.

(** ** Requests that fail *)

(** A request that fails under a positive limit while the history is
    empty: nothing waits, nothing is recorded. *)
Lemma failed_update_never_waits (o : ScraperMixin) (N W t : Z) (p : Params)
    (r : response) (rest : list response) (snt : list Params) (out : list exn) :
  1 <= N ->
  transport_failure r = true ->
  ScraperMixin._update_page_content p
    (mkSys o (mkEnv (mkSessionManager [] N W) (mkWorld t (r :: rest) snt out)))
  = (Ok tt,
     mkSys o (mkEnv (mkSessionManager [] N W)
                (mkWorld (t + Z.of_N (latency_of r)) rest (snt ++ [p])
                   (out ++ [failure_of r])))).
Proof.
  intros HN Hbad.
  unfold ScraperMixin._update_page_content, try_except, bind, on_env.
  cbn [env self fst snd].
  rewrite check_unfold. cbn [request_history max_requests_per_second max_per
                               manager world now List.filter length].
  destruct (Z.leb_spec N (Z.of_nat 0)) as [Hle|_]; [cbn in Hle; lia|].
  destruct r as [lat|lat code doc]; cbn.
  - reflexivity.
  - cbn in Hbad. unfold raise_for_status. cbn. rewrite Hbad. reflexivity.
Qed.

Lemma failed_updates_never_wait (o : ScraperMixin) (N W : Z) (p : Params)
    (rs : list response) :
  1 <= N ->
  Forall (fun r => transport_failure r = true) rs ->
  forall (t : Z) (rest : list response) (snt : list Params) (out : list exn),
    updates p (length rs)
      (mkSys o (mkEnv (mkSessionManager [] N W) (mkWorld t (rs ++ rest) snt out)))
    = (Ok tt,
       mkSys o (mkEnv (mkSessionManager [] N W)
                  (mkWorld (t + fold_right (fun r acc => Z.of_N (latency_of r) + acc) 0 rs)
                     rest (snt ++ repeat p (length rs))
                     (out ++ map failure_of rs)))).
Proof.
  intros HN Hall. induction Hall as [|r rs Hr _ IH]; intros t rest snt out.
  - cbn. rewrite Z.add_0_r, !app_nil_r. reflexivity.
  - cbn [length updates app]. unfold bind.
    rewrite (failed_update_never_waits o N W t p r (rs ++ rest) snt out HN Hr).
    rewrite IH. cbn [fold_right repeat map].
    rewrite <- !List.app_assoc. cbn [app].
    rewrite Z.add_assoc. reflexivity.
Qed.

(** C6. Requests that fail are not counted.  Under a limit of one request
    per thirty seconds, any number of forced updates that the server
    answers with status 500 are all dispatched at the same second: no call
    sleeps and the history stays empty.  The same four updates answered
    with status 200 take ninety seconds. *)
Theorem failed_requests_pass_the_limit :
  SessionManager.init (1, 30) = Ok (mkSessionManager [] 1 30) /\
  (forall (k : nat) (o : ScraperMixin) (p : Params),
      let s' :=
        snd (updates p k
               (mkSys o (mkEnv (mkSessionManager [] 1 30)
                           (mkWorld 1000 (repeat (Reply 0 500 Fixtures.blank_page) k)
                              [] [])))) in
      dispatched s' = repeat p k /\
      clock s' = 1000 /\
      request_history (manager (env s')) = []) /\
  (let s' :=
     snd (updates Fixtures.params_a 4
            (mkSys (ScraperMixin.init 60)
               (mkEnv (mkSessionManager [] 1 30)
                  (mkWorld 1000 (repeat (Reply 0 200 Fixtures.blank_page) 4)
                     [] [])))) in
   length (dispatched s') = 4%nat /\
   clock s' = 1090 /\
   request_history (manager (env s')) = [1090]).
Proof.
  split; [reflexivity|]. split.
  - intros k o p.
    assert (Hzero : fold_right (fun r acc => Z.of_N (latency_of r) + acc) 0
                      (repeat (Reply 0 500 Fixtures.blank_page) k) = 0).
    { induction k as [|k IH]; [reflexivity|]. cbn [repeat fold_right latency_of].
      rewrite IH. reflexivity. }
    assert (HN : 1 <= 1) by lia.
    assert (Hall : Forall (fun r => transport_failure r = true)
                     (repeat (Reply 0 500 Fixtures.blank_page) k)).
    { apply List.Forall_forall. intros r Hr.
      apply repeat_spec in Hr. subst r. reflexivity. }
    pose proof (failed_updates_never_wait o 1 30 p _ HN Hall 1000 [] [] [])
      as Hrun.
    rewrite List.repeat_length, app_nil_r in Hrun.
    cbv zeta. rewrite Hrun. unfold dispatched, clock. cbn [snd env world sent now manager request_history].
    split; [reflexivity|]. split; [|reflexivity].
    rewrite Hzero. lia.
  - vm_compute. repeat split; reflexivity.
Qed.

(** * Further properties *)

(** ** session_manager.py *)

Lemma filter_none_in_window (b : Z) (l : list Z) :
  Forall (fun t => t <= b) l -> List.filter (fun t => b <? t) l = [].
Proof.
  induction 1 as [|x l Hx _ IH]; [reflexivity|].
  cbn. replace (b <? x) with false by (symmetry; apply Z.ltb_ge; lia). exact IH.
Qed.

(** With a positive limit the check returns, and the history it leaves
    holds nothing the history did not hold before. *)
Lemma check_returns_pruned (h : list Z) (N W : Z) (w : World) :
  1 <= N ->
  exists h' dt,
    0 <= dt /\
    incl h' h /\
    SessionManager.check_request_rate_limit (mkEnv (mkSessionManager h N W) w)
    = (Ok tt,
       mkEnv (mkSessionManager h' N W)
             (mkWorld (now w + dt) (network w) (sent w) (stdout w))).
Proof.
  intros HN. rewrite check_unfold.
  destruct (N <=? Z.of_nat (length (List.filter (fun t => now w - W <? t) h)))
    eqn:Hfull.
  - destruct (List.filter (fun t => now w - W <? t) h) as [|oldest more] eqn:Hv.
    + cbn in Hfull. apply Z.leb_le in Hfull. lia.
    + pose proof (valid_head_in_window h W w oldest more Hv) as Hlt.
      cbn zeta.
      destruct (oldest + W - now w <? 0) eqn:Hneg; [apply Z.ltb_lt in Hneg; lia|].
      eexists _, (oldest + W - now w). split; [lia|]. split; [|reflexivity].
      intros t Ht. apply filter_In in Ht. tauto.
  - exists h, 0. split; [lia|]. split; [apply incl_refl|].
    rewrite Z.add_0_r. destruct w; reflexivity.
Qed.

(** X1. With a positive limit [check_request_rate_limit] never raises.
    It returns with the clock where it was or later, the limit, the
    window, the network, the log of requests and the console as they
    were, and a history that holds no time stamp it did not hold
    before. *)
Theorem check_rate_limit_returns :
  forall (h : list Z) (N W : Z) (w : World),
    1 <= N ->
    exists h' t',
      SessionManager.check_request_rate_limit (mkEnv (mkSessionManager h N W) w)
      = (Ok tt,
         mkEnv (mkSessionManager h' N W)
               (mkWorld t' (network w) (sent w) (stdout w))) /\
      now w <= t' /\
      incl h' h.
Proof.
  intros h N W w HN.
  destruct (check_returns_pruned h N W w HN) as (h' & dt & Hdt & Hincl & Hchk).
  exists h', (now w + dt). split; [exact Hchk|]. split; [lia | exact Hincl].
Qed.

Lemma check_rate_limit_returns_witness :
  1 <= 2 /\
  exists h' t',
    SessionManager.check_request_rate_limit
      (mkEnv (mkSessionManager [990; 995] 2 30) (mkWorld 1000 [] [] []))
    = (Ok tt, mkEnv (mkSessionManager h' 2 30) (mkWorld t' [] [] [])) /\
    1000 <= t' /\ incl h' [990; 995].
Proof.
  assert (H : 1 <= 2) by lia.
  exact (conj H (check_rate_limit_returns [990; 995] 2 30 (mkWorld 1000 [] [] []) H)).
Defined.

Lemma check_empty_window_raises (h : list Z) (N W : Z) (w : World) :
  N <= 0 ->
  Forall (fun t => t <= now w - W) h ->
  SessionManager.check_request_rate_limit (mkEnv (mkSessionManager h N W) w)
  = (Raise IndexError, mkEnv (mkSessionManager h N W) w).
Proof.
  intros HN Hout. rewrite check_unfold, (filter_none_in_window _ _ Hout).
  cbn [length].
  destruct (Z.leb_spec N (Z.of_nat 0)) as [_|Hgt]; [reflexivity | cbn in Hgt; lia].
Qed.

(** X2. With a limit of zero or less, a check made while no recorded
    request lies inside the window raises [IndexError] and changes
    nothing; while one does, it sleeps until the oldest of them leaves the
    window and returns. *)
Theorem check_rate_limit_nonpositive_limit :
  forall (h : list Z) (N W : Z) (w : World),
    N <= 0 ->
    let e := mkEnv (mkSessionManager h N W) w in
    (Forall (fun t => t <= now w - W) h ->
     SessionManager.check_request_rate_limit e = (Raise IndexError, e)) /\
    (forall oldest more,
        List.filter (fun t => now w - W <? t) h = oldest :: more ->
        exists h',
          SessionManager.check_request_rate_limit e
          = (Ok tt,
             mkEnv (mkSessionManager h' N W)
                   (mkWorld (oldest + W) (network w) (sent w) (stdout w)))).
Proof.
  intros h N W w HN e. unfold e. split.
  - exact (check_empty_window_raises h N W w HN).
  - intros oldest more Hv. rewrite check_unfold, Hv.
    pose proof (valid_head_in_window h W w oldest more Hv) as Hlt.
    replace (N <=? Z.of_nat (length (oldest :: more))) with true
      by (symmetry; apply Z.leb_le; cbn [length]; lia).
    cbn zeta.
    destruct (oldest + W - now w <? 0) eqn:Hneg; [apply Z.ltb_lt in Hneg; lia|].
    eexists. do 3 f_equal. lia.
Qed.

Lemma check_rate_limit_nonpositive_limit_witness :
  0 <= 0 /\
  Forall (fun t => t <= 1000 - 30) [960; 970] /\
  List.filter (fun t => 1000 - 30 <? t) [960; 995] = [995] /\
  SessionManager.check_request_rate_limit
    (mkEnv (mkSessionManager [960; 970] 0 30) (mkWorld 1000 [] [] []))
  = (Raise IndexError,
     mkEnv (mkSessionManager [960; 970] 0 30) (mkWorld 1000 [] [] [])) /\
  exists h',
    SessionManager.check_request_rate_limit
      (mkEnv (mkSessionManager [960; 995] 0 30) (mkWorld 1000 [] [] []))
    = (Ok tt, mkEnv (mkSessionManager h' 0 30) (mkWorld (995 + 30) [] [] [])).
Proof.
  assert (H0 : 0 <= 0) by lia.
  assert (Hout : Forall (fun t => t <= 1000 - 30) [960; 970]).
  { repeat constructor; cbn; lia. }
  assert (Hin : List.filter (fun t => 1000 - 30 <? t) [960; 995] = [995])
    by reflexivity.
  destruct (check_rate_limit_nonpositive_limit [960; 970] 0 30
              (mkWorld 1000 [] [] []) H0) as [Hraise _].
  destruct (check_rate_limit_nonpositive_limit [960; 995] 0 30
              (mkWorld 1000 [] [] []) H0) as [_ Hsleep].
  exact (conj H0 (conj Hout (conj Hin (conj (Hraise Hout) (Hsleep 995 [] Hin))))).
Defined.

Lemma acquires_light_load (N W : Z) (gaps : list (BinNums.N * BinNums.N)) :
  1 <= N ->
  Forall (fun gap => W <= Z.of_N (fst gap)) gaps ->
  forall (h : list Z) (w : World),
    Forall (fun t => t <= now w) h ->
    exists ts,
      acquires gaps (mkEnv (mkSessionManager h N W) w)
      = (Ok ts,
         mkEnv (mkSessionManager (h ++ ts) N W)
               (mkWorld (now w + total_pause gaps) (network w) (sent w) (stdout w))) /\
      length ts = length gaps.
Proof.
  intros HN. induction 1 as [|[before during] gaps Hgap _ IH]; intros h w Hpast.
  - exists []. cbn. rewrite app_nil_r, Z.add_0_r. destruct w. split; reflexivity.
  - cbn [fst] in Hgap. cbn [acquires]. unfold bind at 1.
    rewrite acquire_unfold, check_unfold. cbn [fst snd now network sent stdout].
    rewrite filter_none_in_window.
    2:{ eapply Forall_impl; [exact Hpast|]. cbn. intros t Ht. lia. }
    replace (N <=? Z.of_nat (length [])) with false
      by (symmetry; apply Z.leb_gt; cbn; lia).
    cbn [manager world request_history max_requests_per_second max_per now
         network sent stdout].
    set (t := now w + Z.of_N before + Z.of_N during).
    destruct (IH (h ++ [t]) (mkWorld t (network w) (sent w) (stdout w)))
      as (ts & Hrun & Hlen).
    { apply Forall_app. split.
      - eapply Forall_impl; [exact Hpast|]. cbn. intros x Hx. lia.
      - constructor; [cbn; lia | constructor]. }
    cbn [now network sent stdout] in Hrun.
    unfold bind at 1. rewrite Hrun. exists (t :: ts). split.
    + cbn [ret total_pause fst snd]. rewrite <- app_assoc. cbn [app].
      do 3 f_equal. unfold t. lia.
    + cbn. rewrite Hlen. reflexivity.
Qed.

(** X3. Under light load the history is never pruned.  When every request
    arrives at least a window length after the previous one returned, a
    manager with a positive limit never sleeps and its history ends up
    holding the time stamp of every request ever made. *)
Theorem history_kept_under_light_load :
  forall (N W : Z) (gaps : list (BinNums.N * BinNums.N)) (w : World),
    1 <= N ->
    Forall (fun gap => W <= Z.of_N (fst gap)) gaps ->
    exists ts e',
      acquires gaps (mkEnv (mkSessionManager [] N W) w) = (Ok ts, e') /\
      request_history (manager e') = ts /\
      length ts = length gaps /\
      now (world e') = now w + total_pause gaps.
Proof.
  intros N W gaps w HN Hgaps.
  destruct (acquires_light_load N W gaps HN Hgaps [] w (List.Forall_nil _))
    as (ts & Hrun & Hlen).
  eexists ts, _. split; [exact Hrun|]. cbn. auto.
Qed.

Lemma history_kept_under_light_load_witness :
  1 <= 2 /\
  Forall (fun gap : BinNums.N * BinNums.N => 30 <= Z.of_N (fst gap))
    [(30, 1); (45, 2); (30, 1)]%N /\
  exists ts e',
    acquires [(30, 1); (45, 2); (30, 1)]%N
      (mkEnv (mkSessionManager [] 2 30) (mkWorld 1000 [] [] [])) = (Ok ts, e') /\
    request_history (manager e') = ts /\
    length ts = 3%nat /\
    now (world e') = 1000 + total_pause [(30, 1); (45, 2); (30, 1)]%N.
Proof.
  assert (H : 1 <= 2) by lia.
  assert (Hg : Forall (fun gap : BinNums.N * BinNums.N => 30 <= Z.of_N (fst gap))
                 [(30, 1); (45, 2); (30, 1)]%N).
  { repeat constructor; cbn; lia. }
  exact (conj H (conj Hg
    (history_kept_under_light_load 2 30 _ (mkWorld 1000 [] [] []) H Hg))).
Defined.

(** X4. After any series of requests through a manager with a positive
    limit, the history is sorted, holds no time stamp of the future, is
    the tail of the series of time stamps recorded, and has at most as many
    entries inside the window that ends now as the limit allows. *)
Theorem history_is_sorted_tail :
  forall (N W : Z) (gaps : list (BinNums.N * BinNums.N)) (w : World),
    1 <= N ->
    exists ts e',
      acquires gaps (mkEnv (mkSessionManager [] N W) w) = (Ok ts, e') /\
      StronglySorted Z.le (request_history (manager e')) /\
      Forall (fun t => t <= now (world e')) (request_history (manager e')) /\
      (exists pruned, ts = pruned ++ request_history (manager e')) /\
      Z.of_nat (length (List.filter (fun t => now (world e') - W <? t)
                          (request_history (manager e')))) <= N.
Proof.
  intros N W gaps w HN.
  destruct (acquires_inv N W gaps HN [] _ (window_inv_init N W w))
    as (ts & e' & Hrun & _ & Hinv).
  destruct Hinv as [_ _ Hsorted Hpast (pruned & Hlog & Hpruned) Hspaced].
  cbn [app] in *.
  assert (Hh : StronglySorted Z.le (request_history (manager e'))).
  { apply (sorted_app_r pruned). rewrite <- Hlog. exact Hsorted. }
  assert (Hhp : Forall (fun t => t <= now (world e')) (request_history (manager e'))).
  { rewrite Hlog in Hpast. apply Forall_app in Hpast. tauto. }
  exists ts, e'. split; [exact Hrun|]. split; [exact Hh|]. split; [exact Hhp|].
  split; [exists pruned; exact Hlog|].
  destruct (filter_after_sorted (now (world e') - W) _ Hh) as (pre & Hsplit & Hpre).
  set (valid := List.filter (fun t => now (world e') - W <? t)
                  (request_history (manager e'))) in *.
  assert (Hmost : (length valid <= Z.to_nat N)%nat).
  { apply (window_holds_at_most _ W (now (world e')) (pruned ++ pre)).
    - rewrite <- app_assoc, <- Hsplit, <- Hlog. exact Hspaced.
    - eapply Forall_impl; [apply filter_Forall_true|]. cbn. intros t Ht. lia.
    - rewrite Hsplit in Hhp. apply Forall_app in Hhp. tauto. }
  lia.
Qed.

Lemma history_is_sorted_tail_witness :
  1 <= 2 /\
  exists ts e',
    acquires [(0, 1); (0, 1); (0, 1)]%N
      (mkEnv (mkSessionManager [] 2 30) (mkWorld 1000 [] [] [])) = (Ok ts, e') /\
    StronglySorted Z.le (request_history (manager e')) /\
    Forall (fun t => t <= now (world e')) (request_history (manager e')) /\
    (exists pruned, ts = pruned ++ request_history (manager e')) /\
    Z.of_nat (length (List.filter (fun t => now (world e') - 30 <? t)
                        (request_history (manager e')))) <= 2.
Proof.
  assert (H : 1 <= 2) by lia.
  exact (conj H (history_is_sorted_tail 2 30 _ (mkWorld 1000 [] [] []) H)).
Defined.

(** ** mixins.py *)

(** X5. A request that fails (connection failure or 4xx/5xx status) is
    dispatched and reported on the console, but it is not recorded: the
    session manager is left as the rate-limit check left it, so the
    request does not count against the limit, and the facade object keeps
    its page, its time stamp and its recorded parameters. *)
Theorem failed_request_not_recorded :
  forall (o : ScraperMixin) (e : Env) (p : Params) (r : response)
         (rest : list response),
    1 <= max_requests_per_second (manager e) ->
    network (world e) = r :: rest ->
    transport_failure r = true ->
    let e1 := snd (SessionManager.check_request_rate_limit e) in
    exists s',
      ScraperMixin._update_page_content p (mkSys o e) = (Ok tt, s') /\
      self s' = o /\
      manager (env s') = manager e1 /\
      network (world (env s')) = rest /\
      dispatched s' = sent (world e) ++ [p] /\
      stdout (world (env s')) = stdout (world e) ++ [failure_of r].
Proof.
  intros o [[h N W] w] p r rest HN Hnet Hbad. cbn in HN, Hnet.
  destruct (check_returns h N W w HN) as (h' & dt & Hdt & Hchk).
  cbv zeta in Hchk |- *. rewrite Hchk. cbn [snd manager].
  unfold ScraperMixin._update_page_content, try_except, bind, on_env; cbn.
  cbn in Hchk. rewrite Hchk; cbn. rewrite Hnet; cbn.
  destruct r as [lat | lat code doc]; cbn.
  - eexists. split; [reflexivity|]. repeat split.
  - cbn in Hbad. unfold raise_for_status; cbn. rewrite Hbad; cbn.
    eexists. split; [reflexivity|]. repeat split.
Qed.

Lemma failed_request_not_recorded_witness :
  let e := Fixtures.env0 [Reply 1 503 Fixtures.blank_page] in
  1 <= max_requests_per_second (manager e) /\
  transport_failure (Reply 1 503 Fixtures.blank_page) = true /\
  exists s',
    ScraperMixin._update_page_content Fixtures.params_a
      (mkSys (ScraperMixin.init 60) e) = (Ok tt, s') /\
    self s' = ScraperMixin.init 60 /\
    manager (env s') = manager (snd (SessionManager.check_request_rate_limit e)) /\
    network (world (env s')) = [] /\
    dispatched s' = sent (world e) ++ [Fixtures.params_a] /\
    stdout (world (env s')) = stdout (world e) ++ [HTTPError].
Proof.
  intros e.
  assert (H : 1 <= max_requests_per_second (manager e)) by (cbn; lia).
  assert (Hbad : transport_failure (Reply 1 503 Fixtures.blank_page) = true)
    by reflexivity.
  exact (conj H (conj Hbad
    (failed_request_not_recorded (ScraperMixin.init 60) e Fixtures.params_a
       _ [] H eq_refl Hbad))).
Defined.

(** X6. One call of [_get_page_content] under a positive limit: when the
    cache test asks for an update exactly one request is dispatched,
    whatever the server answers; otherwise the held page is returned and
    nothing but the recorded parameters changes (no request, no sleep, no
    entry in the history). *)
Theorem fetch_dispatches_when_stale :
  forall (s : Sys) (p : Params),
    1 <= limit s ->
    (ScraperMixin.needs_update (self s) p (clock s) = true ->
     exists r s',
       ScraperMixin._get_page_content p s = (Ok r, s') /\
       dispatched s' = dispatched s ++ [p] /\
       last_request (self s') = Some p) /\
    (ScraperMixin.needs_update (self s) p (clock s) = false ->
     ScraperMixin._get_page_content p s
     = (Ok (page_content (self s)),
        mkSys (record_request p (self s)) (env s))).
Proof.
  intros [o [[h N W] w]] p HN. unfold limit in HN. cbn in HN. split.
  - intros Hstale. rewrite get_page_content_unfold, Hstale.
    destruct (update_dispatches o h N W w p HN) as (s1 & Hrun & Hsent & _ & _).
    rewrite Hrun. eexists _, _. split; [reflexivity|].
    split; [exact Hsent | reflexivity].
  - intros Hfresh. rewrite get_page_content_unfold, Hfresh. reflexivity.
Qed.

Lemma fetch_dispatches_when_stale_witness :
  let s := Fixtures.fresh [NoConnection 1] in
  let s1 := snd (ScraperMixin._get_page_content Fixtures.params_a
                   (Fixtures.fresh [Reply 2 200 Fixtures.blank_page])) in
  1 <= limit s /\ 1 <= limit s1 /\
  ScraperMixin.needs_update (self s) Fixtures.params_a (clock s) = true /\
  ScraperMixin.needs_update (self s1) Fixtures.params_a (clock s1) = false /\
  (exists r s',
      ScraperMixin._get_page_content Fixtures.params_a s = (Ok r, s') /\
      dispatched s' = dispatched s ++ [Fixtures.params_a] /\
      last_request (self s') = Some Fixtures.params_a) /\
  ScraperMixin._get_page_content Fixtures.params_a s1
  = (Ok (page_content (self s1)),
     mkSys (record_request Fixtures.params_a (self s1)) (env s1)).
Proof.
  intros s s1.
  assert (H : 1 <= limit s) by (vm_compute; discriminate).
  assert (H1 : 1 <= limit s1) by (vm_compute; discriminate).
  assert (Hs : ScraperMixin.needs_update (self s) Fixtures.params_a (clock s) = true)
    by reflexivity.
  assert (Hf : ScraperMixin.needs_update (self s1) Fixtures.params_a (clock s1) = false)
    by (vm_compute; reflexivity).
  destruct (fetch_dispatches_when_stale s Fixtures.params_a H) as [Hmiss _].
  destruct (fetch_dispatches_when_stale s1 Fixtures.params_a H1) as [_ Hhit].
  exact (conj H (conj H1 (conj Hs (conj Hf (conj (Hmiss Hs) (Hhit Hf)))))).
Defined.

(** X7. An exception that is not a [RequestException] leaves
    [_get_page_content]: with a limit of zero or less and no recorded
    request inside the window, a call that needs an update raises
    [IndexError]; nothing is dispatched or printed and the facade object,
    its recorded parameters included, is as before. *)
Theorem fetch_raises_with_nonpositive_limit :
  forall (o : ScraperMixin) (h : list Z) (N W : Z) (w : World) (p : Params),
    N <= 0 ->
    Forall (fun t => t <= now w - W) h ->
    ScraperMixin.needs_update o p (now w) = true ->
    let s := mkSys o (mkEnv (mkSessionManager h N W) w) in
    ScraperMixin._get_page_content p s = (Raise IndexError, s).
Proof.
  intros o h N W w p HN Hout Hstale s.
  pose proof (check_empty_window_raises h N W w HN Hout) as Hchk.
  unfold s. rewrite get_page_content_unfold. unfold clock. cbn [self env world].
  rewrite Hstale.
  unfold ScraperMixin._update_page_content, try_except, bind, on_env; cbn.
  cbn in Hchk. rewrite Hchk. reflexivity.
Qed.

Lemma fetch_raises_with_nonpositive_limit_witness :
  let w := mkWorld 1000 [Reply 2 200 Fixtures.blank_page] [] [] in
  let s := mkSys (ScraperMixin.init 60) (mkEnv (mkSessionManager [] 0 30) w) in
  0 <= 0 /\
  Forall (fun t => t <= now w - 30) [] /\
  ScraperMixin.needs_update (ScraperMixin.init 60) Fixtures.params_a (now w) = true /\
  ScraperMixin._get_page_content Fixtures.params_a s = (Raise IndexError, s).
Proof.
  intros w s.
  assert (H0 : 0 <= 0) by lia.
  assert (Hout : Forall (fun t => t <= now w - 30) []) by constructor.
  assert (Hs : ScraperMixin.needs_update (ScraperMixin.init 60) Fixtures.params_a
                 (now w) = true) by reflexivity.
  exact (conj H0 (conj Hout (conj Hs
    (fetch_raises_with_nonpositive_limit (ScraperMixin.init 60) [] 0 30 w
       Fixtures.params_a H0 Hout Hs)))).
Defined.

(** ** athlete.py, meet.py: the listing methods *)

(** With a positive limit a fetch returns the page the facade object
    holds afterwards. *)
Lemma get_page_content_result (p : Params) (s : Sys) :
  1 <= limit s ->
  exists s',
    ScraperMixin._get_page_content p s = (Ok (page_content (self s')), s') /\
    limit s' = limit s.
Proof.
  intros HN. rewrite get_page_content_unfold.
  destruct (ScraperMixin.needs_update (self s) p (clock s)).
  - destruct s as [o [[h N W] w]]. unfold limit in HN. cbn in HN.
    destruct (update_dispatches o h N W w p HN) as (s1 & Hrun & _ & HN1 & _).
    rewrite Hrun. exists (mkSys (record_request p (self s1)) (env s1)).
    split; [reflexivity | exact HN1].
  - exists (mkSys (record_request p (self s)) (env s)). split; reflexivity.
Qed.

Lemma search_extract_rows (soup : option Bs4.soup) :
  Athlete.search_extract soup =
  Ok match soup with
     | None => []
     | Some doc =>
         match Bs4.soup_find "table" ["athleteSearch"] doc with
         | None => []
         | Some table =>
             omap search_row_record
               (Bs4.find_all "tr" ["athleteSearch0"; "athleteSearch1"] table)
         end
     end.
Proof.
  destruct soup as [doc|]; [|reflexivity]. unfold Athlete.search_extract.
  destruct (Bs4.soup_find "table" ["athleteSearch"] doc); [|reflexivity].
  apply search_rows_spec.
Qed.

(** X9. The extraction of [search_athletes] never raises, whatever the
    page: without a page or without the result table it gives the empty
    list, otherwise the records of the rows that can be read, in page
    order. *)
Theorem search_extract_total :
  forall (soup : option Bs4.soup),
    Athlete.search_extract soup =
    Ok match soup with
       | None => []
       | Some doc =>
           match Bs4.soup_find "table" ["athleteSearch"] doc with
           | None => []
           | Some table =>
               omap search_row_record
                 (Bs4.find_all "tr" ["athleteSearch0"; "athleteSearch1"] table)
           end
       end.
Proof. exact search_extract_rows. Qed.

(** X10. Every call of [search_athletes] under a positive limit returns a
    list and dispatches exactly one request, with the parameters of the
    search: the facade object it fetches through is new each time, so
    nothing is ever served from a cache. *)
Theorem search_athletes_one_request :
  forall (name : string) (club_id gender : Z) (e : Env),
    1 <= max_requests_per_second (manager e) ->
    exists records e',
      Athlete.search_athletes name club_id gender e = (Ok records, e') /\
      sent (world e') = sent (world e) ++ [Athlete.search_params name club_id gender].
Proof.
  intros name club_id gender [[h N W] w] HN. cbn in HN.
  unfold Athlete.search_athletes, with_instance, try_except.
  unfold bind at 1.
  rewrite get_page_content_unfold.
  change (ScraperMixin.needs_update (self _) _ _) with true. cbv iota.
  destruct (update_dispatches (ScraperMixin.init 60) h N W w
              (Athlete.search_params name club_id gender) HN)
    as (s1 & Hrun & Hsent & _ & _).
  rewrite Hrun. cbn [env]. unfold lift.
  rewrite search_extract_rows. eexists _, _. split; [reflexivity | exact Hsent].
Qed.

Lemma search_athletes_one_request_witness :
  let e := Fixtures.env0 [NoConnection 1] in
  1 <= max_requests_per_second (manager e) /\
  exists records e',
    Athlete.search_athletes "Druwel" (-1) (-1) e = (Ok records, e') /\
    sent (world e') = sent (world e) ++ [Athlete.search_params "Druwel" (-1) (-1)].
Proof.
  intros e.
  assert (H : 1 <= max_requests_per_second (manager e)) by (cbn; lia).
  exact (conj H (search_athletes_one_request "Druwel" (-1) (-1) e H)).
Defined.

(** The loop without a [try], for any accumulator. *)
Lemma for_rows_ok body rows :
  forall data out,
    for_rows body rows data = Ok out ->
    exists new, out = data ++ new /\ Forall2 (fun row r => body row = Ok r) rows new.
Proof.
  induction rows as [|row rows IH]; intros data out; cbn.
  - intros [= <-]. exists []. rewrite app_nil_r. split; [reflexivity | constructor].
  - destruct (body row) as [r|e] eqn:Hrow; cbn; [|discriminate].
    intros Hrest. destruct (IH _ _ Hrest) as (new & -> & Hall).
    exists (r :: new). rewrite <- app_assoc. split; [reflexivity|].
    constructor; assumption.
Qed.

Lemma for_rows_raise body pre bad post e :
  Forall (fun row => exists r, body row = Ok r) pre ->
  body bad = Raise e ->
  forall data, for_rows body (pre ++ bad :: post) data = Raise e.
Proof.
  intros Hpre Hbad. induction Hpre as [|row pre [r Hrow] _ IH]; intros data; cbn.
  - rewrite Hbad. reflexivity.
  - rewrite Hrow. cbn. apply IH.
Qed.

(** The [try] block every method starts with, for any selection [f] made
    on the page: under a positive limit it yields the selection made on
    the page the facade object holds afterwards, and [None] (the handler
    returned) when it holds none. *)
Lemma try_block_result {A} (p : Params) (f : Bs4.soup -> A) (s : Sys) :
  1 <= limit s ->
  exists s',
    ScraperMixin._get_page_content p s = (Ok (page_content (self s')), s') /\
    try_except
      (soup <- ScraperMixin._get_page_content p ;;
       doc <- lift (attr_of soup) ;;
       ret (Some (f doc)))%py
      is_AttributeError (fun _ => ret None) s
    = (Ok (option_map f (page_content (self s'))), s').
Proof.
  intros HN. destruct (get_page_content_result p s HN) as (s' & Hrun & _).
  exists s'. split; [exact Hrun|].
  unfold try_except, bind. rewrite Hrun.
  destruct (page_content (self s')); reflexivity.
Qed.

(** A facade object that was just constructed holds no page after a fetch
    that fails. *)
Lemma first_fetch_fails (d : Z) (e : Env) (p : Params) r rest :
  1 <= max_requests_per_second (manager e) ->
  network (world e) = r :: rest ->
  transport_failure r = true ->
  exists s', ScraperMixin._get_page_content p (mkSys (ScraperMixin.init d) e)
             = (Ok None, s').
Proof.
  intros HN Hnet Hbad. destruct e as [[h N W] w]. cbn in HN, Hnet.
  destruct (fetch_on_failure (ScraperMixin.init d) h N W w p HN r rest
              eq_refl Hnet Hbad) as (h' & t & out & _ & Hrun).
  eexists. exact Hrun.
Qed.

Lemma try_block_no_page {A} (d : Z) (e : Env) (p : Params) (f : Bs4.soup -> A)
    r rest :
  1 <= max_requests_per_second (manager e) ->
  network (world e) = r :: rest ->
  transport_failure r = true ->
  exists s',
    try_except
      (soup <- ScraperMixin._get_page_content p ;;
       doc <- lift (attr_of soup) ;;
       ret (Some (f doc)))%py
      is_AttributeError (fun _ => ret None) (mkSys (ScraperMixin.init d) e)
    = (Ok None, s').
Proof.
  intros HN Hnet Hbad.
  destruct (first_fetch_fails d e p r rest HN Hnet Hbad) as (s1 & Hrun).
  exists s1. unfold try_except, bind. rewrite Hrun. reflexivity.
Qed.

(** Closes a goal about a method run on a new facade object whose fetch
    fails. *)
Ltac no_page d e r rest HN Hnet Hbad :=
  match goal with
  | |- context [try_except
                  (bind (ScraperMixin._get_page_content ?p)
                     (fun soup => bind _ (fun doc => ret (Some (@?f doc)))))
                  _ _ _] =>
      let s' := fresh "s" in
      let H := fresh "H" in
      destruct (try_block_no_page d e p f r rest HN Hnet Hbad) as (s' & H);
      rewrite H; reflexivity
  end.

(** X14. A facade object whose first fetch fails (connection failure or
    4xx/5xx status, under a positive limit) holds no page, and every
    listing method then returns the empty list; [Result.get_time] returns
    [None]. *)
Theorem listings_empty_when_first_fetch_fails :
  forall (d : Z) (e : Env) (r : response) (rest : list response)
         (id id' id'' : scalar) (gender : Z),
    1 <= max_requests_per_second (manager e) ->
    network (world e) = r :: rest ->
    transport_failure r = true ->
    -3 <= gender <= 2 ->
    let s := mkSys (ScraperMixin.init d) e in
    fst (Athlete.list_personal_bests id id' s) = Ok [] /\
    fst (Athlete.list_meets id s) = Ok [] /\
    fst (Meet.list_clubs id s) = Ok [] /\
    fst (Meet.list_races id id' id'' s) = Ok [] /\
    fst (Club.list_athletes id gender s) = Ok [] /\
    fst (Meets.list_time_periods s) = Ok [] /\
    fst (Meets.list_nations s) = Ok [] /\
    fst (Meets.list_meets id id' s) = Ok [] /\
    fst (Result.get_time id s) = Ok None.
Proof.
  intros d e r rest id id' id'' gender HN Hnet Hbad Hg s.
  repeat split.
  - unfold Athlete.list_personal_bests, fetch_table, s. unfold bind at 1.
    no_page d e r rest HN Hnet Hbad.
  - unfold Athlete.list_meets, fetch_table, s. unfold bind at 1.
    no_page d e r rest HN Hnet Hbad.
  - unfold Meet.list_clubs, fetch_table, s. unfold bind at 1.
    no_page d e r rest HN Hnet Hbad.
  - unfold Meet.list_races, fetch_tables, s. unfold bind at 1.
    no_page d e r rest HN Hnet Hbad.
  - unfold Club.list_athletes, fetch_tables, s. unfold bind at 1.
    assert (Hidx : exists g, list_index ["CURRENT"; "ALL_MEN"; "All_WOMEN"]%string gender
                             = Ok g).
    { assert (Hcases : gender = -3 \/ gender = -2 \/ gender = -1 \/ gender = 0
                       \/ gender = 1 \/ gender = 2) by lia.
      destruct Hcases as [->|[->|[->|[->|[->| ->]]]]]; eexists; reflexivity. }
    destruct Hidx as (g & Hidx). unfold lift at 1. rewrite Hidx.
    unfold bind at 1.
    no_page d e r rest HN Hnet Hbad.
  - unfold Meets.list_time_periods, Meets.fetch_select, s. unfold bind at 1.
    no_page d e r rest HN Hnet Hbad.
  - unfold Meets.list_nations, Meets.fetch_select, s. unfold bind at 1.
    no_page d e r rest HN Hnet Hbad.
  - unfold Meets.list_meets, fetch_tables, s. unfold bind at 1.
    no_page d e r rest HN Hnet Hbad.
  - unfold Result.get_time, s.
    destruct (first_fetch_fails d e
                (<["page" := PStr "resultDetail"]> (<["id" := id]> ∅))
                r rest HN Hnet Hbad) as (s1 & Hrun).
    unfold try_except, bind. rewrite Hrun. reflexivity.
Qed.

Lemma listings_empty_when_first_fetch_fails_witness :
  let e := Fixtures.env0 [NoConnection 1] in
  let s := mkSys (ScraperMixin.init 60) e in
  1 <= max_requests_per_second (manager e) /\
  transport_failure (NoConnection 1) = true /\
  -3 <= 0 <= 2 /\
  fst (Athlete.list_personal_bests (PStr "4292888") (PStr "-1") s) = Ok [] /\
  fst (Athlete.list_meets (PStr "4292888") s) = Ok [] /\
  fst (Meet.list_clubs (PStr "4292888") s) = Ok [] /\
  fst (Meet.list_races (PStr "4292888") (PStr "-1") (PStr "1") s) = Ok [] /\
  fst (Club.list_athletes (PStr "4292888") 0 s) = Ok [] /\
  fst (Meets.list_time_periods s) = Ok [] /\
  fst (Meets.list_nations s) = Ok [] /\
  fst (Meets.list_meets (PStr "4292888") (PStr "-1") s) = Ok [] /\
  fst (Result.get_time (PStr "4292888") s) = Ok None.
Proof.
  intros e s.
  assert (H : 1 <= max_requests_per_second (manager e)) by (cbn; lia).
  assert (Hbad : transport_failure (NoConnection 1) = true) by reflexivity.
  assert (Hg : -3 <= 0 <= 2) by lia.
  exact (conj H (conj Hbad (conj Hg
    (listings_empty_when_first_fetch_fails 60 e (NoConnection 1) []
       (PStr "4292888") (PStr "-1") (PStr "1") 0 H eq_refl Hbad Hg)))).
Defined.

(** The page a new facade object holds after a first fetch that got a
    reply without an error status. *)
Lemma try_block_first_reply {A} (d : Z) (e : Env) (p : Params) (f : Bs4.soup -> A)
    lat code doc rest :
  1 <= max_requests_per_second (manager e) ->
  network (world e) = Reply lat code doc :: rest ->
  transport_failure (Reply lat code doc) = false ->
  exists s',
    try_except
      (soup <- ScraperMixin._get_page_content p ;;
       doc <- lift (attr_of soup) ;;
       ret (Some (f doc)))%py
      is_AttributeError (fun _ => ret None) (mkSys (ScraperMixin.init d) e)
    = (Ok (Some (f doc)), s').
Proof.
  intros HN Hnet Hok. destruct e as [[h N W] w]. cbn in HN, Hnet.
  destruct (fetch_on_reply (ScraperMixin.init d) h N W w p HN lat code doc rest
              eq_refl Hnet Hok) as (h' & dt & out & _ & Hrun).
  eexists. unfold try_except, bind. rewrite Hrun. reflexivity.
Qed.

Ltac first_reply d e lat code doc rest HN Hnet Hok :=
  match goal with
  | |- context [try_except
                  (bind (ScraperMixin._get_page_content ?p)
                     (fun soup => bind _ (fun doc => ret (Some (@?f doc)))))
                  _ _ _] =>
      let s' := fresh "s" in
      let H := fresh "H" in
      destruct (try_block_first_reply d e p f lat code doc rest HN Hnet Hok)
        as (s' & H);
      rewrite H
  end.

(** X15. The methods that collect their tables with [find_all] answer a
    page without such a table with the empty list: there is nothing to
    loop over, and nothing is called on [None]. *)
Theorem table_loops_empty_without_table :
  forall (d : Z) (e : Env) lat code (doc : Bs4.soup) (rest : list response)
         (id id' id'' : scalar) (gender : Z),
    1 <= max_requests_per_second (manager e) ->
    network (world e) = Reply lat code doc :: rest ->
    transport_failure (Reply lat code doc) = false ->
    -3 <= gender <= 2 ->
    let s := mkSys (ScraperMixin.init d) e in
    (Bs4.soup_find_all "table" ["athleteList"] doc = [] ->
     fst (Club.list_athletes id gender s) = Ok []) /\
    (Bs4.soup_find_all "table" ["meetSearch"] doc = [] ->
     fst (Meets.list_meets id id' s) = Ok []) /\
    (Bs4.soup_find_all "table" ["meetResult"] doc = [] ->
     fst (Meet.list_races id id' id'' s) = Ok []).
Proof.
  intros d e lat code doc rest id id' id'' gender HN Hnet Hok Hg s.
  split; [|split]; intros Hnone.
  - unfold Club.list_athletes, fetch_tables, s. unfold bind at 1.
    assert (Hidx : exists g, list_index ["CURRENT"; "ALL_MEN"; "All_WOMEN"]%string gender
                             = Ok g).
    { assert (Hcases : gender = -3 \/ gender = -2 \/ gender = -1 \/ gender = 0
                       \/ gender = 1 \/ gender = 2) by lia.
      destruct Hcases as [->|[->|[->|[->|[->| ->]]]]]; eexists; reflexivity. }
    destruct Hidx as (g & Hidx). unfold lift at 1. rewrite Hidx.
    unfold bind at 1.
    first_reply d e lat code doc rest HN Hnet Hok. rewrite Hnone. reflexivity.
  - unfold Meets.list_meets, fetch_tables, s. unfold bind at 1.
    first_reply d e lat code doc rest HN Hnet Hok. rewrite Hnone. reflexivity.
  - unfold Meet.list_races, fetch_tables, s. unfold bind at 1.
    first_reply d e lat code doc rest HN Hnet Hok. rewrite Hnone. reflexivity.
Qed.

Lemma table_loops_empty_without_table_witness :
  let e := Fixtures.env0 [Reply 2 200 Fixtures.blank_page] in
  let s := mkSys (ScraperMixin.init 60) e in
  1 <= max_requests_per_second (manager e) /\
  transport_failure (Reply 2 200 Fixtures.blank_page) = false /\
  -3 <= 0 <= 2 /\
  Bs4.soup_find_all "table" ["athleteList"] Fixtures.blank_page = [] /\
  Bs4.soup_find_all "table" ["meetSearch"] Fixtures.blank_page = [] /\
  Bs4.soup_find_all "table" ["meetResult"] Fixtures.blank_page = [] /\
  fst (Club.list_athletes (PStr "89") 0 s) = Ok [] /\
  fst (Meets.list_meets PNone (PStr "RECENT") s) = Ok [] /\
  fst (Meet.list_races (PStr "640537") (PStr "1") (PStr "1") s) = Ok [].
Proof.
  intros e s.
  assert (H : 1 <= max_requests_per_second (manager e)) by (cbn; lia).
  assert (Hok : transport_failure (Reply 2 200 Fixtures.blank_page) = false)
    by reflexivity.
  assert (Hg : -3 <= 0 <= 2) by lia.
  assert (H1 : Bs4.soup_find_all "table" ["athleteList"] Fixtures.blank_page = [])
    by reflexivity.
  assert (H2 : Bs4.soup_find_all "table" ["meetSearch"] Fixtures.blank_page = [])
    by reflexivity.
  assert (H3 : Bs4.soup_find_all "table" ["meetResult"] Fixtures.blank_page = [])
    by reflexivity.
  destruct (table_loops_empty_without_table 60 e 2%N 200 Fixtures.blank_page []
              (PStr "89") (PStr "1") (PStr "1") 0 H eq_refl Hok Hg) as (Hc & _ & _).
  destruct (table_loops_empty_without_table 60 e 2%N 200 Fixtures.blank_page []
              PNone (PStr "RECENT") (PStr "1") 0 H eq_refl Hok Hg) as (_ & Hm & _).
  destruct (table_loops_empty_without_table 60 e 2%N 200 Fixtures.blank_page []
              (PStr "640537") (PStr "1") (PStr "1") 0 H eq_refl Hok Hg) as (_ & _ & Hr).
  exact (conj H (conj Hok (conj Hg (conj H1 (conj H2 (conj H3
           (conj (Hc H1) (conj (Hm H2) (Hr H3))))))))).
Defined.

(** What is left of a listing method once its [try] block has found the
    table. *)
Lemma rows_of_outcome (table : Bs4.node) (wanted : list string)
    (body : Bs4.node -> result Record_) :
  all_rows_or_first_exception body (Bs4.find_all "tr" wanted table)
    (rows_of (Some table) wanted body).
Proof.
  unfold rows_of. cbn [attr_of rbind]. split.
  - intros out Hrun. destruct (for_rows_ok _ _ _ _ Hrun) as (new & -> & Hall).
    exact Hall.
  - intros pre bad post e -> Hpre Hbad.
    exact (for_rows_raise _ _ _ _ _ Hpre Hbad []).
Qed.

(** X11. [list_personal_bests], [Athlete.list_meets] and
    [Meet.list_clubs] are all or nothing.  On a new facade object whose
    fetch brings a page with the table, a call that returns gives exactly
    one record per row of the table, in page order; when a row cannot be
    read, the exception of the first such row leaves the method and the
    records of the rows before it are lost. *)
Theorem listings_all_rows_or_first_exception :
  forall (d : Z) (e : Env) lat code (doc : Bs4.soup) (rest : list response)
         (id id' : scalar) (table : Bs4.node),
    1 <= max_requests_per_second (manager e) ->
    network (world e) = Reply lat code doc :: rest ->
    transport_failure (Reply lat code doc) = false ->
    let s := mkSys (ScraperMixin.init d) e in
    (Bs4.soup_find "table" ["athleteBest"] doc = Some table ->
     all_rows_or_first_exception Athlete.personal_best_row
       (Bs4.find_all "tr" ["athleteBest0"; "athleteBest1"] table)
       (fst (Athlete.list_personal_bests id id' s))) /\
    (Bs4.soup_find "table" ["athleteMeet"] doc = Some table ->
     all_rows_or_first_exception Athlete.meet_row
       (Bs4.find_all "tr" ["athleteMeet0"; "athleteMeet1"] table)
       (fst (Athlete.list_meets id s))) /\
    (Bs4.soup_find "table" ["meetSearch"] doc = Some table ->
     all_rows_or_first_exception Meet.club_row
       (Bs4.find_all "tr" ["meetResult0"; "meetResult1"] table)
       (fst (Meet.list_clubs id s))).
Proof.
  intros d e lat code doc rest id id' table HN Hnet Hok s.
  split; [|split]; intros Htable.
  - unfold Athlete.list_personal_bests, fetch_table, s. unfold bind at 1.
    first_reply d e lat code doc rest HN Hnet Hok. rewrite Htable.
    apply rows_of_outcome.
  - unfold Athlete.list_meets, fetch_table, s. unfold bind at 1.
    first_reply d e lat code doc rest HN Hnet Hok. rewrite Htable.
    apply rows_of_outcome.
  - unfold Meet.list_clubs, fetch_table, s. unfold bind at 1.
    first_reply d e lat code doc rest HN Hnet Hok. rewrite Htable.
    apply rows_of_outcome.
Qed.

(** A page of personal bests with one complete row, and the same page
    with a row in front of it that has no event cell. *)
Lemma listings_all_rows_or_first_exception_witness :
  let good := Fixtures.bests_page [Fixtures.best_row] in
  let good_table := Fixtures.el "table" ["athleteBest"] [Fixtures.best_row] in
  let doc := Fixtures.bests_page [Fixtures.best_row_broken; Fixtures.best_row] in
  let table := Fixtures.el "table" ["athleteBest"]
                 [Fixtures.best_row_broken; Fixtures.best_row] in
  let e := Fixtures.env0 [Reply 2 200 doc] in
  let id := PStr "4292888" in
  let season := PStr "-1" in
  1 <= max_requests_per_second (manager e) /\
  transport_failure (Reply 2 200 doc) = false /\
  Bs4.soup_find "table" ["athleteBest"] good = Some good_table /\
  fst (Athlete.list_personal_bests id season
         (Fixtures.fresh [Reply 2 200 good])) = Ok [Fixtures.best_record] /\
  Forall2 (fun row r => Athlete.personal_best_row row = Ok r)
    (Bs4.find_all "tr" ["athleteBest0"; "athleteBest1"] good_table)
    [Fixtures.best_record] /\
  Bs4.soup_find "table" ["athleteBest"] doc = Some table /\
  Bs4.find_all "tr" ["athleteBest0"; "athleteBest1"] table
  = [] ++ Fixtures.best_row_broken :: [Fixtures.best_row] /\
  Athlete.personal_best_row Fixtures.best_row_broken = Raise AttributeError /\
  fst (Athlete.list_personal_bests id season (mkSys (ScraperMixin.init 60) e))
  = Raise AttributeError.
Proof.
  intros good good_table doc table e id season.
  assert (H : 1 <= max_requests_per_second (manager e)) by (cbn; lia).
  assert (Hok : transport_failure (Reply 2 200 doc) = false) by reflexivity.
  assert (Hgood : Bs4.soup_find "table" ["athleteBest"] good = Some good_table)
    by (vm_compute; reflexivity).
  assert (Hrun : fst (Athlete.list_personal_bests id season
                        (Fixtures.fresh [Reply 2 200 good]))
                 = Ok [Fixtures.best_record]) by (vm_compute; reflexivity).
  assert (Htable : Bs4.soup_find "table" ["athleteBest"] doc = Some table)
    by (vm_compute; reflexivity).
  assert (Hrows : Bs4.find_all "tr" ["athleteBest0"; "athleteBest1"] table
                  = [] ++ Fixtures.best_row_broken :: [Fixtures.best_row])
    by (vm_compute; reflexivity).
  assert (Hbad : Athlete.personal_best_row Fixtures.best_row_broken
                 = Raise AttributeError) by (vm_compute; reflexivity).
  destruct (listings_all_rows_or_first_exception 60
              (Fixtures.env0 [Reply 2 200 good]) 2%N 200 good []
              id season good_table H eq_refl Hok) as (Hall & _ & _).
  destruct (Hall Hgood) as [Hrecords _].
  destruct (listings_all_rows_or_first_exception 60 e 2%N 200 doc []
              id season table H eq_refl Hok) as (Hbests & _ & _).
  destruct (Hbests Htable) as [_ Hfirst].
  exact (conj H (conj Hok (conj Hgood (conj Hrun (conj (Hrecords _ Hrun)
           (conj Htable (conj Hrows (conj Hbad
              (Hfirst [] _ _ _ Hrows (List.Forall_nil _) Hbad))))))))).
Defined.

(** X16. [list_time_periods] and [list_nations] call [find_all] on what
    [soup.find] returned, outside their [try]: on a page without the menu
    they raise [AttributeError]. *)
Theorem menus_raise_without_select :
  forall (d : Z) (e : Env) lat code (doc : Bs4.soup) (rest : list response),
    1 <= max_requests_per_second (manager e) ->
    network (world e) = Reply lat code doc :: rest ->
    transport_failure (Reply lat code doc) = false ->
    let s := mkSys (ScraperMixin.init d) e in
    (Bs4.soup_find_attr "select" "name" "selectPage" doc = None ->
     fst (Meets.list_time_periods s) = Raise AttributeError) /\
    (Bs4.soup_find_attr "select" "name" "nationId" doc = None ->
     fst (Meets.list_nations s) = Raise AttributeError).
Proof.
  intros d e lat code doc rest HN Hnet Hok s. split; intros Hnone.
  - unfold Meets.list_time_periods, Meets.fetch_select, s. unfold bind at 1.
    first_reply d e lat code doc rest HN Hnet Hok. rewrite Hnone. reflexivity.
  - unfold Meets.list_nations, Meets.fetch_select, s. unfold bind at 1.
    first_reply d e lat code doc rest HN Hnet Hok. rewrite Hnone. reflexivity.
Qed.

Lemma menus_raise_without_select_witness :
  let e := Fixtures.env0 [Reply 2 200 Fixtures.blank_page] in
  let s := mkSys (ScraperMixin.init 60) e in
  1 <= max_requests_per_second (manager e) /\
  transport_failure (Reply 2 200 Fixtures.blank_page) = false /\
  Bs4.soup_find_attr "select" "name" "selectPage" Fixtures.blank_page = None /\
  Bs4.soup_find_attr "select" "name" "nationId" Fixtures.blank_page = None /\
  fst (Meets.list_time_periods s) = Raise AttributeError /\
  fst (Meets.list_nations s) = Raise AttributeError.
Proof.
  intros e s.
  assert (H : 1 <= max_requests_per_second (manager e)) by (cbn; lia).
  assert (Hok : transport_failure (Reply 2 200 Fixtures.blank_page) = false)
    by reflexivity.
  assert (H1 : Bs4.soup_find_attr "select" "name" "selectPage" Fixtures.blank_page = None)
    by reflexivity.
  assert (H2 : Bs4.soup_find_attr "select" "name" "nationId" Fixtures.blank_page = None)
    by reflexivity.
  destruct (menus_raise_without_select 60 e 2%N 200 Fixtures.blank_page []
              H eq_refl Hok) as (Hp & Hn).
  exact (conj H (conj Hok (conj H1 (conj H2 (conj (Hp H1) (Hn H2)))))).
Defined.

(** ** result.py *)

(** X19. Under a positive limit [Result.get_time] never raises: it
    returns the text of the first [td] of class [swimtimeLarge] of the page
    the facade object holds after the fetch, and [None] when there is no
    page or no such cell. *)
Theorem get_time_returns :
  forall (result_id : scalar) (s : Sys),
    1 <= limit s ->
    exists s',
      Result.get_time result_id s
      = (Ok match page_content (self s') with
            | Some doc =>
                option_map Bs4.text (Bs4.soup_find "td" ["swimtimeLarge"] doc)
            | None => None
            end,
         s').
Proof.
  intros result_id s HN.
  destruct (get_page_content_result
              (<["page" := PStr "resultDetail"]> (<["id" := result_id]> ∅)) s HN)
    as (s' & Hrun & _).
  exists s'. unfold Result.get_time, try_except, bind. rewrite Hrun.
  destruct (page_content (self s')) as [doc|]; [|reflexivity].
  cbn. destruct (Bs4.soup_find "td" ["swimtimeLarge"] doc); reflexivity.
Qed.

Lemma get_time_returns_witness :
  let s := Fixtures.fresh [Reply 2 200 Fixtures.blank_page] in
  1 <= limit s /\
  exists s',
    Result.get_time (PStr "123") s
    = (Ok match page_content (self s') with
          | Some doc =>
              option_map Bs4.text (Bs4.soup_find "td" ["swimtimeLarge"] doc)
          | None => None
          end,
       s').
Proof.
  intros s.
  assert (H : 1 <= limit s) by (vm_compute; discriminate).
  exact (conj H (get_time_returns (PStr "123") s H)).
Defined.

(** ** club.py *)

(** X20. [Club.list_athletes] picks the gender filter by list index: an
    index outside [-3 .. 2] raises [IndexError] before anything is
    requested, leaving everything as it was, and a negative index counts
    from the end (so [-1] selects the women, like [2]). *)
Theorem list_athletes_gender_index :
  forall (club_id : scalar) (gender : Z) (s : Sys),
    (gender < -3 \/ 2 < gender ->
     Club.list_athletes club_id gender s = (Raise IndexError, s)) /\
    (-3 <= gender < 0 ->
     Club.list_athletes club_id gender s
     = Club.list_athletes club_id (gender + 3) s).
Proof.
  intros club_id gender s. split.
  - intros Hout. unfold Club.list_athletes, bind, lift, list_index. cbn [length].
    destruct (gender <? 0) eqn:Hneg.
    + apply Z.ltb_lt in Hneg.
      replace ((0 <=? gender + Z.of_nat 3) && (gender + Z.of_nat 3 <? Z.of_nat 3))
        with false; [reflexivity|].
      symmetry. apply andb_false_iff. left. apply Z.leb_gt. cbn. lia.
    + apply Z.ltb_ge in Hneg.
      replace ((0 <=? gender) && (gender <? Z.of_nat 3)) with false; [reflexivity|].
      symmetry. apply andb_false_iff. right. apply Z.ltb_ge. cbn. lia.
  - intros Hneg.
    assert (Hcases : gender = -3 \/ gender = -2 \/ gender = -1) by lia.
    destruct Hcases as [->|[->| ->]]; reflexivity.
Qed.

Lemma list_athletes_gender_index_witness :
  let s := Fixtures.fresh [Reply 2 200 Fixtures.blank_page] in
  (3 < -3 \/ 2 < 3) /\ -3 <= -1 < 0 /\
  Club.list_athletes (PStr "89") 3 s = (Raise IndexError, s) /\
  Club.list_athletes (PStr "89") (-1) s = Club.list_athletes (PStr "89") (-1 + 3) s.
Proof.
  intros s.
  assert (Hout : 3 < -3 \/ 2 < 3) by lia.
  assert (Hneg : -3 <= -1 < 0) by lia.
  destruct (list_athletes_gender_index (PStr "89") 3 s) as [Hraise _].
  destruct (list_athletes_gender_index (PStr "89") (-1) s) as [_ Hwrap].
  exact (conj Hout (conj Hneg (conj (Hraise Hout) (Hwrap Hneg)))).
Defined.

(** ** meets.py *)

(** The options recorded by the loop: each is an [option] of the menu
    with a value outside [skipped], in page order. *)
Lemma options_ok id_key name_key skipped items :
  forall data out,
    Meets.options id_key name_key skipped items data = Ok out ->
    exists new,
      out = data ++ new /\
      Forall (fun r => exists item v,
                  In item items /\
                  Bs4.getitem item "value" = Ok v /\
                  ~ In v skipped /\
                  r !! id_key = Some (VStr v)) new.
Proof.
  induction items as [|item items IH]; intros data out; cbn [Meets.options].
  - intros [= <-]. exists []. rewrite app_nil_r. split; [reflexivity | constructor].
  - destruct (Bs4.getitem item "value") as [v|e] eqn:Hv; cbn [rbind]; [|discriminate].
    destruct (existsb (String.eqb v) skipped) eqn:Hskip.
    + intros Hrest. destruct (IH _ _ Hrest) as (new & -> & Hall).
      exists new. split; [reflexivity|].
      eapply Forall_impl; [exact Hall|]. cbn.
      intros r (it & v' & Hin & Hval & Hns & Hr). exists it, v'. auto.
    + intros Hrest. destruct (IH _ _ Hrest) as (new & -> & Hall).
      eexists (_ :: new). rewrite <- app_assoc. split; [reflexivity|].
      constructor.
      * exists item, v. split; [left; reflexivity|]. split; [exact Hv|].
        split; [|apply lookup_insert_eq].
        intros Hin. apply not_true_iff_false in Hskip. apply Hskip.
        apply existsb_exists. exists v. split; [exact Hin | apply String.eqb_refl].
      * eapply Forall_impl; [exact Hall|]. cbn.
        intros r (it & v' & Hin & Hval & Hns & Hr). exists it, v'. auto.
Qed.

(** X17. What [list_time_periods] returns never holds the entries
    [RECENT] or [BYTYPE], and what [list_nations] returns never holds the
    entry [$$$]: every record carries, under [period_id] (or [nation_id]),
    a value other than those. *)
Theorem menus_skip_placeholders :
  forall (s : Sys) (out : list Record_),
    (fst (Meets.list_time_periods s) = Ok out ->
     Forall (fun r => exists v, r !! "period_id" = Some (VStr v) /\
                                v <> "RECENT"%string /\ v <> "BYTYPE"%string) out) /\
    (fst (Meets.list_nations s) = Ok out ->
     Forall (fun r => exists v, r !! "nation_id" = Some (VStr v) /\
                                v <> "$$$"%string) out).
Proof.
  intros s out. split.
  - unfold Meets.list_time_periods, bind.
    destruct (Meets.fetch_select Meets.select_params "selectPage" s)
      as [[[menu|]|e] s']; cbn [fst ret lift].
    + unfold Meets.menu_options. destruct menu as [m|]; cbn [attr_of rbind];
        [|discriminate].
      intros Hrun. destruct (options_ok _ _ _ _ _ _ Hrun) as (new & -> & Hall).
      cbn [app]. eapply Forall_impl; [exact Hall|]. cbn.
      intros r (it & v & _ & _ & Hns & Hr). exists v. split; [exact Hr|].
      split; intros ->; apply Hns; cbn; tauto.
    + intros [= <-]. constructor.
    + discriminate.
  - unfold Meets.list_nations, bind.
    destruct (Meets.fetch_select Meets.select_params "nationId" s)
      as [[[menu|]|e] s']; cbn [fst ret lift].
    + unfold Meets.menu_options. destruct menu as [m|]; cbn [attr_of rbind];
        [|discriminate].
      intros Hrun. destruct (options_ok _ _ _ _ _ _ Hrun) as (new & -> & Hall).
      cbn [app]. eapply Forall_impl; [exact Hall|]. cbn.
      intros r (it & v & _ & _ & Hns & Hr). exists v. split; [exact Hr|].
      intros ->; apply Hns; cbn; tauto.
    + intros [= <-]. constructor.
    + discriminate.
Qed.

Lemma menus_skip_placeholders_witness :
  let s := Fixtures.fresh [Reply 2 200 Pages.select_page] in
  let periods : list Record_ :=
    [<["period_id" := VStr "2024_m05"]> (<["period_name" := VStr "May 2024"]> ∅)] in
  let nations : list Record_ :=
    [<["nation_id" := VStr "43"]> (<["nation_name" := VStr "BEL - Belgium"]> ∅)] in
  fst (Meets.list_time_periods s) = Ok periods /\
  fst (Meets.list_nations s) = Ok nations /\
  Forall (fun r => exists v, r !! "period_id" = Some (VStr v) /\
                             v <> "RECENT"%string /\ v <> "BYTYPE"%string) periods /\
  Forall (fun r => exists v, r !! "nation_id" = Some (VStr v) /\
                             v <> "$$$"%string) nations.
Proof.
  intros s periods nations.
  assert (Hp : fst (Meets.list_time_periods s) = Ok periods)
    by (vm_compute; reflexivity).
  assert (Hn : fst (Meets.list_nations s) = Ok nations)
    by (vm_compute; reflexivity).
  destruct (menus_skip_placeholders s periods) as [Hperiods _].
  destruct (menus_skip_placeholders s nations) as [_ Hnations].
  exact (conj Hp (conj Hn (conj (Hperiods Hp) (Hnations Hn)))).
Defined.

(** ** meet.py: list_races *)

Lemma races_ok tables :
  forall id data out,
    Meet.races id tables data = Ok out ->
    exists new,
      out = data ++ new /\
      length new = length tables /\
      forall (k : nat) r,
        new !! k = Some r -> r !! "race_id" = Some (VInt (id + Z.of_nat k + 1)).
Proof.
  induction tables as [|table tables IH]; intros id data out; cbn [Meet.races].
  - intros [= <-]. exists []. rewrite app_nil_r. split; [reflexivity|].
    split; [reflexivity|]. intros k r Hk. rewrite lookup_nil in Hk. discriminate.
  - destruct (attr_of (Bs4.find "tr" ["meetResultHead"] table)) as [head|e];
      cbn [rbind]; [|discriminate].
    destruct (attr_of (Bs4.find "th" ["event"] head)) as [cell|e];
      cbn [rbind]; [|discriminate].
    intros Hrest. destruct (IH _ _ _ Hrest) as (new & -> & Hlen & Hids).
    eexists (_ :: new). rewrite <- app_assoc. split; [reflexivity|].
    split; [cbn; rewrite Hlen; reflexivity|].
    intros [|k] r Hk.
    + cbn in Hk. injection Hk as <-. rewrite lookup_insert_eq.
      do 2 f_equal. lia.
    + cbn in Hk. rewrite (Hids _ _ Hk). do 2 f_equal. lia.
Qed.

(** X18. The races [list_races] returns are numbered from 1 in page
    order: the record at position [k] (counting from 0) has [race_id]
    [k + 1]. *)
Theorem list_races_numbers_from_one :
  forall (meet_id event_id gender : scalar) (s : Sys) (out : list Record_)
         (k : nat) (r : Record_),
    fst (Meet.list_races meet_id event_id gender s) = Ok out ->
    out !! k = Some r ->
    r !! "race_id" = Some (VInt (Z.of_nat k + 1)).
Proof.
  intros meet_id event_id gender s out k r.
  unfold Meet.list_races, bind.
  destruct (fetch_tables _ ["meetResult"] s) as [[[tables|]|e] s'];
    cbn [fst ret lift].
  - intros Hrun Hk. destruct (races_ok _ _ _ _ Hrun) as (new & -> & _ & Hids).
    cbn [app] in Hk. rewrite (Hids _ _ Hk). do 2 f_equal.
  - intros [= <-] Hk. rewrite lookup_nil in Hk. discriminate.
  - discriminate.
Qed.

Lemma list_races_numbers_from_one_witness :
  let s := Fixtures.fresh [Reply 2 200 Pages.races_page] in
  let final : Record_ :=
    <["race_id" := VInt 2]> (<["race_name" := VStr "Final"]> ∅) in
  let out : list Record_ :=
    [<["race_id" := VInt 1]> (<["race_name" := VStr "Prelims"]> ∅); final] in
  fst (Meet.list_races (PStr "640537") (PStr "1") (PStr "1") s) = Ok out /\
  out !! 1%nat = Some final /\
  final !! "race_id" = Some (VInt (Z.of_nat 1 + 1)).
Proof.
  intros s final out.
  assert (Hrun : fst (Meet.list_races (PStr "640537") (PStr "1") (PStr "1") s) = Ok out)
    by (vm_compute; reflexivity).
  assert (Hk : out !! 1%nat = Some final) by reflexivity.
  exact (conj Hrun (conj Hk
    (list_races_numbers_from_one _ _ _ s out 1%nat final Hrun Hk))).
Defined.

(** ** utils.py *)

(** X21. The marker changes nothing: a string that ends with a digit
    converts, or fails, exactly as the same string followed by [M]. *)
Theorem convert_time_marker_ignored :
  forall (s : string) (c : ascii) (d : Z),
    Str.last s = Some c ->
    Str.digit_val c = Some d ->
    Utils.convert_time (s ++ "M") = Utils.convert_time s.
Proof.
  intros s c d Hlast Hd.
  pose proof (convert_time_strip_marker s true c d Hlast Hd) as HM.
  pose proof (convert_time_strip_marker s false c d Hlast Hd) as Hplain.
  cbn [marker] in HM, Hplain. rewrite append_empty_r in Hplain.
  rewrite HM, Hplain. reflexivity.
Qed.

Lemma convert_time_marker_ignored_witness :
  Str.last "1:02.10" = Some "0"%char /\
  Str.digit_val "0" = Some 0 /\
  Utils.convert_time ("1:02.10" ++ "M") = Utils.convert_time "1:02.10".
Proof.
  exact (conj eq_refl (conj eq_refl
    (convert_time_marker_ignored "1:02.10" "0" 0 eq_refl eq_refl))).
Defined.

Lemma last_none (s : string) : Str.last s = None -> s = EmptyString.
Proof.
  induction s as [|c s IH]; [reflexivity|]. cbn [Str.last].
  destruct s as [|c' s]; [discriminate|].
  intros H. specialize (IH H). discriminate IH.
Qed.

(** X22. [convert_time] fails in two ways only: [IndexError] on the empty
    string and on nothing else, [ValueError] on every other string it
    cannot read. *)
Theorem convert_time_errors :
  forall (s : string) (e : exn),
    Utils.convert_time s = Raise e ->
    (e = IndexError /\ s = EmptyString) \/ (e = ValueError /\ s <> EmptyString).
Proof.
  intros s e. unfold Utils.convert_time.
  destruct (Str.last s) as [c|] eqn:Hlast.
  - intros Hrun. right.
    split; [|intros ->; discriminate].
    unfold rbind, Utils.strptime_time in Hrun.
    destruct (Utils.re_match _ _ _) as [[t [|x rest]]|] in Hrun;
      try (destruct (Utils.second t <=? 59) in Hrun); congruence.
  - intros [= <-]. left. split; [reflexivity | exact (last_none _ Hlast)].
Qed.

Lemma convert_time_errors_witness :
  Utils.convert_time "" = Raise IndexError /\
  Utils.convert_time "DSQ" = Raise ValueError /\
  ((IndexError = IndexError /\ ""%string = EmptyString) \/
   (IndexError = ValueError /\ ""%string <> EmptyString)) /\
  ((ValueError = IndexError /\ "DSQ"%string = EmptyString) \/
   (ValueError = ValueError /\ "DSQ"%string <> EmptyString)).
Proof.
  assert (H1 : Utils.convert_time "" = Raise IndexError) by reflexivity.
  assert (H2 : Utils.convert_time "DSQ" = Raise ValueError) by reflexivity.
  exact (conj H1 (conj H2 (conj (convert_time_errors _ _ H1)
                                (convert_time_errors _ _ H2)))).
Defined.

Lemma two_then_one_values ok2 s v rest :
  In (v, rest) (Utils.two_then_one ok2 s) ->
  0 <= v <= 9 \/
  exists d1 d2, v = 10 * d1 + d2 /\ ok2 d1 d2 = true /\
                0 <= d1 <= 9 /\ 0 <= d2 <= 9.
Proof.
  unfold Utils.two_then_one.
  destruct s as [|c1 rest1]; [intros []|].
  destruct (Str.digit_val c1) as [d1|] eqn:E1; [|intros []].
  pose proof (digit_range _ _ E1) as R1.
  intros Hin. apply in_app_or in Hin. destruct Hin as [Hin|Hin].
  - destruct rest1 as [|c2 rest2]; [destruct Hin|].
    destruct (Str.digit_val c2) as [d2|] eqn:E2; [|destruct Hin].
    pose proof (digit_range _ _ E2) as R2.
    destruct (ok2 d1 d2) eqn:Hok; [|destruct Hin].
    destruct Hin as [[= <- <-]|[]]. right. exists d1, d2. auto.
  - destruct Hin as [[= <- <-]|[]]. left. exact R1.
Qed.

Lemma frac_candidates_values n :
  forall acc s v rest,
    In (v, rest) (Utils.frac_candidates n acc s) ->
    acc <= v <= acc + 10 ^ Z.of_nat n - 1.
Proof.
  induction n as [|n IH]; intros acc s v rest; cbn [Utils.frac_candidates];
    [intros []|].
  destruct s as [|c s']; [intros []|].
  destruct (Str.digit_val c) as [d|] eqn:E; [|intros []].
  pose proof (digit_range _ _ E) as R.
  assert (Hpow : 10 ^ Z.of_nat (S n) = 10 * 10 ^ Z.of_nat n).
  { rewrite Nat2Z.inj_succ, Z.pow_succ_r by lia. reflexivity. }
  assert (Hpos : 0 < 10 ^ Z.of_nat n) by (apply Z.pow_pos_nonneg; lia).
  cbv zeta. intros Hin. apply in_app_or in Hin. destruct Hin as [Hin|Hin].
  - apply IH in Hin. rewrite Hpow. nia.
  - destruct Hin as [[= <- <-]|[]]. rewrite Hpow. nia.
Qed.

Lemma candidates_values d s v rest :
  In (v, rest) (Utils.candidates d s) -> value_ok d v.
Proof.
  destruct d; cbn [Utils.candidates value_ok]; intros Hin; try exact I.
  - apply two_then_one_values in Hin as [R|(d1 & d2 & -> & Hok & R1 & R2)]; [lia|].
    apply orb_true_iff in Hok as [Hok|Hok].
    + apply andb_true_iff in Hok as [H2 H3].
      apply Z.eqb_eq in H2. apply Z.leb_le in H3. lia.
    + apply Z.leb_le in Hok. lia.
  - apply two_then_one_values in Hin as [R|(d1 & d2 & -> & Hok & R1 & R2)]; [lia|].
    apply Z.leb_le in Hok. lia.
  - apply two_then_one_values in Hin as [R|(d1 & d2 & -> & Hok & R1 & R2)]; [lia|].
    apply orb_true_iff in Hok as [Hok|Hok].
    + apply andb_true_iff in Hok as [H6 H1].
      apply Z.eqb_eq in H6. apply Z.leb_le in H1. lia.
    + apply Z.leb_le in Hok. lia.
  - apply frac_candidates_values in Hin. cbn in Hin. lia.
Qed.

Lemma set_field_ok d v t :
  value_ok d v -> fields_ok t -> fields_ok (Utils.set_field d v t).
Proof.
  unfold fields_ok. destruct d; cbn; intros Hv (Hh & Hm & Hs & Hf); auto.
Qed.

Lemma re_match_fields_ok fmt :
  forall s t t' rest,
    fields_ok t ->
    Utils.re_match fmt s t = Some (t', rest) ->
    fields_ok t'.
Proof.
  induction fmt as [|d fmt IH]; intros s t t' rest Ht; cbn [Utils.re_match].
  - intros [= <- <-]. exact Ht.
  - pose proof (candidates_values d s) as Hvals. revert Hvals.
    generalize (Utils.candidates d s) as cs.
    induction cs as [|[v r] cs IHcs]; intros Hvals; [discriminate|].
    destruct (Utils.re_match fmt r (Utils.set_field d v t)) as [res|] eqn:Hres.
    + intros [= ->]. apply (IH _ _ _ _ (set_field_ok d v t (Hvals v r (or_introl eq_refl)) Ht) Hres).
    + apply IHcs. intros v' r' Hin. apply (Hvals v' r'). right. exact Hin.
Qed.

(** X23. Whatever [convert_time] returns is the seconds value of a time
    of day: hours within 0..23, minutes and seconds within 0..59 and a
    fraction below one second, so a swim of an hour or more fits but a
    seconds or minutes field of 60 or more is never accepted. *)
Theorem convert_time_fields_in_range :
  forall (s : string) (f : float),
    Utils.convert_time s = Ok f ->
    exists t : Utils.time,
      f = Utils.total_second t /\
      0 <= Utils.hour t <= 23 /\
      0 <= Utils.minute t <= 59 /\
      0 <= Utils.second t <= 59 /\
      0 <= Utils.microsecond t <= 999999.
Proof.
  intros s f. unfold Utils.convert_time.
  destruct (Str.last s) as [c|]; [|discriminate].
  unfold rbind, Utils.strptime_time.
  destruct (Utils.re_match _ _ _) as [[t [|x rest]]|] eqn:Hmatch; try discriminate.
  destruct (Utils.second t <=? 59) eqn:Hsec; [|discriminate].
  intros [= <-]. exists t. split; [reflexivity|].
  assert (Hok : fields_ok t).
  { assert (H0 : fields_ok (Utils.mkTime 0 0 0 0)) by (unfold fields_ok; cbn; lia).
    exact (re_match_fields_ok _ _ _ _ _ H0 Hmatch). }
  destruct Hok as (Hh & Hm & Hs & Hf). apply Z.leb_le in Hsec. lia.
Qed.

Lemma convert_time_fields_in_range_witness :
  Utils.convert_time "1:02:03.450" = Ok (Utils.total_second (Utils.mkTime 1 2 3 450000)) /\
  exists t : Utils.time,
    Utils.total_second (Utils.mkTime 1 2 3 450000) = Utils.total_second t /\
    0 <= Utils.hour t <= 23 /\
    0 <= Utils.minute t <= 59 /\
    0 <= Utils.second t <= 59 /\
    0 <= Utils.microsecond t <= 999999.
Proof.
  assert (H : Utils.convert_time "1:02:03.450"
              = Ok (Utils.total_second (Utils.mkTime 1 2 3 450000)))
    by (vm_compute; reflexivity).
  exact (conj H (convert_time_fields_in_range _ _ H)).
Defined.

(** Zeros after the last digit of a fraction do not change it. *)
Lemma fraction_units_pad n fs us :
  fraction_units n fs = Some us ->
  (String.length fs < n)%nat ->
  fraction_units n (fs ++ "0") = Some us.
Proof.
  revert n us. induction fs as [|c fs IH]; intros n us.
  - cbn. intros [= <-] Hlen. destruct n as [|n]; [lia|]. reflexivity.
  - rewrite append_cons. cbn [fraction_units String.length].
    destruct n as [|n]; [discriminate|].
    destruct (Str.digit_val c) as [d|]; [|discriminate].
    destruct (fraction_units n fs) as [r|] eqn:F; [|discriminate].
    intros [= <-] Hlen. rewrite (IH n r F) by lia. reflexivity.
Qed.

Lemma fraction_micros_pad fs us :
  fraction_micros fs = Some us ->
  (String.length fs < 6)%nat ->
  fraction_micros (fs ++ "0") = Some us.
Proof.
  unfold fraction_micros. destruct fs as [|c fs]; [discriminate|].
  intros Hf Hlen. rewrite append_cons. rewrite <- append_cons.
  exact (fraction_units_pad 6 _ _ Hf Hlen).
Qed.

(** X24. The fraction is read as a decimal fraction, not as a count: with
    fewer than six digits after the point, one more zero at the end gives
    the same value (["23.5"], ["23.50"] and ["23.500"] are the same
    time). *)
Theorem convert_time_trailing_zero :
  forall (hs ms ss fs : string) (h m s us : Z) (manual : bool),
    field_value hs = Some h -> h <= 23 ->
    field_value ms = Some m -> m <= 59 ->
    field_value ss = Some s -> s <= 59 ->
    fraction_micros fs = Some us ->
    (String.length fs < 6)%nat ->
    Utils.convert_time
      ((hs ++ ":" ++ ms ++ ":" ++ ss ++ "." ++ (fs ++ "0")) ++ marker manual)
    = Utils.convert_time
        ((hs ++ ":" ++ ms ++ ":" ++ ss ++ "." ++ fs) ++ marker manual) /\
    Utils.convert_time ((ms ++ ":" ++ ss ++ "." ++ (fs ++ "0")) ++ marker manual)
    = Utils.convert_time ((ms ++ ":" ++ ss ++ "." ++ fs) ++ marker manual) /\
    Utils.convert_time ((ss ++ "." ++ (fs ++ "0")) ++ marker manual)
    = Utils.convert_time ((ss ++ "." ++ fs) ++ marker manual).
Proof.
  intros hs ms ss fs h m s us manual Hh Hh' Hm Hm' Hs Hs' Hf Hlen.
  pose proof (fraction_micros_pad _ _ Hf Hlen) as Hf0.
  split; [|split].
  - rewrite (convert_time_HMS hs ms ss (fs ++ "0") h m s us manual Hh Hh' Hm Hm' Hs Hs' Hf0).
    rewrite (convert_time_HMS hs ms ss fs h m s us manual Hh Hh' Hm Hm' Hs Hs' Hf).
    reflexivity.
  - rewrite (convert_time_MS ms ss (fs ++ "0") m s us manual Hm Hm' Hs Hs' Hf0).
    rewrite (convert_time_MS ms ss fs m s us manual Hm Hm' Hs Hs' Hf).
    reflexivity.
  - rewrite (convert_time_S ss (fs ++ "0") s us manual Hs Hs' Hf0).
    rewrite (convert_time_S ss fs s us manual Hs Hs' Hf).
    reflexivity.
Qed.

Lemma convert_time_trailing_zero_witness :
  field_value "1" = Some 1 /\ 1 <= 23 /\
  field_value "02" = Some 2 /\ 2 <= 59 /\
  field_value "23" = Some 23 /\ 23 <= 59 /\
  fraction_micros "5" = Some 500000 /\
  (String.length "5" < 6)%nat /\
  Utils.convert_time (("23" ++ "." ++ ("5" ++ "0")) ++ marker false)
  = Utils.convert_time (("23" ++ "." ++ "5") ++ marker false).
Proof.
  assert (H23 : 1 <= 23) by lia.
  assert (H59 : 2 <= 59) by lia.
  assert (H59' : 23 <= 59) by lia.
  assert (Hlen : (String.length "5" < 6)%nat) by (cbn; lia).
  destruct (convert_time_trailing_zero "1" "02" "23" "5" 1 2 23 500000 false
              eq_refl H23 eq_refl H59 eq_refl H59' eq_refl Hlen)%string
    as (_ & _ & Hs).
  exact (conj eq_refl (conj H23 (conj eq_refl (conj H59 (conj eq_refl (conj H59'
          (conj eq_refl (conj Hlen Hs)))))))).
Defined.

(** X12. A record of [list_personal_bests] has exactly the keys
    [result_id], [event_name], [course_length], [time] and [FINA Points];
    its [time] is the conversion by [convert_time] of the text of the
    row's time cell, and its [result_id] the integer read from the [id]
    parameter of that cell's link. *)
Theorem personal_best_record_fields :
  forall (row : Bs4.node) (r : Record_),
    Athlete.personal_best_row row = Ok r ->
    dom r = {[ "result_id"; "event_name"; "course_length"; "time";
               "FINA Points" ]} /\
    exists time_cell seconds url id_text result_id,
      Bs4.find "td" ["time"; "swimtimeImportant"] row = Some time_cell /\
      Utils.convert_time (Bs4.get_text_strip time_cell) = Ok seconds /\
      r !! "time" = Some (VFloat seconds) /\
      subscript (Bs4.find "a" [] time_cell) "href" = Ok url /\
      Py.parse_qs_first (Py.urlparse_query url) "id" = Ok id_text /\
      Py.int id_text = Ok result_id /\
      r !! "result_id" = Some (VInt result_id).
Proof.
  intros row r. unfold Athlete.personal_best_row, rbind.
  destruct (attr_of (Bs4.find "td" ["event"] row)) as [event_cell|]; [|discriminate].
  destruct (attr_of (Bs4.find "a" [] event_cell)) as [event_link|]; [|discriminate].
  destruct (attr_of (Bs4.find "td" ["course"] row)) as [course_cell|]; [|discriminate].
  destruct (Bs4.find "td" ["time"; "swimtimeImportant"] row) as [time_cell|];
    cbn [attr_of]; [|discriminate].
  destruct (Utils.convert_time (Bs4.get_text_strip time_cell)) as [seconds|] eqn:Ht;
    [|discriminate].
  destruct (subscript (Bs4.find "a" [] time_cell) "href") as [url|] eqn:Hu;
    [|discriminate].
  destruct (Py.parse_qs_first (Py.urlparse_query url) "id") as [id_text|] eqn:Hq;
    [|discriminate].
  destruct (Py.int id_text) as [result_id|] eqn:Hi; [|discriminate].
  destruct (attr_of (Bs4.find "td" ["code"] row)) as [code_cell|]; [|discriminate].
  intros [= <-]. split.
  - rewrite !dom_insert_L, dom_empty_L. set_solver.
  - exists time_cell, seconds, url, id_text, result_id.
    repeat split; try assumption; reflexivity.
Qed.

Lemma personal_best_record_fields_witness :
  Athlete.personal_best_row Fixtures.best_row = Ok Fixtures.best_record /\
  dom Fixtures.best_record
  = {[ "result_id"; "event_name"; "course_length"; "time"; "FINA Points" ]} /\
  exists time_cell seconds url id_text result_id,
    Bs4.find "td" ["time"; "swimtimeImportant"] Fixtures.best_row = Some time_cell /\
    Utils.convert_time (Bs4.get_text_strip time_cell) = Ok seconds /\
    Fixtures.best_record !! "time" = Some (VFloat seconds) /\
    subscript (Bs4.find "a" [] time_cell) "href" = Ok url /\
    Py.parse_qs_first (Py.urlparse_query url) "id" = Ok id_text /\
    Py.int id_text = Ok result_id /\
    Fixtures.best_record !! "result_id" = Some (VInt result_id).
Proof.
  assert (H : Athlete.personal_best_row Fixtures.best_row = Ok Fixtures.best_record)
    by (vm_compute; reflexivity).
  exact (conj H (personal_best_record_fields _ _ H)).
Defined.

(** X13. In a record of [search_athletes] the gender is ["m"] or ["f"]:
    ["m"] exactly when the first image of the row has [gender1.png] in its
    source, and ["f"] in every other case, a row without any image
    included; the [athlete_id] is the integer read from the link of the
    name cell. *)
Theorem search_record_gender_and_id :
  forall (row : Bs4.node) (r : Record_),
    Athlete.search_row row = Ok (Some r) ->
    (r !! "gender" = Some (VStr "m") \/ r !! "gender" = Some (VStr "f")) /\
    (Bs4.find "img" [] row = None -> r !! "gender" = Some (VStr "f")) /\
    (forall img src,
        Bs4.find "img" [] row = Some img -> Bs4.getitem img "src" = Ok src ->
        r !! "gender"
        = Some (VStr (if Py.contains "gender1.png" src then "m" else "f"))) /\
    exists z, r !! "athlete_id" = Some (VInt z).
Proof.
  intros row r. unfold Athlete.search_row.
  destruct (Bs4.find "td" ["name"] row) as [name_cell|]; [|discriminate].
  destruct (Bs4.find "a" [] name_cell) as [name_link|]; [|discriminate].
  unfold rbind.
  destruct (Bs4.getitem _ "href") as [url|]; [|discriminate].
  destruct (Py.parse_qs_first _ _) as [id|]; [|discriminate].
  destruct (Py.int id) as [z|]; [|discriminate].
  destruct (Bs4.find "img" [] row) as [img|].
  - destruct (Bs4.getitem img "src") as [src|] eqn:Hsrc; [|discriminate].
    intros [= <-]. split; [|split; [|split]].
    + destruct (Py.contains "gender1.png" src); [left | right]; reflexivity.
    + discriminate.
    + intros img' src' Himg Hsrc'. injection Himg as <-.
      rewrite Hsrc in Hsrc'. injection Hsrc' as <-. reflexivity.
    + exists z. reflexivity.
  - intros [= <-]. split; [|split; [|split]].
    + right. reflexivity.
    + reflexivity.
    + discriminate.
    + exists z. reflexivity.
Qed.

Lemma search_record_gender_and_id_witness :
  Athlete.search_row Fixtures.search_row_no_code
  = Ok (Some Fixtures.search_record_no_code) /\
  Bs4.find "img" [] Fixtures.search_row_no_code = None /\
  Bs4.find "img" [] Fixtures.search_row_full = Some Fixtures.gender_img /\
  Bs4.getitem Fixtures.gender_img "src" = Ok "images/gender1.png"%string /\
  Fixtures.search_record_no_code !! "gender" = Some (VStr "f") /\
  Fixtures.search_record_full !! "gender"
  = Some (VStr (if Py.contains "gender1.png" "images/gender1.png" then "m" else "f")).
Proof.
  assert (H : Athlete.search_row Fixtures.search_row_no_code
              = Ok (Some Fixtures.search_record_no_code))
    by (vm_compute; reflexivity).
  assert (H' : Athlete.search_row Fixtures.search_row_full
               = Ok (Some Fixtures.search_record_full))
    by (vm_compute; reflexivity).
  assert (Hnone : Bs4.find "img" [] Fixtures.search_row_no_code = None)
    by (vm_compute; reflexivity).
  assert (Himg : Bs4.find "img" [] Fixtures.search_row_full = Some Fixtures.gender_img)
    by (vm_compute; reflexivity).
  assert (Hsrc : Bs4.getitem Fixtures.gender_img "src" = Ok "images/gender1.png"%string)
    by (vm_compute; reflexivity).
  destruct (search_record_gender_and_id _ _ H) as (_ & Hf & _ & _).
  destruct (search_record_gender_and_id _ _ H') as (_ & _ & Hm & _).
  exact (conj H (conj Hnone (conj Himg (conj Hsrc
           (conj (Hf Hnone) (Hm _ _ Himg Hsrc)))))).
Defined.

(** X8. A reply without an error status is stored and recorded: the page
    and [last_updated] are set, the history gains a last entry that was
    read from the clock no earlier than [last_updated], the recorded
    parameters stay, and the console gets the ["Empty response"] line
    exactly when the page has no [body]. *)
Theorem reply_stored_then_recorded :
  forall (o : ScraperMixin) (h : list Z) (N W : Z) (w : World) (p : Params)
         lat code (doc : Bs4.soup) (rest : list response),
    1 <= N ->
    network w = Reply lat code doc :: rest ->
    transport_failure (Reply lat code doc) = false ->
    exists s' updated recorded h',
      ScraperMixin._update_page_content p
        (mkSys o (mkEnv (mkSessionManager h N W) w)) = (Ok tt, s') /\
      page_content (self s') = Some doc /\
      last_updated (self s') = Some updated /\
      last_request (self s') = last_request o /\
      request_history (manager (env s')) = h' ++ [recorded] /\
      incl h' h /\
      now w + Z.of_N lat <= updated /\
      updated <= recorded /\
      recorded <= now (world (env s')) /\
      stdout (world (env s'))
      = stdout w ++ match Bs4.soup_find "body" [] doc with
                    | Some _ => []
                    | None => [EmptyResponse]
                    end.
Proof.
  intros o h N W w p lat code doc rest HN Hnet Hok. cbn in Hok.
  destruct (check_returns_pruned h N W w HN) as (h' & dt & Hdt & Hincl & Hchk).
  unfold ScraperMixin._update_page_content, try_except, bind, on_env; cbn.
  cbn in Hchk. rewrite Hchk; cbn. rewrite Hnet; cbn.
  unfold raise_for_status; cbn. rewrite Hok; cbn.
  destruct (Bs4.soup_find "body" [] doc); cbn.
  - eexists _, _, _, h'. split; [reflexivity|].
    rewrite app_nil_r. repeat split; try reflexivity; [exact Hincl | lia].
  - eexists _, _, _, h'. split; [reflexivity|].
    repeat split; try reflexivity; [exact Hincl | lia].
Qed.

Lemma reply_stored_then_recorded_witness :
  let w := mkWorld 1000 [Reply 3 200 Fixtures.empty_reply] [] [] in
  1 <= 15 /\
  transport_failure (Reply 3 200 Fixtures.empty_reply) = false /\
  exists s' updated recorded h',
    ScraperMixin._update_page_content Fixtures.params_a
      (mkSys (ScraperMixin.init 60) (mkEnv (mkSessionManager [990] 15 30) w))
    = (Ok tt, s') /\
    page_content (self s') = Some Fixtures.empty_reply /\
    last_updated (self s') = Some updated /\
    last_request (self s') = last_request (ScraperMixin.init 60) /\
    request_history (manager (env s')) = h' ++ [recorded] /\
    incl h' [990] /\
    now w + Z.of_N 3 <= updated /\
    updated <= recorded /\
    recorded <= now (world (env s')) /\
    stdout (world (env s'))
    = stdout w ++ match Bs4.soup_find "body" [] Fixtures.empty_reply with
                  | Some _ => []
                  | None => [EmptyResponse]
                  end.
Proof.
  intros w.
  assert (H : 1 <= 15) by lia.
  assert (Hok : transport_failure (Reply 3 200 Fixtures.empty_reply) = false)
    by reflexivity.
  exact (conj H (conj Hok
    (reply_stored_then_recorded (ScraperMixin.init 60) [990] 15 30 w
       Fixtures.params_a 3%N 200 Fixtures.empty_reply [] H eq_refl Hok))).
Defined.
